(** * Camera surveillance pipeline: motion debouncing, recording sink, supervisor

    A shallow embedding of [src/motion_detector.py], [src/recorder.py] and
    the state machine of [src/main.py].  Python objects become records,
    the dictionaries keyed by camera id become [gmap string _], in-place
    mutation becomes explicit state passing and raised exceptions become
    values of [Result].  Wall-clock readings ([time.time()]) are integers
    in a fixed clock unit. *)

From Stdlib Require Import ZArith Lia.
From Stdlib Require SpecFloat.
From stdpp Require Import gmap strings list.

Local Open Scope Z_scope.

(** ** Python run-time notions used by the sources *)

Inductive PyExn : Type :=
| KeyError (key : string)
| TypeError (msg : string)
| NameError (name : string)
| Exception (msg : string).

Inductive Result (A : Type) : Type :=
| Ok (a : A)
| Raise (e : PyExn).
Arguments Ok {A} a.
Arguments Raise {A} e.

(** A method of an object with state [S]: it returns normally or raises,
    and in both cases the mutations performed so far are kept. *)
Definition M (S A : Type) : Type := S -> Result A * S.

Definition ret {S A} (a : A) : M S A := fun s => (Ok a, s).
Definition raise {S A} (e : PyExn) : M S A := fun s => (Raise e, s).
Definition bind {S A B} (m : M S A) (k : A -> M S B) : M S B :=
  fun s => match m s with
           | (Ok a, s') => k a s'
           | (Raise e, s') => (Raise e, s')
           end.
Definition get {S} : M S S := fun s => (Ok s, s).
Definition modify {S} (f : S -> S) : M S unit := fun s => (Ok tt, f s).
(** [try: body except Exception as e: handler e] *)
Definition try_except {S A} (body : M S A) (handler : PyExn -> M S A) : M S A :=
  fun s => match body s with
           | (Ok a, s') => (Ok a, s')
           | (Raise e, s') => handler e s'
           end.

Notation "'let*' x ':=' m 'in' k" := (bind m (fun x => k))
  (at level 10, x name, m at level 100, k at level 200).
Notation "'do' m 'then' k" := (bind m (fun _ => k))
  (at level 10, m at level 100, k at level 200).

(** ** Frames and OpenCV *)

(** A BGR pixel and a frame as rows of pixels ([frame[y][x]]). *)
Definition Pixel : Type := (Z * Z * Z)%type.
Definition Frame : Type := list (list Pixel).

(** [frame.shape[:2]] is (height, width). *)
Definition shape (frame : Frame) : Z * Z :=
  (Z.of_nat (length frame), Z.of_nat (length (hd [] frame))).


Definition green : Pixel := (0, 255, 0).
Definition red : Pixel := (0, 0, 255).

(** A contour as the detector uses it: [cv2.contourArea] and
    [cv2.boundingRect] = (x, y, w, h). *)
Record Contour : Type := {
  contourArea : Z;
  boundingRect : Z * Z * Z * Z
}.

(** The OpenCV calls of the sources.  The image-processing chain of
    [detect] up to [cv2.findContours] (grey conversion, blur, background
    subtraction, ROI masking, thresholding, morphology) is a function of
    the frames the background subtractor has absorbed so far, of the
    current frame and of the ROI rectangle.
    [cv2.rectangle(img, pt1, pt2, color, thickness)] draws on [img] in
    place; which pixels a thick outline covers is left to OpenCV.
    [cv2.resize(img, dsize)] gives the scaled image. *)
Record Vision : Type := {
  findContours : list Frame -> Frame -> Z * Z * Z * Z -> list Contour;
  rectangle : Frame -> Z * Z -> Z * Z -> Pixel -> Z -> Frame;
  resize : Frame -> Z * Z -> Frame
}.


(** An entry of [roi_percentage] as the configuration spells it: an
    integer, or a decimal [num / den], which is read as the nearest
    binary64 float. *)
Inductive Fraction : Type :=
| PyInt (z : Z)
| PyFloat (num : Z) (den : positive).

(** Python floats are binary64: 53 bits of precision, exponents below
    1024; arithmetic rounds to nearest, ties to even. *)
Definition float_of_int (z : Z) : SpecFloat.spec_float :=
  SpecFloat.binary_normalize 53 1024 z 0 false.

Definition float_of_fraction (q : Fraction) : SpecFloat.spec_float :=
  match q with
  | PyInt z => float_of_int z
  | PyFloat num den =>
      SpecFloat.SFdiv 53 1024 (float_of_int num) (float_of_int (Z.pos den))
  end.

(** [int(x)] for a float: truncation towards zero; [None] for an
    infinity or a NaN, where Python raises. *)
Definition int_of_float (x : SpecFloat.spec_float) : option Z :=
  match x with
  | SpecFloat.S754_zero _ => Some 0
  | SpecFloat.S754_finite negative m e =>
      let magnitude :=
        if 0 <=? e then Z.pos m * 2 ^ e else Z.pos m / 2 ^ (- e) in
      Some (if negative then - magnitude else magnitude)
  | _ => None
  end.

(** [int(q * n)] for an entry [q] and a frame side [n]: exact for an
    integer entry; for a float entry the side is converted, the product
    is rounded and the result truncated.  The product is finite for
    entries and sides below 2^500; beyond, where [int] raises
    [OverflowError], the value here is 0. *)
Definition int_scale (q : Fraction) (n : Z) : Z :=
  match q with
  | PyInt z => z * n
  | PyFloat _ _ =>
      default 0
        (int_of_float
           (SpecFloat.SFmul 53 1024 (float_of_fraction q) (float_of_int n)))
  end.

(** ** motion_detector.py *)

Module MotionDetector.

Record t : Type := {
  roi_percentage : Fraction * Fraction * Fraction * Fraction;
  threshold : Z;
  min_motion_frames : Z;
  bg_subtractor : list Frame;
  motion_frames : Z;
  no_motion_frames : Z
}.

(** The default [[0, 0, 1, 1]]. *)
Definition whole : Fraction * Fraction * Fraction * Fraction :=
  (PyInt 0, PyInt 0, PyInt 1, PyInt 1).

(** [__init__] *)
Definition init (roi : Fraction * Fraction * Fraction * Fraction)
    (thr k : Z) : t :=
  {| roi_percentage := roi; threshold := thr; min_motion_frames := k;
     bg_subtractor := []; motion_frames := 0; no_motion_frames := 0 |}.

(** The rectangle returned by [get_roi_mask]. *)
Definition get_roi_mask (self : t) (frame_shape : Z * Z) : Z * Z * Z * Z :=
  let '(height, width) := frame_shape in
  let '(r0, r1, r2, r3) := roi_percentage self in
  (int_scale r0 width, int_scale r1 height,
   int_scale r2 width, int_scale r3 height).

Definition set_counters (self : t) (m n : Z) : t :=
  {| roi_percentage := roi_percentage self; threshold := threshold self;
     min_motion_frames := min_motion_frames self;
     bg_subtractor := bg_subtractor self;
     motion_frames := m; no_motion_frames := n |}.

Definition absorb (self : t) (frame : Frame) : t :=
  {| roi_percentage := roi_percentage self; threshold := threshold self;
     min_motion_frames := min_motion_frames self;
     bg_subtractor := bg_subtractor self ++ [frame];
     motion_frames := motion_frames self;
     no_motion_frames := no_motion_frames self |}.

(** The tail of [detect] ("Update motion tracking" and the return). *)
Definition track (self : t) (motion_detected : bool) : t * bool :=
  let self' :=
    if motion_detected then
      set_counters self (motion_frames self + 1) 0
    else
      let n := no_motion_frames self + 1 in
      if 5 <? n then set_counters self 0 n
      else set_counters self (motion_frames self) n in
  (self', min_motion_frames self' <=? motion_frames self').

(** The loop over the contours: sets [motion_detected] and draws a green
    box on the frame for every contour that reaches the threshold. *)
Definition mark_contours (cv : Vision) (self : t) (contours : list Contour)
    (frame : Frame) : bool * Frame :=
  fold_left (fun acc contour =>
               if contourArea contour <? threshold self then acc
               else
                 let '(x, y, w, h) := boundingRect contour in
                 (true, rectangle cv (snd acc) (x, y) (x + w, y + h) green 2))
            contours (false, frame).

(** [detect]: the returned frame is the caller's frame object after the
    call. *)
Definition detect (cv : Vision) (self : t) (frame : Frame) : t * Frame * bool :=
  let roi_coords := get_roi_mask self (shape frame) in
  let contours := findContours cv (bg_subtractor self) frame roi_coords in
  let self1 := absorb self frame in
  let '(motion_detected, frame1) := mark_contours cv self1 contours frame in
  let '(x1, y1, x2, y2) := roi_coords in
  let frame2 := rectangle cv frame1 (x1, y1) (x2, y2) red 2 in
  let '(self2, confirmed) := track self1 motion_detected in
  (self2, frame2, confirmed).

(** [reset] *)
Definition reset (self : t) : t := set_counters self 0 0.

(** The detector driven by a stream of per-frame contour results. *)
Definition feed (self : t) (stream : list bool) : t :=
  fold_left (fun d b => fst (track d b)) stream self.

(** The qualifying streak as the debounce policy words it, independent
    of the counters of the code: scanning back from the most recent
    frame, qualifying frames are counted, gaps of up to five
    non-qualifying frames are passed over, and a run of six
    non-qualifying frames ends the count. *)
Fixpoint spec_streak_back (gap : nat) (rev_stream : list bool) : Z :=
  match rev_stream with
  | [] => 0
  | true :: r => 1 + spec_streak_back 0 r
  | false :: r => if (6 <=? S gap)%nat then 0 else spec_streak_back (S gap) r
  end.

Definition spec_streak (stream : list bool) : Z :=
  spec_streak_back 0 (rev stream).

(** Length of the run of non-qualifying frames at the head of a list. *)
Fixpoint lead_gap (l : list bool) : nat :=
  match l with
  | false :: r => S (lead_gap r)
  | _ => 0%nat
  end.

(** A contour passes the area test of the loop. *)
Definition qualifies (self : t) (contour : Contour) : bool :=
  negb (contourArea contour <? threshold self).

(** What the debounce logic reads of a detector. *)
Definition counters (self : t) : Z * Z * Z :=
  (motion_frames self, no_motion_frames self, min_motion_frames self).

(** The per-frame outcome of the contour search: some contour passes the
    area test. *)
Definition outcome (cv : Vision) (self : t) (frame : Frame) : bool :=
  existsb (qualifies self)
    (findContours cv (bg_subtractor self) frame
       (get_roi_mask self (shape frame))).

(** The detector after [detect] on each frame of a sequence, and the
    outcomes of the contour search along the way. *)
Fixpoint detect_all (cv : Vision) (self : t) (frames : list Frame) : t :=
  match frames with
  | [] => self
  | frame :: rest => detect_all cv (fst (fst (detect cv self frame))) rest
  end.

Fixpoint outcomes (cv : Vision) (self : t) (frames : list Frame) : list bool :=
  match frames with
  | [] => []
  | frame :: rest =>
      outcome cv self frame
      :: outcomes cv (fst (fst (detect cv self frame))) rest
  end.

(** The corners of the box drawn for a contour. *)
Definition box (contour : Contour) : (Z * Z) * (Z * Z) :=
  let '(x, y, w, h) := boundingRect contour in ((x, y), (x + w, y + h)).

(** A call of [cv2.rectangle] with thickness 2: the two corners and the
    colour. *)
Definition Overlay : Type := ((Z * Z) * (Z * Z) * Pixel)%type.


Definition draw (cv : Vision) (frame : Frame) (l : list Overlay) : Frame :=
  fold_left (fun img o => rectangle cv img (fst (fst o)) (snd (fst o)) (snd o) 2)
    l frame.

End MotionDetector.

(** ** recorder.py *)

Module VideoRecorder.

(** The [cv2.VideoWriter] owned by the recorder: the file it was asked to
    create, whether it could be opened, the frames written so far. *)
Record VideoWriter : Type := {
  target : string;
  frame_size : Z * Z;
  isOpened : bool;
  written : list Frame;
  released : bool
}.

Inductive Thread : Type := Running | Finished.

Record t : Type := {
  output_dir : string;
  camera_name : string;
  fps : Z;
  codec : string;
  is_recording : bool;
  video_writer : option VideoWriter;
  frame_queue : list Frame;
  recording_thread : option Thread;
  last_video_path : option string;
  start_time : option Z
}.

(** [queue.Queue(maxsize=100)] *)
Definition maxsize : nat := 100.

(** [__init__] *)
Definition init (dir cam : string) (rate : Z) (cc : string) : t :=
  {| output_dir := dir; camera_name := cam; fps := rate; codec := cc;
     is_recording := false; video_writer := None; frame_queue := [];
     recording_thread := None; last_video_path := None;
     start_time := None |}.

Definition set_is_recording (b : bool) (self : t) : t :=
  {| output_dir := output_dir self; camera_name := camera_name self;
     fps := fps self; codec := codec self;
     is_recording := b; video_writer := video_writer self;
     frame_queue := frame_queue self;
     recording_thread := recording_thread self;
     last_video_path := last_video_path self;
     start_time := start_time self |}.

Definition set_video_writer (w : option VideoWriter) (self : t) : t :=
  {| output_dir := output_dir self; camera_name := camera_name self;
     fps := fps self; codec := codec self;
     is_recording := is_recording self; video_writer := w;
     frame_queue := frame_queue self;
     recording_thread := recording_thread self;
     last_video_path := last_video_path self;
     start_time := start_time self |}.

Definition set_frame_queue (q : list Frame) (self : t) : t :=
  {| output_dir := output_dir self; camera_name := camera_name self;
     fps := fps self; codec := codec self;
     is_recording := is_recording self; video_writer := video_writer self;
     frame_queue := q;
     recording_thread := recording_thread self;
     last_video_path := last_video_path self;
     start_time := start_time self |}.

Definition set_recording_thread (th : option Thread) (self : t) : t :=
  {| output_dir := output_dir self; camera_name := camera_name self;
     fps := fps self; codec := codec self;
     is_recording := is_recording self; video_writer := video_writer self;
     frame_queue := frame_queue self;
     recording_thread := th;
     last_video_path := last_video_path self;
     start_time := start_time self |}.

Definition set_last_video_path (p : option string) (self : t) : t :=
  {| output_dir := output_dir self; camera_name := camera_name self;
     fps := fps self; codec := codec self;
     is_recording := is_recording self; video_writer := video_writer self;
     frame_queue := frame_queue self;
     recording_thread := recording_thread self;
     last_video_path := p;
     start_time := start_time self |}.

Definition set_start_time (c : option Z) (self : t) : t :=
  {| output_dir := output_dir self; camera_name := camera_name self;
     fps := fps self; codec := codec self;
     is_recording := is_recording self; video_writer := video_writer self;
     frame_queue := frame_queue self;
     recording_thread := recording_thread self;
     last_video_path := last_video_path self;
     start_time := c |}.

(** [self.frame_queue.full()] *)
Definition full (self : t) : bool := (maxsize <=? length (frame_queue self))%nat.

(** [add_frame]; [frame.copy()] is the frame itself in a model of
    values. *)
Definition add_frame (frame : Frame) : M t unit := fun self =>
  if is_recording self && negb (full self) then
    (Ok tt, set_frame_queue (frame_queue self ++ [frame]) self)
  else (Ok tt, self).

(** [start_recording].  [timestamp] is the rendering of
    [datetime.now()], [opens] tells whether the encoder target could be
    created and [clock] is the reading of [time.time()]. *)
Definition start_recording (first_frame : Frame) (timestamp : string)
    (opens : bool) (clock : Z) : M t unit := fun self =>
  if is_recording self then (Ok tt, self)
  else
    let self := set_is_recording true self in
    let path := output_dir self +:+ "/" +:+ camera_name self +:+ "_"
                +:+ timestamp +:+ ".mp4" in
    let self := set_last_video_path (Some path) self in
    let writer := {| target := path;
                     frame_size := (snd (shape first_frame),
                                    fst (shape first_frame));
                     isOpened := opens; written := []; released := false |} in
    let self := set_video_writer (Some writer) self in
    if negb opens then
      (Raise (Exception ("Failed to open video writer for " +:+ path)), self)
    else
      let self := set_recording_thread (Some Running) self in
      let self := snd (add_frame first_frame self) in
      (Ok tt, set_start_time (Some clock) self).

Definition write (frame : Frame) (w : VideoWriter) : VideoWriter :=
  {| target := target w; frame_size := frame_size w; isOpened := isOpened w;
     written := written w ++ [frame]; released := released w |}.

Definition release (w : VideoWriter) : VideoWriter :=
  {| target := target w; frame_size := frame_size w; isOpened := isOpened w;
     written := written w; released := true |}.

(** One turn of the consumer thread's [_recording_loop], while that
    thread runs: write the oldest buffered frame, or, when the recorder
    is stopped and the buffer is empty, leave the loop and release the
    writer. *)
Definition recording_loop_step (self : t) : t :=
  match recording_thread self with
  | Some Running =>
      match frame_queue self with
      | frame :: rest =>
          set_frame_queue rest
            (set_video_writer (write frame <$> video_writer self) self)
      | [] =>
          if is_recording self then self
          else set_recording_thread (Some Finished)
                 (set_video_writer (release <$> video_writer self) self)
      end
  | _ => self
  end.

(** [stop_recording].  [drain] is the number of turns the consumer
    thread takes before [join(timeout=5.0)] returns. *)
Definition stop_recording (drain : nat) : M t (option string) := fun self =>
  if negb (is_recording self) then (Ok None, self)
  else
    let self := set_is_recording false self in
    let self := match recording_thread self with
                | Some _ => Nat.iter drain recording_loop_step self
                | None => self
                end in
    let self := set_frame_queue [] self in
    (Ok (last_video_path self), self).

(** [get_last_duration]: [if self.start_time] is false for [None] and for
    a zero reading. *)
Definition get_last_duration (clock : Z) : M t Z := fun self =>
  match start_time self with
  | Some t0 => if t0 =? 0 then (Ok 0, self) else (Ok (clock - t0), self)
  | None => (Ok 0, self)
  end.

(** The method [is_recording] that the class defines. *)
Definition is_recording_method : M t bool := fun self =>
  (Ok (is_recording self), self).

Inductive Attribute : Type :=
| BoolValue (b : bool)
| BoundMethod (f : M t bool).

(** Attribute lookup on an instance: the instance dictionary is searched
    before the functions of the class.  [__init__] binds [is_recording]
    to a bool in every instance, so the method of the same name is never
    reached. *)
Definition instance_dict (self : t) (attr : string) : option Attribute :=
  if bool_decide (attr = "is_recording") then
    Some (BoolValue (is_recording self))
  else None.

Definition class_dict (attr : string) : option Attribute :=
  if bool_decide (attr = "is_recording") then Some (BoundMethod is_recording_method)
  else None.

Definition getattr_is_recording (self : t) : Attribute :=
  match instance_dict self "is_recording" with
  | Some a => a
  | None => default (BoolValue false) (class_dict "is_recording")
  end.

(** [attribute()] *)
Definition call (a : Attribute) : M t bool :=
  match a with
  | BoolValue _ => raise (TypeError "'bool' object is not callable")
  | BoundMethod f => f
  end.

End VideoRecorder.

(** ** main.py *)

Module SurveillanceSystem.

(** One entry of [config['cameras']]; a key of the YAML file may be
    absent. *)
Record CameraConfig : Type := {
  name : option string;
  roi : option (Fraction * Fraction * Fraction * Fraction);
  motion_threshold : option Z;
  min_motion_frames : option Z;
  min_recording_time : option Z;
  cooldown_time : option Z
}.

(** The configuration outside [config['cameras']].  [load_config] and
    [__init__] have read [config['recording']['output_dir']],
    [config['telegram']] and [config['timestamp']], so these exist; a key
    read later may be absent.  [send_snapshot], [send_video] and
    [timestamp_enabled] hold the truth value of the entry. *)
Record Config : Type := {
  cameras : gmap string CameraConfig;
  send_snapshot : option bool;
  send_video : option bool;
  output_dir : string;
  resolution : option (Z * Z);
  fps : option Z;
  video_codec : option string;
  timestamp_enabled : option bool
}.

(** An entry of [self.camera_states]. *)
Record CameraState : Type := {
  recording : bool;
  motion_start : option Z;
  last_motion : option Z;
  motion_count : Z;
  cooldown_until : option Z
}.

(** What the collaborators have received. *)
Inductive Delivery : Type :=
| Photo (snapshot : Frame) (caption : string)
| Video (path : string) (caption : string).

Inductive LogRecord : Type :=
| Info (msg : string)
| Error (msg : string) (e : PyExn).

(** A line of [logs/recordings.jsonl]. *)
Record LogEntry : Type := {
  entry_camera_id : string;
  entry_camera_name : string;
  entry_video_path : string;
  entry_timestamp : string;
  entry_duration : Z
}.

Record t : Type := {
  config : Config;
  running : bool;
  motion_detectors : gmap string MotionDetector.t;
  recorders : gmap string VideoRecorder.t;
  camera_states : gmap string CameraState;
  telegram_bot : list Delivery;
  logger : list LogRecord;
  recordings_jsonl : list LogEntry
}.

(** The readings of the outside world during the processing of one
    frame: [time.time()], the two renderings of [datetime.now()], whether
    an encoder target can be created, and how far the consumer thread
    gets while [join] waits. *)
Record Env : Type := {
  now : Z;
  timestamp : string;
  isoformat : string;
  encoder_opens : bool;
  drain : nat
}.

Definition set_running (b : bool) (self : t) : t :=
  {| config := config self; running := b;
     motion_detectors := motion_detectors self;
     recorders := recorders self; camera_states := camera_states self;
     telegram_bot := telegram_bot self; logger := logger self;
     recordings_jsonl := recordings_jsonl self |}.

Definition set_motion_detectors (m : gmap string MotionDetector.t)
    (self : t) : t :=
  {| config := config self; running := running self;
     motion_detectors := m;
     recorders := recorders self; camera_states := camera_states self;
     telegram_bot := telegram_bot self; logger := logger self;
     recordings_jsonl := recordings_jsonl self |}.

Definition set_recorders (m : gmap string VideoRecorder.t) (self : t) : t :=
  {| config := config self; running := running self;
     motion_detectors := motion_detectors self;
     recorders := m; camera_states := camera_states self;
     telegram_bot := telegram_bot self; logger := logger self;
     recordings_jsonl := recordings_jsonl self |}.

Definition set_camera_states (m : gmap string CameraState) (self : t) : t :=
  {| config := config self; running := running self;
     motion_detectors := motion_detectors self;
     recorders := recorders self; camera_states := m;
     telegram_bot := telegram_bot self; logger := logger self;
     recordings_jsonl := recordings_jsonl self |}.

Definition set_telegram_bot (l : list Delivery) (self : t) : t :=
  {| config := config self; running := running self;
     motion_detectors := motion_detectors self;
     recorders := recorders self; camera_states := camera_states self;
     telegram_bot := l; logger := logger self;
     recordings_jsonl := recordings_jsonl self |}.

Definition set_logger (l : list LogRecord) (self : t) : t :=
  {| config := config self; running := running self;
     motion_detectors := motion_detectors self;
     recorders := recorders self; camera_states := camera_states self;
     telegram_bot := telegram_bot self; logger := l;
     recordings_jsonl := recordings_jsonl self |}.

Definition set_recordings_jsonl (l : list LogEntry) (self : t) : t :=
  {| config := config self; running := running self;
     motion_detectors := motion_detectors self;
     recorders := recorders self; camera_states := camera_states self;
     telegram_bot := telegram_bot self; logger := logger self;
     recordings_jsonl := l |}.

(** [d[key]] *)
Definition item {S A} (o : option A) (key : string) : M S A :=
  match o with
  | Some a => ret a
  | None => raise (KeyError key)
  end.

(** [self.config['cameras'][camera_id]] *)
Definition camera_config (camera_id : string) : M t CameraConfig := fun self =>
  item (cameras (config self) !! camera_id) camera_id self.

(** [self.camera_states[camera_id]] *)
Definition camera_state (camera_id : string) : M t CameraState := fun self =>
  item (camera_states self !! camera_id) camera_id self.

(** In-place update of the state dictionary of a camera. *)
Definition update_state (camera_id : string) (f : CameraState -> CameraState)
    : M t unit :=
  modify (fun self =>
            set_camera_states (alter f camera_id (camera_states self)) self).

(** A method call on [self.recorders[camera_id]]: the recorder object is
    mutated in place. *)
Definition on_recorder {A} (camera_id : string) (m : M VideoRecorder.t A)
    : M t A := fun self =>
  match recorders self !! camera_id with
  | None => (Raise (KeyError camera_id), self)
  | Some r =>
      let '(res, r') := m r in
      (res, set_recorders (<[camera_id := r']> (recorders self)) self)
  end.

Definition log (r : LogRecord) : M t unit :=
  modify (fun self => set_logger (logger self ++ [r]) self).

Definition deliver (d : Delivery) : M t unit :=
  modify (fun self => set_telegram_bot (telegram_bot self ++ [d]) self).

(** The names bound at module level in [main.py]: its imports and its
    own definitions. *)
Definition module_globals : list string :=
  ["cv2"; "time"; "logging"; "yaml"; "signal"; "sys"; "Path"; "datetime";
   "Dict"; "Any"; "threading"; "queue"; "MotionDetector"; "VideoRecorder";
   "TelegramBot"; "VideoProcessor"; "SurveillanceSystem"; "signal_handler"].

(** Evaluation of a global name. *)
Definition global {S} (name : string) : M S unit :=
  if bool_decide (name ∈ module_globals) then ret tt
  else raise (NameError name).

Definition with_motion_start (v : option Z) (st : CameraState) : CameraState :=
  {| recording := recording st; motion_start := v;
     last_motion := last_motion st; motion_count := motion_count st;
     cooldown_until := cooldown_until st |}.

Definition with_recording (b : bool) (st : CameraState) : CameraState :=
  {| recording := b; motion_start := motion_start st;
     last_motion := last_motion st; motion_count := motion_count st;
     cooldown_until := cooldown_until st |}.

Definition with_last_motion (v : option Z) (st : CameraState) : CameraState :=
  {| recording := recording st; motion_start := motion_start st;
     last_motion := v; motion_count := motion_count st;
     cooldown_until := cooldown_until st |}.

Definition with_motion_count (n : Z) (st : CameraState) : CameraState :=
  {| recording := recording st; motion_start := motion_start st;
     last_motion := last_motion st; motion_count := n;
     cooldown_until := cooldown_until st |}.

Definition with_cooldown_until (v : option Z) (st : CameraState) : CameraState :=
  {| recording := recording st; motion_start := motion_start st;
     last_motion := last_motion st; motion_count := motion_count st;
     cooldown_until := v |}.

(** [cv2.VideoWriter_fourcc], which [VideoRecorder.__init__] calls on
    the unpacked codec: its characters are the four arguments. *)
Definition VideoWriter_fourcc {S} (codec : string) : M S unit :=
  if (String.length codec =? 4)%nat then ret tt
  else raise (TypeError "VideoWriter_fourcc() takes 4 arguments").

(** [initialize_camera] *)
Definition initialize_camera (camera_id : string) (camera_config : CameraConfig)
    : M t bool :=
  try_except
    (let motion_detector :=
       MotionDetector.init (default MotionDetector.whole (roi camera_config))
         (default 500 (motion_threshold camera_config))
         (default 10 (min_motion_frames camera_config)) in
     let* self := get in
     let* resolution := item (resolution (config self)) "resolution" in
     let* fps := item (fps (config self)) "fps" in
     let* codec := item (video_codec (config self)) "video_codec" in
     do VideoWriter_fourcc codec then
     let recorder :=
       VideoRecorder.init (output_dir (config self)) camera_id fps codec in
     do modify (fun self =>
          set_camera_states
            (<[camera_id := {| recording := false; motion_start := None;
                               last_motion := None; motion_count := 0;
                               cooldown_until := None |}]> (camera_states self))
            self) then
     do modify (fun self =>
          set_motion_detectors
            (<[camera_id := motion_detector]> (motion_detectors self)) self) then
     do modify (fun self =>
          set_recorders (<[camera_id := recorder]> (recorders self)) self) then
     do log (Info ("Camera " +:+ camera_id +:+ " initialized")) then
     ret true)
    (fun e =>
       do log (Error ("Failed to initialize camera " +:+ camera_id) e) then
       ret false).

(** [start_recording] *)
Definition start_recording (camera_id : string) (first_frame : Frame)
    (env : Env) : M t unit :=
  try_except
    (let* cfg := camera_config camera_id in
     let* camera_name := item (name cfg) "name" in
     do on_recorder camera_id
          (VideoRecorder.start_recording first_frame (timestamp env)
             (encoder_opens env) (now env)) then
     log (Info ("Started recording for " +:+ camera_name)))
    (fun e => log (Error ("Failed to start recording for " +:+ camera_id) e)).

(** [log_recging] *)
Definition log_recging (camera_id : string) (video_path : string) (env : Env)
    : M t unit :=
  let* cfg := camera_config camera_id in
  let* camera_name := item (name cfg) "name" in
  let* duration :=
    on_recorder camera_id (VideoRecorder.get_last_duration (now env)) in
  let log_entry :=
    {| entry_camera_id := camera_id; entry_camera_name := camera_name;
       entry_video_path := video_path; entry_timestamp := isoformat env;
       entry_duration := duration |} in
  (* with open(log_file, 'a') as f: f.write(json.dumps(log_entry) + '\n') *)
  do global "json" then
  modify (fun self =>
            set_recordings_jsonl (recordings_jsonl self ++ [log_entry]) self).

(** [stop_recording] *)
Definition stop_recording (camera_id : string) (env : Env) : M t unit :=
  try_except
    (let* video_path :=
       on_recorder camera_id (VideoRecorder.stop_recording (drain env)) in
     match video_path with
     | Some video_path =>
         let* cfg := camera_config camera_id in
         let* camera_name := item (name cfg) "name" in
         do log (Info ("Recording saved: " +:+ video_path)) then
         let* self := get in
         let* wanted := item (send_video (config self)) "send_video" in
         do (if wanted then
               deliver (Video video_path ("Motion detected: " +:+ camera_name))
             else ret tt) then
         log_recging camera_id video_path env
     | None => ret tt
     end)
    (fun e => log (Error ("Failed to stop recording for " +:+ camera_id) e)).

(** [send_motion_alert] *)
Definition send_motion_alert (camera_id : string) (frame : Frame) (env : Env)
    : M t unit :=
  try_except
    (let* cfg := camera_config camera_id in
     let* camera_name := item (name cfg) "name" in
     deliver (Photo frame ("Motion detected: " +:+ camera_name)))
    (fun e => log (Error "Failed to send motion alert" e)).

(** [update_camera_state] *)
Definition update_camera_state (camera_id : string) (motion_detected : bool)
    (frame : Frame) (env : Env) : M t unit :=
  let* _ := camera_state camera_id in
  let now := now env in
  let* _ := on_recorder camera_id get in
  if motion_detected then
    do update_state camera_id
         (fun st => with_last_motion (Some now)
                      (with_motion_count (motion_count st + 1) st)) then
    let* state := camera_state camera_id in
    let* start :=
      (if negb (recording state) then
         let* cfg := camera_config camera_id in
         let* k := item (min_motion_frames cfg) "min_motion_frames" in
         ret (k <=? motion_count state)
       else ret false) in
    if start then
      do start_recording camera_id frame env then
      do update_state camera_id
           (fun st => with_cooldown_until None
                        (with_motion_start (Some now)
                           (with_recording true st))) then
      let* self := get in
      let* wanted := item (send_snapshot (config self)) "send_snapshot" in
      if wanted then send_motion_alert camera_id frame env
      else ret tt
    else if recording state then
      on_recorder camera_id (VideoRecorder.add_frame frame)
    else ret tt
  else
    let* state := camera_state camera_id in
    if recording state then
      let time_since_motion :=
        now - (match last_motion state with
               | Some t => if t =? 0 then now else t
               | None => now
               end) in
      let* cfg := camera_config camera_id in
      let* min_recording_time :=
        item (min_recording_time cfg) "min_recording_time" in
      let* cooldown := item (cooldown_time cfg) "cooldown_time" in
      if cooldown <? time_since_motion then
        let* started :=
          (match motion_start state with
           | Some t => ret t
           | None => raise (TypeError "unsupported operand type(s) for -")
           end) in
        if min_recording_time <=? now - started then
          do stop_recording camera_id env then
          update_state camera_id
            (fun st => with_motion_count 0 (with_recording false st))
        else
          on_recorder camera_id (VideoRecorder.add_frame frame)
      else
        on_recorder camera_id (VideoRecorder.add_frame frame)
    else ret tt.

(** A method call on [self.motion_detectors[camera_id]]. *)
Definition on_detector {A} (camera_id : string)
    (m : MotionDetector.t -> MotionDetector.t * A) : M t A := fun self =>
  match motion_detectors self !! camera_id with
  | None => (Raise (KeyError camera_id), self)
  | Some d =>
      let '(d', a) := m d in
      (Ok a, set_motion_detectors (<[camera_id := d']> (motion_detectors self))
               self)
  end.

(** The body of the capture loop of [process_camera_stream] for a frame
    that has been read, resized and stamped. *)
Definition process_frame (cv : Vision) (camera_id : string) (frame : Frame)
    (env : Env) : M t unit :=
  let* r := on_detector camera_id
              (fun d => let '(d', frame', confirmed) :=
                          MotionDetector.detect cv d frame in
                        (d', (frame', confirmed))) in
  update_camera_state camera_id (snd r) (fst r) env.

(** The same body with the contour search replaced by its per-frame
    outcome. *)
Definition process_outcome (camera_id : string) (qualifying : bool)
    (frame : Frame) (env : Env) : M t unit :=
  let* confirmed := on_detector camera_id
                      (fun d => MotionDetector.track d qualifying) in
  update_camera_state camera_id confirmed frame env.

(** A sequence of loop turns; a raised exception ends the capture loop. *)
Fixpoint process_outcomes (camera_id : string)
    (turns : list (bool * Frame * Env)) : M t unit :=
  match turns with
  | [] => ret tt
  | (qualifying, frame, env) :: rest =>
      do process_outcome camera_id qualifying frame env then
      process_outcomes camera_id rest
  end.

(** A sequence of loop turns with the real contour search. *)
Fixpoint process_frames (cv : Vision) (camera_id : string)
    (turns : list (Frame * Env)) : M t unit :=
  match turns with
  | [] => ret tt
  | (frame, env) :: rest =>
      do process_frame cv camera_id frame env then
      process_frames cv camera_id rest
  end.



(** [for x in xs: body x] *)
Fixpoint for_each {S A} (xs : list A) (body : A -> M S unit) : M S unit :=
  match xs with
  | [] => ret tt
  | x :: rest => do body x then for_each rest body
  end.

(** [stop] *)
Definition stop (env : Env) : M t unit :=
  do log (Info "Stopping surveillance system...") then
  do modify (set_running false) then
  let* self := get in
  do for_each (map_to_list (recorders self)).*1
       (fun camera_id =>
          let* active :=
            on_recorder camera_id
              (fun r => VideoRecorder.call
                          (VideoRecorder.getattr_is_recording r) r) in
          if active then
            do on_recorder camera_id (VideoRecorder.stop_recording (drain env))
            then ret tt
          else ret tt) then
  log (Info "Surveillance system stopped").

End SurveillanceSystem.

(** ** Summaries of the supervisor's methods *)

Module Effects.

Import SurveillanceSystem.

(** The log record left by [start_recording]. *)
Definition start_record (cam camera_name : string) (res : Result unit)
    : LogRecord :=
  match res with
  | Ok _ => Info ("Started recording for " +:+ camera_name)
  | Raise e => Error ("Failed to start recording for " +:+ cam) e
  end.

(** The exception that ends [stop_recording] after the sink has returned
    a path: the [KeyError] of an absent [send_video], otherwise the
    [NameError] of [json] in [log_recging]. *)
Definition stop_failure (c : Config) : PyExn :=
  match send_video c with
  | Some _ => NameError "json"
  | None => KeyError "send_video"
  end.




(** The system after [stop_recording] for a camera whose recorder is [r]
    and whose configured name is [camera_name]. *)
Definition stopped (cam : string) (env : Env) (camera_name : string)
    (r : VideoRecorder.t) (s : t) : t :=
  let out := VideoRecorder.stop_recording (drain env) r in
  let s1 := set_recorders (<[cam := snd out]> (recorders s)) s in
  match fst out with
  | Ok (Some p) =>
      set_logger
        (logger s ++ [Info ("Recording saved: " +:+ p);
                      Error ("Failed to stop recording for " +:+ cam)
                        (stop_failure (config s))])
        (set_telegram_bot
           (telegram_bot s
            ++ (if default false (send_video (config s))
                then [Video p ("Motion detected: " +:+ camera_name)]
                else []))
           s1)
  | _ => s1
  end.

(** One camera as the supervisor sees it: its detector, its state
    dictionary and its recorder. *)
Definition camera_at (s : t) (cam : string) (d : MotionDetector.t)
    (st : CameraState) (r : VideoRecorder.t) : Prop :=
  motion_detectors s !! cam = Some d
  /\ camera_states s !! cam = Some st
  /\ recorders s !! cam = Some r.

(** [s'] differs from [s] at most in the dictionaries of camera [cam],
    where the state is now [st'] and the recorder [r'], and in what the
    collaborators have received. *)
Definition steps_to (s s' : t) (cam : string) (st' : CameraState)
    (r' : VideoRecorder.t) : Prop :=
  config s' = config s
  /\ motion_detectors s' = motion_detectors s
  /\ camera_states s' !! cam = Some st'
  /\ recorders s' !! cam = Some r'.

(** The state dictionary after a frame with confirmed motion. *)
Definition seen_motion (clock : Z) (st : CameraState) : CameraState :=
  with_last_motion (Some clock) (with_motion_count (motion_count st + 1) st).

(** The state dictionary after the transition into recording. *)
Definition started (clock : Z) (st : CameraState) : CameraState :=
  with_cooldown_until None
    (with_motion_start (Some clock) (with_recording true (seen_motion clock st))).

(** The state dictionary after the transition back to idle. *)
Definition closed (st : CameraState) : CameraState :=
  with_motion_count 0 (with_recording false st).

(** Loop turns that share the outcome of the contour search. *)
Definition with_outcome (qualifying : bool) (l : list (Frame * Env))
    : list (bool * Frame * Env) :=
  map (fun u => (qualifying, fst u, snd u)) l.

(** What an observer sees of a camera: whether its state says
    recording, and whether its recorder is active. *)
Definition observe (cam : string) (s : t) : option (bool * bool) :=
  match camera_states s !! cam, recorders s !! cam with
  | Some st, Some r => Some (recording st, VideoRecorder.is_recording r)
  | _, _ => None
  end.

(** The camera is idle after [j] qualifying frames in a row, for a
    threshold of 10: the detector has counted [j] frames, the supervisor
    has counted the confirmed ones. *)
Definition counting (s0 : t) (cam : string) (r0 : VideoRecorder.t) (j : Z)
    (s : t) : Prop :=
  config s = config s0
  /\ exists d st,
      camera_at s cam d st r0
      /\ MotionDetector.motion_frames d = j
      /\ MotionDetector.no_motion_frames d = 0
      /\ MotionDetector.min_motion_frames d = 10
      /\ recording st = false
      /\ motion_count st = Z.max 0 (j - 9).

(** The camera records since [t0], confirmed motion was last reported at
    [lm], and [gap] non-qualifying frames have been seen in a row;
    [opened] tells whether the encoder opened when the recording was
    started, in which case the consumer thread of the recorder runs and
    the recorder has its writer. *)
Definition recording_since (s0 : t) (cam : string) (opened : bool)
    (t0 lm gap : Z) (s : t) : Prop :=
  config s = config s0
  /\ exists d st r,
      camera_at s cam d st r
      /\ MotionDetector.min_motion_frames d = 10
      /\ MotionDetector.no_motion_frames d = gap
      /\ (gap <= 5 -> 10 <= MotionDetector.motion_frames d)
      /\ recording st = true
      /\ motion_start st = Some t0
      /\ last_motion st = Some lm
      /\ VideoRecorder.is_recording r = true
      /\ (opened = true ->
          VideoRecorder.recording_thread r = Some VideoRecorder.Running
          /\ is_Some (VideoRecorder.video_writer r)).

(** The camera is idle again after a stop. *)
Definition idle_again (s0 : t) (cam : string) (s : t) : Prop :=
  config s = config s0
  /\ exists d st r,
      camera_at s cam d st r
      /\ recording st = false
      /\ motion_count st = 0
      /\ VideoRecorder.is_recording r = false.

(** The frame as [detect] hands it to the supervisor. *)
Definition drawn (cv : Vision) (d : MotionDetector.t) (f : Frame) : Frame :=
  snd (fst (MotionDetector.detect cv d f)).

(** Camera [cam] has a state dictionary whose [last_motion] is [v]. *)
Definition last_motion_is (cam : string) (v : option Z) (s : t) : Prop :=
  exists st, camera_states s !! cam = Some st /\ last_motion st = v.

(** A method keeps a property of the system, whether it returns or
    raises. *)
Definition maintains {A} (P : t -> Prop) (m : M t A) : Prop :=
  forall s, P s -> P (snd (m s)).

End Effects.

(** ** Concrete inputs *)

Module Examples.

Definition black : Pixel := (0, 0, 0).

(** A 4x4 black frame. *)
Definition blank_frame : Frame := repeat (repeat black 4) 4.

(** A drawing routine that colours the pixels on the four sides of the
    rectangle and no other; OpenCV's colours these and, for a thickness
    above 1, pixels next to them. *)
Definition on_side (pt1 pt2 : Z * Z) (x y : Z) : bool :=
  let xa := Z.min (fst pt1) (fst pt2) in
  let xb := Z.max (fst pt1) (fst pt2) in
  let ya := Z.min (snd pt1) (snd pt2) in
  let yb := Z.max (snd pt1) (snd pt2) in
  (xa <=? x) && (x <=? xb) && (ya <=? y) && (y <=? yb)
  && ((x =? xa) || (x =? xb) || (y =? ya) || (y =? yb)).

Definition thin_rectangle (img : Frame) (pt1 pt2 : Z * Z) (color : Pixel)
    (thickness : Z) : Frame :=
  imap (fun y row =>
          imap (fun x p =>
                  if on_side pt1 pt2 (Z.of_nat x) (Z.of_nat y)
                  then color else p) row) img.

(** A contour search that finds nothing; frames are already of the
    target size. *)
Definition no_contours : Vision :=
  {| findContours := fun _ _ _ => [];
     rectangle := thin_rectangle;
     resize := fun img _ => img |}.

(** A contour search that finds one contour of area 1000 in each of the
    first [n] frames a detector sees, and nothing afterwards. *)
Definition moving_for (n : nat) : Vision :=
  {| findContours := fun history _ _ =>
       if (length history <? n)%nat
       then [{| contourArea := 1000; boundingRect := (1, 1, 2, 2) |}]
       else [];
     rectangle := thin_rectangle;
     resize := fun img _ => img |}.

(** A contour search that finds one contour of area 1000 in every
    frame. *)
Definition one_contour : Vision :=
  {| findContours := fun _ _ _ =>
       [{| contourArea := 1000; boundingRect := (1, 1, 2, 2) |}];
     rectangle := thin_rectangle;
     resize := fun img _ => img |}.

Definition idle_sink : VideoRecorder.t :=
  VideoRecorder.init "recordings" "cam1" 15 "mp4v".

(** The sink after a successful start and 99 more frames while the
    consumer thread has not yet taken any: 100 frames are buffered. *)
Definition full_sink : VideoRecorder.t :=
  Nat.iter 99 (fun r => snd (VideoRecorder.add_frame blank_frame r))
    (snd (VideoRecorder.start_recording blank_frame "20240101_000000" true
            1700000000 idle_sink)).

(** A configuration with one camera and the scenario policy:
    [min_motion_frames = 10], [cooldown_time = 3], [min_recording_time = 5]
    (seconds). *)
Definition camera : SurveillanceSystem.CameraConfig :=
  {| SurveillanceSystem.name := Some "Front door";
     SurveillanceSystem.roi := None;
     SurveillanceSystem.motion_threshold := None;
     SurveillanceSystem.min_motion_frames := Some 10;
     SurveillanceSystem.min_recording_time := Some 5;
     SurveillanceSystem.cooldown_time := Some 3 |}.

Definition config : SurveillanceSystem.Config :=
  {| SurveillanceSystem.cameras := {[ "cam1" := camera ]};
     SurveillanceSystem.send_snapshot := Some true;
     SurveillanceSystem.send_video := Some true;
     SurveillanceSystem.output_dir := "recordings";
     SurveillanceSystem.resolution := Some (4, 4);
     SurveillanceSystem.fps := Some 15;
     SurveillanceSystem.video_codec := Some "mp4v";
     SurveillanceSystem.timestamp_enabled := Some true |}.

(** The system after [__init__] and [initialize_camera] for the one
    camera. *)
Definition idle_system : SurveillanceSystem.t :=
  snd (SurveillanceSystem.initialize_camera "cam1" camera
         {| SurveillanceSystem.config := config;
            SurveillanceSystem.running := true;
            SurveillanceSystem.motion_detectors := ∅;
            SurveillanceSystem.recorders := ∅;
            SurveillanceSystem.camera_states := ∅;
            SurveillanceSystem.telegram_bot := [];
            SurveillanceSystem.logger := [];
            SurveillanceSystem.recordings_jsonl := [] |}).

(** The outside world at clock reading [t]: encoders open, the consumer
    thread drains the buffer while [join] waits. *)
Definition env_at (t : Z) : SurveillanceSystem.Env :=
  {| SurveillanceSystem.now := t;
     SurveillanceSystem.timestamp := "20240101_000000";
     SurveillanceSystem.isoformat := "2024-01-01T00:00:00";
     SurveillanceSystem.encoder_opens := true;
     SurveillanceSystem.drain := 100 |}.

(** Frames at the given clock readings. *)
Definition frames_at (clock : list Z) : list (Frame * SurveillanceSystem.Env) :=
  map (fun t => (blank_frame, env_at t)) clock.

(** Loop turns with the same contour outcome at the given clock
    readings. *)
Definition turns (qualifying : bool) (clock : list Z)
    : list (bool * Frame * SurveillanceSystem.Env) :=
  Effects.with_outcome qualifying (frames_at clock).

(** The system while the camera records: 19 qualifying frames at clock
    readings 1 to 19. *)
Definition recording_system : SurveillanceSystem.t :=
  snd (SurveillanceSystem.process_outcomes "cam1" (turns true (seqZ 1 19))
         idle_system).

Definition shutdown_env : SurveillanceSystem.Env := env_at 30.

(** The same camera with a minimum recording time of 12 seconds, and the
    system initialised with it. *)
Definition patient_camera : SurveillanceSystem.CameraConfig :=
  {| SurveillanceSystem.name := Some "Front door";
     SurveillanceSystem.roi := None;
     SurveillanceSystem.motion_threshold := None;
     SurveillanceSystem.min_motion_frames := Some 10;
     SurveillanceSystem.min_recording_time := Some 12;
     SurveillanceSystem.cooldown_time := Some 3 |}.

Definition patient_system : SurveillanceSystem.t :=
  snd (SurveillanceSystem.initialize_camera "cam1" patient_camera
         {| SurveillanceSystem.config :=
              {| SurveillanceSystem.cameras := {[ "cam1" := patient_camera ]};
                 SurveillanceSystem.send_snapshot := Some true;
                 SurveillanceSystem.send_video := Some true;
                 SurveillanceSystem.output_dir := "recordings";
                 SurveillanceSystem.resolution := Some (4, 4);
                 SurveillanceSystem.fps := Some 15;
                 SurveillanceSystem.video_codec := Some "mp4v";
                 SurveillanceSystem.timestamp_enabled := Some true |};
            SurveillanceSystem.running := true;
            SurveillanceSystem.motion_detectors := ∅;
            SurveillanceSystem.recorders := ∅;
            SurveillanceSystem.camera_states := ∅;
            SurveillanceSystem.telegram_bot := [];
            SurveillanceSystem.logger := [];
            SurveillanceSystem.recordings_jsonl := [] |}).

(** The system and the detector of its camera after 19 frames with a
    qualifying contour at clock readings 1 to 19, fed through [detect]:
    the camera records. *)
Definition moved_system : SurveillanceSystem.t :=
  snd (SurveillanceSystem.process_frames (moving_for 19) "cam1"
         (frames_at (seqZ 1 19)) idle_system).

Definition moved_detector : MotionDetector.t :=
  MotionDetector.detect_all (moving_for 19)
    (MotionDetector.init MotionDetector.whole 500 10)
    (repeat blank_frame 19).

(** The same system after further frames, in which the contour search
    finds nothing, at the given clock readings. *)
Definition lapsed_system (clock : list Z) : SurveillanceSystem.t :=
  snd (SurveillanceSystem.process_frames (moving_for 19) "cam1"
         (frames_at clock) moved_system).

(** The detector of the camera once motion is confirmed: 19 qualifying
    frames on a fresh detector with [min_motion_frames = 10]. *)
Definition confirmed_detector : MotionDetector.t :=
  MotionDetector.feed (MotionDetector.init MotionDetector.whole 500 10)
    (repeat true 19).

(** The recording system after further non-qualifying frames at the
    given clock readings. *)
Definition after_gap (clock : list Z) : SurveillanceSystem.t :=
  snd (SurveillanceSystem.process_outcomes "cam1" (turns false clock)
         recording_system).

End Examples.

(** ** Further parts of the sources *)

Module RoiMask.

Import MotionDetector.





End RoiMask.

Module SinkOps.

Import VideoRecorder.

(** What can happen to a recorder: the three calls of the supervisor
    and a turn of the consumer thread. *)
Inductive Op : Type :=
| Start (first_frame : Frame) (timestamp : string) (opens : bool) (clock : Z)
| Add (frame : Frame)
| Stop (drain : nat)
| Consume.

Definition apply (r : t) (op : Op) : t :=
  match op with
  | Start first_frame timestamp opens clock =>
      snd (start_recording first_frame timestamp opens clock r)
  | Add frame => snd (add_frame frame r)
  | Stop drain => snd (stop_recording drain r)
  | Consume => recording_loop_step r
  end.

Definition run (ops : list Op) (r : t) : t := fold_left apply ops r.

(** [add_frame] for each frame of a list, with no turn of the consumer
    in between. *)
Definition add_all (frames : list Frame) (r : t) : t :=
  fold_left (fun r frame => snd (add_frame frame r)) frames r.

(** The frames the writer has received. *)
Definition written_frames (r : t) : list Frame :=
  match video_writer r with
  | Some w => written w
  | None => []
  end.

(** The frames handed to [add_frame] by a sequence of operations. *)
Definition added (ops : list Op) : list Frame :=
  omap (fun op => match op with Add frame => Some frame | _ => None end) ops.

(** Only [add_frame] and turns of the consumer. *)
Definition streaming (ops : list Op) : Prop :=
  Forall (fun op => match op with Add _ | Consume => True | _ => False end) ops.

(** The recorder is active, its consumer thread runs and it has a
    writer. *)
Definition live (r : t) : Prop :=
  is_recording r = true
  /\ recording_thread r = Some Running
  /\ is_Some (video_writer r).

(** What every recorder satisfies from its creation on: the buffer holds
    at most [maxsize] frames, it is empty while the recorder is
    inactive, and an active recorder has a path and a writer. *)
Definition well_formed (r : t) : Prop :=
  (length (frame_queue r) <= maxsize)%nat
  /\ (is_recording r = false -> frame_queue r = [])
  /\ (is_recording r = true ->
      is_Some (last_video_path r) /\ is_Some (video_writer r)).

(** No start that succeeds. *)
Definition no_new_clip (ops : list Op) : Prop :=
  Forall (fun op => match op with Start _ _ true _ => False | _ => True end) ops.

End SinkOps.

Module Hoare.

Import SurveillanceSystem Effects.

(** A method returns normally from every state that satisfies [P], with
    a value that satisfies [Q], and [P] holds afterwards. *)
Definition returns {A} (P : t -> Prop) (m : M t A) (Q : A -> Prop) : Prop :=
  forall s, P s -> exists a, fst (m s) = Ok a /\ Q a /\ P (snd (m s)).

(** A state dictionary in which a running recording has its start
    time. *)
Definition state_ok (st : CameraState) : Prop :=
  recording st = true -> is_Some (motion_start st).

(** Camera [cam] is set up: its three dictionary entries exist, its
    state is in order, and the configuration is [c]. *)
Definition ready (c : Config) (cam : string) (s : t) : Prop :=
  config s = c
  /\ (exists st, camera_states s !! cam = Some st /\ state_ok st)
  /\ is_Some (recorders s !! cam)
  /\ is_Some (motion_detectors s !! cam).

(** The entries of camera [other], the configuration and the running
    flag are as given. *)
Definition untouched (other : string) (d : option MotionDetector.t)
    (st : option CameraState) (r : option VideoRecorder.t) (c : Config)
    (b : bool) (s : t) : Prop :=
  motion_detectors s !! other = d
  /\ camera_states s !! other = st
  /\ recorders s !! other = r
  /\ config s = c
  /\ running s = b.

(** The state dictionary and the recorder of camera [cam] agree on
    whether a recording is going on, under configuration [c]. *)
Definition agree (c : Config) (cam : string) (s : t) : Prop :=
  config s = c
  /\ exists st r,
      camera_states s !! cam = Some st
      /\ recorders s !! cam = Some r
      /\ recording st = VideoRecorder.is_recording r.

(** Under configuration [c], the recorder of camera [cam] is still [r]
    and the chat has received [tb] and nothing more. *)
Definition dormant (c : Config) (cam : string) (r : VideoRecorder.t)
    (tb : list Delivery) (s : t) : Prop :=
  config s = c /\ recorders s !! cam = Some r /\ telegram_bot s = tb.

(** A state update that keeps [state_ok]. *)
Definition keeps_state_ok (f : CameraState -> CameraState) : Prop :=
  forall st, state_ok st -> state_ok (f st).

End Hoare.

Module Startup.

Import SurveillanceSystem.



(** [start], up to the point where the main thread begins to wait: the
    running flag, the log lines and [initialize_camera] for every entry
    of [config['cameras']].  The thread started for a camera runs
    [process_camera_stream]. *)
Definition start : M t unit :=
  do modify (set_running true) then
  do log (Info "Starting surveillance system...") then
  let* self := get in
  do for_each (map_to_list (cameras (config self)))
       (fun entry =>
          let* ok := initialize_camera (fst entry) (snd entry) in
          (* if ok: threading.Thread(...).start() *)
          ret tt) then
  log (Info "Surveillance system started").

End Startup.

(** ** telegram_bot.py *)

Module TelegramBot.

Inductive Message : Type :=
| VideoMessage (path caption : string)
| DocumentMessage (path caption : string).

Inductive LogLine : Type :=
| Info (msg : string)
| Warning (msg : string)
| Error (msg : string) (e : PyExn).

(** The bot: its size limit in bytes, what the chat has received and
    what it has logged. *)
Record t : Type := {
  max_video_size : Z;
  outbox : list Message;
  logger : list LogLine
}.

(** [__init__]: [config.get('max_video_size_mb', 50) * 1024 * 1024]. *)
Definition init (max_video_size_mb : option Z) : t :=
  {| max_video_size := default 50 max_video_size_mb * 1024 * 1024;
     outbox := []; logger := [] |}.

(** The file system, FFmpeg and the network during a call: the size
    [stat] reports for a path (if it can), whether FFmpeg succeeds on an
    input, the path [compress_video] writes to, whether a file can be
    opened for reading, and whether the service accepts a message. *)
Record World : Type := {
  st_size : string -> option Z;
  ffmpeg : string -> bool;
  compressed_path : string -> string;
  readable : string -> bool;
  accepted : Message -> bool
}.

Definition log (l : LogLine) : M t unit :=
  modify (fun self =>
            {| max_video_size := max_video_size self; outbox := outbox self;
               logger := logger self ++ [l] |}).

(** [path.stat().st_size] *)
Definition stat (w : World) (path : string) : M t Z :=
  match st_size w path with
  | Some n => ret n
  | None => raise (Exception "FileNotFoundError")
  end.

(** [open(path, 'rb')] *)
Definition open_rb (w : World) (path : string) : M t unit :=
  if readable w path then ret tt else raise (Exception "OSError").

(** [asyncio.run(self._send_..._async(file, caption))] *)
Definition transmit (w : World) (msg : Message) : M t unit :=
  if accepted w msg then
    modify (fun self =>
              {| max_video_size := max_video_size self;
                 outbox := outbox self ++ [msg]; logger := logger self |})
  else raise (Exception "TelegramError").

(** [subprocess.run(cmd, check=True, capture_output=True)] *)
Definition run_ffmpeg (w : World) (path : string) : M t unit :=
  if ffmpeg w path then ret tt else raise (Exception "CalledProcessError").

(** [send_document] *)
Definition send_document (w : World) (file_path caption : string) : M t bool :=
  try_except
    (do open_rb w file_path then
     do transmit w (DocumentMessage file_path caption) then
     do log (Info ("Document sent: " +:+ file_path)) then
     ret true)
    (fun e => do log (Error "Failed to send document" e) then ret false).

(** [compress_video] *)
Definition compress_video (w : World) (video_path : string)
    : M t (option string) :=
  try_except
    (let output_path := compressed_path w video_path in
     do run_ffmpeg w video_path then
     let* size := stat w output_path in
     let* self := get in
     if size <? max_video_size self then ret (Some output_path)
     else ret None)
    (fun e => do log (Error "Failed to compress video" e) then ret None).

(** [send_video] *)
Definition send_video (w : World) (video_path caption : string) : M t bool :=
  let send path :=
    do open_rb w path then
    do transmit w (VideoMessage path caption) then
    do log (Info ("Video sent: " +:+ path)) then
    ret true in
  try_except
    (let* file_size := stat w video_path in
     let* self := get in
     if max_video_size self <? file_size then
       let* compressed := compress_video w video_path in
       match compressed with
       | Some compressed => send compressed
       | None =>
           do log (Warning "Video too large, sending as document") then
           send_document w video_path caption
       end
     else send video_path)
    (fun e => do log (Error "Failed to send video" e) then ret false).

(** What [send_video] may hand to the service for the file at
    [video_path]: the file itself as a video when it is within the
    limit; when it is over the limit, its compressed copy as a video if
    that is under the limit, and the file itself as a document. *)
Definition within_policy (w : World) (limit : Z) (video_path : string)
    (msg : Message) : Prop :=
  exists size, st_size w video_path = Some size
  /\ match msg with
     | VideoMessage path _ =>
         (path = video_path /\ size <= limit)
         \/ (path = compressed_path w video_path /\ limit < size
             /\ exists n, st_size w path = Some n /\ n < limit)
     | DocumentMessage path _ => path = video_path /\ limit < size
     end.

End TelegramBot.

(** ** web_dashboard/app.py: the camera of a recording *)

Module Dashboard.

Import Stdlib.Strings.Ascii.

(** [s.split(sep)[0]]: the characters before the first separator. *)
Fixpoint first_field (sep : Ascii.ascii) (s : string) : string :=
  match s with
  | EmptyString => EmptyString
  | String ch rest =>
      if Ascii.eqb ch sep then EmptyString
      else String ch (first_field sep rest)
  end.

(** [sep in s] *)
Fixpoint contains (sep : Ascii.ascii) (s : string) : bool :=
  match s with
  | EmptyString => false
  | String ch rest => Ascii.eqb ch sep || contains sep rest
  end.

(** The camera that [get_recordings] and [get_video_info] read off the
    stem of a file name. *)
Definition camera_name (filename : string) : string :=
  if contains "_"%char filename then first_field "_"%char filename
  else "Unknown".

(** The stem of the file that [VideoRecorder.start_recording] names:
    [f"{self.camera_name}_{timestamp}.mp4"] without its suffix. *)
Definition recording_stem (r : VideoRecorder.t) (timestamp : string) : string :=
  VideoRecorder.camera_name r +:+ "_" +:+ timestamp.

End Dashboard.

Module MoreExamples.

(** The example system with a second camera registered. *)
Definition two_cameras : SurveillanceSystem.t :=
  snd (SurveillanceSystem.initialize_camera "cam2" Examples.camera
         Examples.idle_system).




(** A camera entry with the three policy keys and no name, and the
    system initialised with it. *)
Definition nameless_camera : SurveillanceSystem.CameraConfig :=
  {| SurveillanceSystem.name := None;
     SurveillanceSystem.roi := None;
     SurveillanceSystem.motion_threshold := None;
     SurveillanceSystem.min_motion_frames := Some 10;
     SurveillanceSystem.min_recording_time := Some 5;
     SurveillanceSystem.cooldown_time := Some 3 |}.

Definition nameless_system : SurveillanceSystem.t :=
  snd (SurveillanceSystem.initialize_camera "cam1" nameless_camera
         {| SurveillanceSystem.config :=
              {| SurveillanceSystem.cameras := {[ "cam1" := nameless_camera ]};
                 SurveillanceSystem.send_snapshot := Some true;
                 SurveillanceSystem.send_video := Some true;
                 SurveillanceSystem.output_dir := "recordings";
                 SurveillanceSystem.resolution := Some (4, 4);
                 SurveillanceSystem.fps := Some 15;
                 SurveillanceSystem.video_codec := Some "mp4v";
                 SurveillanceSystem.timestamp_enabled := Some true |};
            SurveillanceSystem.running := true;
            SurveillanceSystem.motion_detectors := ∅;
            SurveillanceSystem.recorders := ∅;
            SurveillanceSystem.camera_states := ∅;
            SurveillanceSystem.telegram_bot := [];
            SurveillanceSystem.logger := [];
            SurveillanceSystem.recordings_jsonl := [] |}).

(** The recorder of a camera whose identifier has an underscore. *)
Definition garden_sink : VideoRecorder.t :=
  VideoRecorder.init "recordings" "back_garden" 15 "mp4v".


End MoreExamples.

(** * Properties *)

(** ** The debounce counters of the detector *)

Section Debounce.

Import MotionDetector.

Lemma track_min_motion_frames d b :
  min_motion_frames (fst (track d b)) = min_motion_frames d.
Proof.
  unfold track. destruct b; simpl; [reflexivity|].
  destruct (5 <? no_motion_frames d + 1); reflexivity.
Qed.

Lemma feed_snoc d stream b :
  feed d (stream ++ [b]) = fst (track (feed d stream) b).
Proof. unfold feed. rewrite fold_left_app. reflexivity. Qed.

Lemma feed_app d s1 s2 : feed d (s1 ++ s2) = feed (feed d s1) s2.
Proof. unfold feed. apply fold_left_app. Qed.

Lemma feed_min_motion_frames d stream :
  min_motion_frames (feed d stream) = min_motion_frames d.
Proof.
  induction stream as [|b stream IH] using rev_ind; [reflexivity|].
  rewrite feed_snoc, track_min_motion_frames. exact IH.
Qed.

Lemma track_confirmed d b :
  snd (track d b) = (min_motion_frames d <=? motion_frames (fst (track d b))).
Proof.
  unfold track. destruct b; simpl; [reflexivity|].
  destruct (5 <? no_motion_frames d + 1); reflexivity.
Qed.

Lemma repeat_snoc {A} (x : A) n : repeat x (S n) = repeat x n ++ [x].
Proof. induction n as [|n IH]; simpl in *; [reflexivity|]. f_equal. exact IH. Qed.

(** A run of [n] non-qualifying frames advances the gap counter by [n]. *)
Lemma feed_gap_no_motion d n :
  no_motion_frames (feed d (repeat false n)) = no_motion_frames d + Z.of_nat n.
Proof.
  induction n as [|n IH]; [simpl; lia|].
  rewrite repeat_snoc, feed_snoc. unfold track.
  destruct (5 <? no_motion_frames (feed d (repeat false n)) + 1); simpl; lia.
Qed.

(** After a run of [n] non-qualifying frames that starts with the gap
    counter at zero, the motion counter is kept when [n <= 5] and is zero
    when [n >= 6]. *)
Lemma feed_gap_motion d n :
  no_motion_frames d = 0 ->
  motion_frames (feed d (repeat false n)) =
  if (n <=? 5)%nat then motion_frames d else 0.
Proof.
  intros Hg. induction n as [|n IH]; [reflexivity|].
  rewrite repeat_snoc, feed_snoc. unfold track.
  rewrite feed_gap_no_motion, Hg.
  destruct (Nat.leb_spec (S n) 5) as [H|H];
    destruct (Z.ltb_spec 5 (0 + Z.of_nat n + 1)) as [E|E];
    cbn [fst motion_frames set_counters]; try lia; try reflexivity.
  rewrite IH. destruct (Nat.leb_spec n 5); [reflexivity | lia].
Qed.

(** Any run of six or more non-qualifying frames zeroes the motion
    counter, whatever the counters were before, provided the gap counter
    is not negative. *)
Lemma feed_long_gap d n :
  0 <= no_motion_frames d -> (6 <= n)%nat ->
  motion_frames (feed d (repeat false n)) = 0.
Proof.
  intros Hg Hn. destruct n as [|n]; [lia|].
  rewrite repeat_snoc, feed_snoc. unfold track.
  rewrite feed_gap_no_motion.
  destruct (5 <? no_motion_frames d + Z.of_nat n + 1) eqn:E; simpl;
    [reflexivity|].
  apply Z.ltb_ge in E. lia.
Qed.

Lemma streak_back_gap l : forall j, (j < 6)%nat ->
  spec_streak_back j l
  = if (6 <=? j + lead_gap l)%nat then 0 else spec_streak_back 0 l.
Proof.
  induction l as [|b l IH]; intros j Hj.
  - cbn [spec_streak_back lead_gap]. destruct (6 <=? j + 0)%nat; reflexivity.
  - destruct b; cbn [spec_streak_back lead_gap].
    + destruct (Nat.leb_spec 6 (j + 0)); [lia | reflexivity].
    + change (6 <=? 1)%nat with false. cbv iota.
      destruct (Nat.leb_spec 6 (S j)) as [E1|E1];
        destruct (Nat.leb_spec 6 (j + S (lead_gap l))) as [E2|E2];
        try lia; try reflexivity.
      * rewrite (IH (S j)) by lia.
        destruct (Nat.leb_spec 6 (S j + lead_gap l)); [reflexivity | lia].
      * rewrite (IH (S j)), (IH 1%nat) by lia.
        destruct (Nat.leb_spec 6 (S j + lead_gap l));
          destruct (Nat.leb_spec 6 (1 + lead_gap l)); try lia; reflexivity.
Qed.

Lemma streak_snoc_true s : spec_streak (s ++ [true]) = 1 + spec_streak s.
Proof. unfold spec_streak. rewrite rev_unit. reflexivity. Qed.

Lemma streak_snoc_false s :
  spec_streak (s ++ [false]) =
  if (6 <=? 1 + lead_gap (rev s))%nat then 0 else spec_streak s.
Proof.
  unfold spec_streak. rewrite rev_unit. cbn [spec_streak_back].
  change (6 <=? 1)%nat with false. cbv iota.
  apply streak_back_gap. lia.
Qed.

(** The counters of a fresh detector after a stream are the streak and
    the trailing gap of the stream. *)
Lemma feed_counters roi thr k stream :
  motion_frames (feed (init roi thr k) stream) = spec_streak stream
  /\ no_motion_frames (feed (init roi thr k) stream)
     = Z.of_nat (lead_gap (rev stream)).
Proof.
  induction stream as [|b stream [IHm IHg]] using rev_ind.
  - split; reflexivity.
  - rewrite feed_snoc, rev_unit. destruct b.
    + rewrite streak_snoc_true. unfold track.
      cbn [fst motion_frames no_motion_frames set_counters lead_gap].
      split; [lia | reflexivity].
    + rewrite streak_snoc_false. unfold track. cbn [lead_gap].
      rewrite IHg.
      destruct (Z.ltb_spec 5 (Z.of_nat (lead_gap (rev stream)) + 1)) as [E|E];
        destruct (Nat.leb_spec 6 (1 + lead_gap (rev stream))) as [E'|E'];
        cbn [fst motion_frames no_motion_frames set_counters];
        try lia; (split; [first [reflexivity | exact IHm] | lia]).
Qed.

Lemma streak_back_le_count l : forall j,
  spec_streak_back j l <= Z.of_nat (length (filter (fun b => b = true) l)).
Proof.
  induction l as [|b l IH]; intros j; [simpl; lia|].
  destruct b; cbn [spec_streak_back].
  - rewrite filter_cons_True by reflexivity. simpl length.
    specialize (IH 0%nat). lia.
  - rewrite filter_cons_False by discriminate.
    destruct (6 <=? S j)%nat; [lia | apply IH].
Qed.

Lemma streak_le_count stream :
  spec_streak stream <= Z.of_nat (length (filter (fun b => b = true) stream)).
Proof.
  unfold spec_streak.
  etransitivity; [apply streak_back_le_count|].
  apply Nat2Z.inj_le.
  induction stream as [|b stream IH]; [reflexivity|].
  cbn [rev]. rewrite filter_app, length_app, (filter_cons _ b stream).
  destruct b.
  - rewrite filter_cons_True, decide_True by reflexivity. simpl in *. lia.
  - rewrite filter_cons_False, decide_False by discriminate. simpl in *. lia.
Qed.

End Debounce.

(** ** What [detect] touches *)

Section DetectEffects.

Import MotionDetector.

(** The contour loop: the flag is set when some contour qualifies, and
    the frame has received one green box for each qualifying contour, in
    the order of the contours. *)
Lemma mark_contours_spec cv self contours : forall flag frame,
  let out := fold_left
               (fun acc contour =>
                  if contourArea contour <? threshold self then acc
                  else
                    let '(x, y, w, h) := boundingRect contour in
                    (true,
                     rectangle cv (snd acc) (x, y) (x + w, y + h) green 2))
               contours (flag, frame) in
  fst out = flag || existsb (qualifies self) contours
  /\ snd out
     = draw cv frame
         (map (fun c => (box c, green)) (List.filter (qualifies self) contours)).
Proof.
  induction contours as [|c contours IH]; intros flag frame.
  - cbn. split; [rewrite orb_false_r; reflexivity | reflexivity].
  - cbn [fold_left existsb List.filter].
    assert (Hq : qualifies self c = negb (contourArea c <? threshold self))
      by reflexivity.
    rewrite Hq.
    destruct (contourArea c <? threshold self) eqn:E; cbn [negb andb orb].
    + apply IH.
    + assert (Hbox : box c = (fst (box c), snd (box c)))
        by (destruct (box c); reflexivity).
      change (draw cv frame
                (map (fun c => (box c, green))
                   (c :: List.filter (qualifies self) contours)))
        with (draw cv (rectangle cv frame (fst (box c)) (snd (box c)) green 2)
                (map (fun c => (box c, green))
                   (List.filter (qualifies self) contours))).
      unfold box at 1 2.
      destruct (boundingRect c) as [[[bx by_] bw] bh]. cbn [fst snd].
      destruct (IH true
                  (rectangle cv frame (bx, by_) (bx + bw, by_ + bh) green 2))
        as [Hflag Hdraw].
      split; [rewrite Hflag, orb_true_r; reflexivity | exact Hdraw].
Qed.

(** [detect] is [track] at the outcome of the contour search, on the
    detector that has absorbed the frame. *)
Lemma detect_track cv d frame :
  (fst (fst (detect cv d frame)), snd (detect cv d frame))
  = track (absorb d frame) (outcome cv d frame).
Proof.
  unfold detect, outcome.
  destruct (mark_contours_spec cv (absorb d frame)
              (findContours cv (bg_subtractor d) frame
                 (get_roi_mask d (shape frame))) false frame) as [Hflag _].
  unfold mark_contours.
  destruct (fold_left _ _ (false, frame)) as [q frame1].
  cbn [fst snd orb] in Hflag. subst q.
  destruct (get_roi_mask d (shape frame)) as [[[x1 y1] x2] y2].
  change (existsb (qualifies (absorb d frame)))
    with (existsb (qualifies d)).
  destruct (track (absorb d frame) _) as [d2 confirmed]. reflexivity.
Qed.







End DetectEffects.

(** ** The debounce policy *)

Section DebouncePolicy.

Import MotionDetector.

Lemma counters_absorb d frame : counters (absorb d frame) = counters d.
Proof. reflexivity. Qed.

(** [track] reads and writes the counters only. *)
Lemma track_counters d1 d2 b :
  counters d1 = counters d2 ->
  counters (fst (track d1 b)) = counters (fst (track d2 b))
  /\ snd (track d1 b) = snd (track d2 b).
Proof.
  unfold counters. intros [= Hm Hg Hk]. unfold track.
  rewrite Hm, Hg. destruct b; cbn; rewrite ?Hk.
  - split; reflexivity.
  - destruct (5 <? no_motion_frames d2 + 1); cbn; rewrite ?Hk;
      split; reflexivity.
Qed.

(** The counters after [detect] on a sequence of frames are the counters
    after [track] on the outcomes of the contour search. *)
Lemma detect_all_counters cv frames : forall d d',
  counters d = counters d' ->
  counters (detect_all cv d frames) = counters (feed d' (outcomes cv d frames)).
Proof.
  induction frames as [|frame rest IH]; intros d d' Hc; [exact Hc|].
  cbn [detect_all outcomes]. unfold feed. cbn [fold_left].
  apply IH.
  pose proof (detect_track cv d frame) as Hd.
  apply (f_equal fst) in Hd. cbn [fst] in Hd. rewrite Hd.
  apply track_counters. rewrite counters_absorb. exact Hc.
Qed.

Lemma detect_all_snoc cv frames : forall d frame,
  outcomes cv d (frames ++ [frame])
  = outcomes cv d frames ++ [outcome cv (detect_all cv d frames) frame].
Proof.
  induction frames as [|f rest IH]; intros d frame; [reflexivity|].
  cbn [app outcomes detect_all]. rewrite IH. reflexivity.
Qed.

Lemma confirmed_iff_streak roi thr k pre b :
  snd (track (feed (init roi thr k) pre) b) = true
  <-> k <= spec_streak (pre ++ [b]).
Proof.
  rewrite track_confirmed, feed_min_motion_frames, <- feed_snoc.
  destruct (feed_counters roi thr k (pre ++ [b])) as [-> _].
  apply Z.leb_le.
Qed.

(** C3. For every [k = min_motion_frames], a fresh detector and every
    sequence of frames, [detect] reports confirmed motion exactly when
    the qualifying streak of the per-frame contour outcomes has reached
    [k], hence only after at least [k] qualifying frames; the same holds
    of the counter logic driven by any boolean stream; there, a gap of
    at most 5 consecutive non-qualifying frames leaves the streak
    counter as it was, and a gap of 6 or more resets it to zero. *)
Theorem detect_confirms_after_k_with_gap_tolerance
    (roi : Fraction * Fraction * Fraction * Fraction) (thr k : Z)
    (cv : Vision) (frames : list Frame) (frame : Frame)
    (pre : list bool) (b : bool) (short long : nat) :
  let fresh := init roi thr k in
  (snd (detect cv (detect_all cv fresh frames) frame) = true
   <-> k <= spec_streak (outcomes cv fresh (frames ++ [frame])))
  /\ (snd (track (feed fresh pre) b) = true <-> k <= spec_streak (pre ++ [b]))
  /\ (snd (track (feed fresh pre) b) = true ->
      k <= Z.of_nat (length (filter (fun q => q = true) (pre ++ [b]))))
  /\ ((short <= 5)%nat ->
      motion_frames (feed fresh (pre ++ true :: repeat false short))
      = motion_frames (feed fresh (pre ++ [true])))
  /\ ((6 <= long)%nat ->
      motion_frames (feed fresh (pre ++ repeat false long)) = 0).
Proof.
  intros fresh. subst fresh.
  split; [|split; [apply confirmed_iff_streak|split; [|split]]].
  - rewrite detect_all_snoc, <- confirmed_iff_streak.
    pose proof (detect_track cv (detect_all cv (init roi thr k) frames) frame)
      as Hd.
    apply (f_equal snd) in Hd. cbn [snd] in Hd. rewrite Hd.
    destruct (track_counters
                (absorb (detect_all cv (init roi thr k) frames) frame)
                (feed (init roi thr k) (outcomes cv (init roi thr k) frames))
                (outcome cv (detect_all cv (init roi thr k) frames) frame))
      as [_ ->]; [|reflexivity].
    rewrite counters_absorb. apply detect_all_counters. reflexivity.
  - intros H. apply confirmed_iff_streak in H.
    pose proof (streak_le_count (pre ++ [b])). lia.
  - intros Hs. change (true :: repeat false short)
      with ([true] ++ repeat false short).
    rewrite app_assoc, feed_app, feed_gap_motion.
    + destruct (Nat.leb_spec short 5); [reflexivity | lia].
    + rewrite feed_snoc. reflexivity.
  - intros Hl. rewrite feed_app. apply feed_long_gap; [|exact Hl].
    destruct (feed_counters roi thr k pre) as [_ ->]. lia.
Qed.

Lemma detect_confirms_after_k_with_gap_tolerance_witness :
  let fresh := init whole 500 3 in
  snd (track (feed fresh [true; false; true]) true) = true
  /\ 3 <= Z.of_nat (length (filter (fun q => q = true)
                              ([true; false; true] ++ [true])))
  /\ motion_frames (feed fresh ([true; false; true] ++ true :: repeat false 5))
     = motion_frames (feed fresh ([true; false; true] ++ [true]))
  /\ motion_frames (feed fresh ([true; false; true] ++ repeat false 6)) = 0.
Proof.
  destruct (detect_confirms_after_k_with_gap_tolerance
              whole 500 3 Examples.no_contours [] Examples.blank_frame
              [true; false; true] true 5 6)
    as (_ & H1 & H2 & H3 & H4).
  assert (Hs : 3 <= spec_streak ([true; false; true] ++ [true]))
    by (vm_compute; discriminate).
  split; [apply H1, Hs|]. split; [apply H2, H1, Hs|].
  split; [apply H3; lia | apply H4; lia].
Defined.

End DebouncePolicy.

(** ** The recording sink *)

Section Sink.

Import VideoRecorder.

Lemma add_frame_ok frame r : fst (add_frame frame r) = Ok tt.
Proof. unfold add_frame. destruct (is_recording r && negb (full r)); reflexivity. Qed.

Lemma add_frame_full frame r : full r = true -> add_frame frame r = (Ok tt, r).
Proof.
  intros H. unfold add_frame. rewrite H, andb_false_r. reflexivity.
Qed.

Lemma add_frame_inactive frame r :
  is_recording r = false -> add_frame frame r = (Ok tt, r).
Proof. intros H. unfold add_frame. rewrite H. reflexivity. Qed.

Lemma add_frame_enqueue frame r :
  is_recording r = true -> full r = false ->
  snd (add_frame frame r) = set_frame_queue (frame_queue r ++ [frame]) r.
Proof. intros H1 H2. unfold add_frame. rewrite H1, H2. reflexivity. Qed.

Lemma add_frame_is_recording frame r :
  is_recording (snd (add_frame frame r)) = is_recording r.
Proof.
  unfold add_frame. destruct (is_recording r && negb (full r)); reflexivity.
Qed.

Lemma add_frame_bounded frame r :
  (length (frame_queue r) <= maxsize)%nat ->
  (length (frame_queue (snd (add_frame frame r))) <= maxsize)%nat.
Proof.
  intros Hb. unfold add_frame, full.
  destruct (is_recording r); cbn [andb]; [|exact Hb].
  destruct (Nat.leb_spec maxsize (length (frame_queue r)));
    cbn [negb snd frame_queue set_frame_queue]; [exact Hb|].
  rewrite length_app. cbn [length]. lia.
Qed.

(** The consumer thread only shortens the buffer, in arrival order. *)
Lemma recording_loop_step_queue r :
  frame_queue (recording_loop_step r) = frame_queue r
  \/ frame_queue (recording_loop_step r) = tail (frame_queue r).
Proof.
  unfold recording_loop_step.
  destruct (recording_thread r) as [[|]|]; try (left; reflexivity).
  destruct (frame_queue r) eqn:E; cbn.
  - destruct (is_recording r); cbn; left; exact E.
  - right. reflexivity.
Qed.

Lemma recording_loop_step_bounded r :
  (length (frame_queue r) <= maxsize)%nat ->
  (length (frame_queue (recording_loop_step r)) <= maxsize)%nat.
Proof.
  destruct (recording_loop_step_queue r) as [-> | ->]; [tauto|].
  destruct (frame_queue r); cbn [tail length]; lia.
Qed.

(** C6 (as the code has it). While the sink is active, [add_frame]
    returns normally; on a full buffer (100 frames) the incoming frame is
    dropped and the sink, with its buffered frames and their order, is
    exactly as before, so nothing records the drop; otherwise the frame
    is appended behind the buffered ones; the buffer never grows beyond
    its capacity. *)
Theorem add_frame_drops_silently_when_full (frame : Frame) (r : t) :
  is_recording r = true ->
  fst (add_frame frame r) = Ok tt
  /\ (full r = true -> snd (add_frame frame r) = r)
  /\ (full r = false ->
      frame_queue (snd (add_frame frame r)) = frame_queue r ++ [frame])
  /\ ((length (frame_queue r) <= maxsize)%nat ->
      (length (frame_queue (snd (add_frame frame r))) <= maxsize)%nat).
Proof.
  intros Hact. split; [apply add_frame_ok|]. split; [|split].
  - intros Hf. rewrite add_frame_full by exact Hf. reflexivity.
  - intros Hf. rewrite add_frame_enqueue by assumption. reflexivity.
  - apply add_frame_bounded.
Qed.

Lemma add_frame_drops_silently_when_full_witness :
  fst (add_frame Examples.blank_frame Examples.full_sink) = Ok tt
  /\ snd (add_frame Examples.blank_frame Examples.full_sink)
     = Examples.full_sink
  /\ (length (frame_queue
                (snd (add_frame Examples.blank_frame Examples.full_sink)))
      <= maxsize)%nat.
Proof.
  destruct (add_frame_drops_silently_when_full
              Examples.blank_frame Examples.full_sink)
    as (H1 & H2 & _ & H4); [vm_compute; reflexivity|].
  split; [exact H1|]. split.
  - apply H2. vm_compute. reflexivity.
  - apply H4. apply Nat.leb_le. vm_compute. reflexivity.
Defined.

(** C6 as stated fails: on the full, active sink of [Examples.full_sink]
    no counter or metric of the sink tells a dropped frame from no call
    at all. *)
Lemma add_frame_drop_not_observable :
  is_recording Examples.full_sink = true
  /\ full Examples.full_sink = true
  /\ ~ (exists metric : t -> Z,
          metric (snd (add_frame Examples.blank_frame Examples.full_sink))
          <> metric Examples.full_sink).
Proof.
  split; [vm_compute; reflexivity|]. split; [vm_compute; reflexivity|].
  intros [metric Hm]. apply Hm.
  rewrite add_frame_full by (vm_compute; reflexivity). reflexivity.
Qed.

(** C7. [stop_recording] on an inactive sink returns [None] and leaves
    the sink as it was; [start_recording] on an active sink returns at
    once and leaves the sink, and so its encoder, as it was. *)
Theorem start_stop_idempotent (r : t) (frame : Frame) (stamp : string)
    (opens : bool) (clock : Z) (turns : nat) :
  (is_recording r = false -> stop_recording turns r = (Ok None, r))
  /\ (is_recording r = true ->
      start_recording frame stamp opens clock r = (Ok tt, r)).
Proof.
  split; intros H.
  - unfold stop_recording. rewrite H. reflexivity.
  - unfold start_recording. rewrite H. reflexivity.
Qed.

Lemma start_stop_idempotent_witness :
  stop_recording 7 Examples.idle_sink = (Ok None, Examples.idle_sink)
  /\ start_recording Examples.blank_frame "20240101_000500" true 1700000300
       Examples.full_sink = (Ok tt, Examples.full_sink).
Proof.
  split.
  - apply (start_stop_idempotent Examples.idle_sink Examples.blank_frame
             "20240101_000500" true 1700000300 7).
    reflexivity.
  - apply (start_stop_idempotent Examples.full_sink Examples.blank_frame
             "20240101_000500" true 1700000300 7).
    vm_compute. reflexivity.
Defined.

(** C9 (what the code does). When the encoder target cannot be created,
    [start_recording] on an inactive sink raises, but only after it has
    marked the sink as recording and replaced its path and writer: the
    sink is left active without a consumer thread, and a later
    [start_recording] is then a no-op even if the encoder would open. *)
Theorem start_recording_open_failure_leaves_sink_active
    (r : t) (frame frame' : Frame) (stamp stamp' : string) (clock clock' : Z) :
  is_recording r = false ->
  let r' := snd (start_recording frame stamp false clock r) in
  (exists msg, fst (start_recording frame stamp false clock r)
               = Raise (Exception msg))
  /\ is_recording r' = true
  /\ recording_thread r' = recording_thread r
  /\ frame_queue r' = frame_queue r
  /\ r' <> r
  /\ start_recording frame' stamp' true clock' r' = (Ok tt, r').
Proof.
  intros H r'. subst r'. unfold start_recording at 1 2 3 4 5 6. rewrite H.
  cbn [negb fst snd is_recording recording_thread frame_queue
       set_is_recording set_last_video_path set_video_writer].
  split; [eexists; reflexivity|]. repeat split.
  - intros E. apply (f_equal is_recording) in E. cbn in E. congruence.
  - unfold start_recording. rewrite H. reflexivity.
Qed.

Lemma start_recording_open_failure_leaves_sink_active_witness :
  is_recording
    (snd (start_recording Examples.blank_frame "20240101_000000" false
            1700000000 Examples.idle_sink)) = true
  /\ recording_thread
       (snd (start_recording Examples.blank_frame "20240101_000000" false
               1700000000 Examples.idle_sink)) = None.
Proof.
  destruct (start_recording_open_failure_leaves_sink_active
              Examples.idle_sink Examples.blank_frame Examples.blank_frame
              "20240101_000000" "20240101_000100" 1700000000 1700000060)
    as (_ & H2 & H3 & _); [reflexivity|].
  split; [exact H2 | exact H3].
Defined.

End Sink.

(** ** The supervisor *)

Section Supervisor.

Import SurveillanceSystem Effects.

Local Arguments String.append : simpl never.

Lemma set_recorders_id s cam r :
  recorders s !! cam = Some r ->
  set_recorders (<[cam := r]> (recorders s)) s = s.
Proof.
  intros H. destruct s; cbn in *. rewrite insert_id by exact H. reflexivity.
Qed.

Lemma on_recorder_run {A} cam (m : M VideoRecorder.t A) s r :
  recorders s !! cam = Some r ->
  on_recorder cam m s
  = (fst (m r), set_recorders (<[cam := snd (m r)]> (recorders s)) s).
Proof.
  intros H. unfold on_recorder. rewrite H. destruct (m r); reflexivity.
Qed.

Lemma on_recorder_missing {A} cam (m : M VideoRecorder.t A) s :
  recorders s !! cam = None -> on_recorder cam m s = (Raise (KeyError cam), s).
Proof. intros H. unfold on_recorder. rewrite H. reflexivity. Qed.

Lemma camera_config_run cam s cfg :
  cameras (config s) !! cam = Some cfg -> camera_config cam s = (Ok cfg, s).
Proof. intros H. unfold camera_config. rewrite H. reflexivity. Qed.

Lemma camera_state_run cam s st :
  camera_states s !! cam = Some st -> camera_state cam s = (Ok st, s).
Proof. intros H. unfold camera_state. rewrite H. reflexivity. Qed.

Lemma on_detector_run {A} cam (m : MotionDetector.t -> MotionDetector.t * A)
    s d :
  motion_detectors s !! cam = Some d ->
  on_detector cam m s
  = (Ok (snd (m d)),
     set_motion_detectors (<[cam := fst (m d)]> (motion_detectors s)) s).
Proof.
  intros H. unfold on_detector. rewrite H. destruct (m d); reflexivity.
Qed.

(** [json] is not among the names of the module. *)
Lemma global_json {S} (s : S) : global "json" s = (Raise (NameError "json"), s).
Proof. reflexivity. Qed.

Lemma start_recording_run cam frame env s r cfg camera_name :
  recorders s !! cam = Some r ->
  cameras (config s) !! cam = Some cfg ->
  name cfg = Some camera_name ->
  let out := VideoRecorder.start_recording frame (timestamp env)
               (encoder_opens env) (now env) r in
  start_recording cam frame env s
  = (Ok tt,
     set_logger (logger s ++ [start_record cam camera_name (fst out)])
       (set_recorders (<[cam := snd out]> (recorders s)) s)).
Proof.
  intros Hr Hc Hn out.
  unfold start_recording, try_except, bind.
  rewrite (camera_config_run _ _ _ Hc), Hn. cbn [item ret].
  rewrite (on_recorder_run _ _ _ _ Hr). fold out.
  destruct (fst out) as [[]|e]; reflexivity.
Qed.

Lemma on_recorder_get cam s r :
  recorders s !! cam = Some r -> on_recorder cam get s = (Ok r, s).
Proof.
  intros H. rewrite (on_recorder_run _ _ _ _ H). cbn [get fst snd].
  rewrite set_recorders_id by exact H. reflexivity.
Qed.

Lemma on_recorder_add_frame cam frame s r :
  recorders s !! cam = Some r ->
  on_recorder cam (VideoRecorder.add_frame frame) s
  = (Ok tt,
     set_recorders
       (<[cam := snd (VideoRecorder.add_frame frame r)]> (recorders s)) s).
Proof.
  intros H. rewrite (on_recorder_run _ _ _ _ H).
  unfold VideoRecorder.add_frame.
  destruct (VideoRecorder.is_recording r && negb (VideoRecorder.full r));
    reflexivity.
Qed.

Lemma bind_ok {S A B} (m : M S A) (k : A -> M S B) s a s' :
  m s = (Ok a, s') -> bind m k s = k a s'.
Proof. intros H. unfold bind. rewrite H. reflexivity. Qed.

Lemma bind_raise {S A B} (m : M S A) (k : A -> M S B) s e s' :
  m s = (Raise e, s') -> bind m k s = (Raise e, s').
Proof. intros H. unfold bind. rewrite H. reflexivity. Qed.

Lemma bind_assoc {S A B C} (m : M S A) (f : A -> M S B) (g : B -> M S C) s :
  bind (bind m f) g s = bind m (fun a => bind (f a) g) s.
Proof.
  unfold bind. destruct (m s) as [[a|e] s']; [|reflexivity].
  destruct (f a s') as [[b|e] s'']; reflexivity.
Qed.

Lemma try_ok {S A} (m : M S A) h s a s' :
  m s = (Ok a, s') -> try_except m h s = (Ok a, s').
Proof. intros H. unfold try_except. rewrite H. reflexivity. Qed.

Lemma try_raise {S A} (m : M S A) h s e s' :
  m s = (Raise e, s') -> try_except m h s = h e s'.
Proof. intros H. unfold try_except. rewrite H. reflexivity. Qed.

End Supervisor.

(** Symbolic execution of a method on a state whose dictionary entries
    are known from the hypotheses. *)
Ltac project :=
  cbn [SurveillanceSystem.config SurveillanceSystem.running
       SurveillanceSystem.motion_detectors SurveillanceSystem.recorders
       SurveillanceSystem.camera_states SurveillanceSystem.telegram_bot
       SurveillanceSystem.logger SurveillanceSystem.recordings_jsonl
       SurveillanceSystem.set_running SurveillanceSystem.set_motion_detectors
       SurveillanceSystem.set_recorders SurveillanceSystem.set_camera_states
       SurveillanceSystem.set_telegram_bot SurveillanceSystem.set_logger
       SurveillanceSystem.set_recordings_jsonl
       SurveillanceSystem.recording SurveillanceSystem.motion_start
       SurveillanceSystem.last_motion SurveillanceSystem.motion_count
       SurveillanceSystem.cooldown_until
       SurveillanceSystem.with_recording SurveillanceSystem.with_motion_start
       SurveillanceSystem.with_last_motion SurveillanceSystem.with_motion_count
       SurveillanceSystem.with_cooldown_until fst snd].

Ltac lookup :=
  project;
  rewrite ?lookup_insert_eq, ?lookup_alter_eq;
  repeat match goal with
         | H : ?m !! ?k = Some _ |- context [?m !! ?k] => rewrite H
         end;
  cbn [fmap option_fmap option_map];
  first [reflexivity | eassumption].

Ltac run1 :=
  first
    [ eapply camera_config_run; lookup
    | eapply camera_state_run; lookup
    | eapply on_recorder_get; lookup
    | eapply on_recorder_add_frame; lookup
    | eapply on_detector_run; lookup
    | reflexivity ].

Ltac exec :=
  repeat first
    [ erewrite bind_ok by run1
    | rewrite bind_assoc
    | progress project
    | progress cbn [SurveillanceSystem.item ret] ].

Section SupervisorStop.

Import SurveillanceSystem Effects.

Local Arguments String.append : simpl never.

Lemma get_last_duration_run clock r :
  exists z, VideoRecorder.get_last_duration clock r = (Ok z, r).
Proof.
  unfold VideoRecorder.get_last_duration.
  destruct (VideoRecorder.start_time r) as [t0|];
    [destruct (t0 =? 0)|]; eauto.
Qed.

Lemma sink_stop_returns turns r :
  exists o, fst (VideoRecorder.stop_recording turns r) = Ok o.
Proof.
  unfold VideoRecorder.stop_recording.
  destruct (negb (VideoRecorder.is_recording r)); eauto.
Qed.

Lemma log_recging_run cam p env s r cfg camera_name :
  recorders s !! cam = Some r ->
  cameras (config s) !! cam = Some cfg ->
  name cfg = Some camera_name ->
  log_recging cam p env s = (Raise (NameError "json"), s).
Proof.
  intros Hr Hc Hn. unfold log_recging.
  destruct (get_last_duration_run (now env) r) as [z Hz].
  exec. rewrite Hn. exec.
  erewrite bind_ok
    by (rewrite (on_recorder_run _ _ _ _ Hr), Hz; reflexivity).
  erewrite bind_raise by apply global_json.
  rewrite set_recorders_id by exact Hr. reflexivity.
Qed.

Lemma stop_recording_run cam env s r cfg camera_name :
  recorders s !! cam = Some r ->
  cameras (config s) !! cam = Some cfg ->
  name cfg = Some camera_name ->
  stop_recording cam env s = (Ok tt, stopped cam env camera_name r s).
Proof.
  intros Hr Hc Hn.
  unfold stop_recording, stopped.
  destruct (sink_stop_returns (drain env) r) as [o Ho].
  destruct (VideoRecorder.stop_recording (drain env) r) as [res r'] eqn:Eout.
  cbn [fst snd] in *. subst res.
  destruct o as [p|].
  - unfold stop_failure.
    destruct (send_video (config s)) as [[|]|] eqn:Esv; cbn [default].
    + eapply eq_trans.
      * eapply try_raise.
        erewrite bind_ok
          by (rewrite (on_recorder_run _ _ _ _ Hr), Eout; reflexivity).
        exec. rewrite Hn. exec. rewrite Esv. exec.
        eapply log_recging_run; [lookup | lookup | exact Hn].
      * unfold log, modify. project. rewrite <- app_assoc. reflexivity.
    + eapply eq_trans.
      * eapply try_raise.
        erewrite bind_ok
          by (rewrite (on_recorder_run _ _ _ _ Hr), Eout; reflexivity).
        exec. rewrite Hn. exec. rewrite Esv. exec.
        eapply log_recging_run; [lookup | lookup | exact Hn].
      * unfold log, modify. project. rewrite <- app_assoc, app_nil_r.
        destruct s; reflexivity.
    + eapply eq_trans.
      * eapply try_raise.
        erewrite bind_ok
          by (rewrite (on_recorder_run _ _ _ _ Hr), Eout; reflexivity).
        exec. rewrite Hn. exec. rewrite Esv.
        erewrite bind_raise by reflexivity. reflexivity.
      * unfold log, modify. project. rewrite <- app_assoc, app_nil_r.
        destruct s; reflexivity.
  - eapply try_ok.
    erewrite bind_ok
      by (rewrite (on_recorder_run _ _ _ _ Hr), Eout; reflexivity).
    reflexivity.
Qed.

End SupervisorStop.

Section Shutdown.

Import SurveillanceSystem Effects.

Local Arguments String.append : simpl never.

Lemma loop_keeps_path n r :
  VideoRecorder.last_video_path (Nat.iter n VideoRecorder.recording_loop_step r)
  = VideoRecorder.last_video_path r.
Proof.
  induction n as [|n IH]; [reflexivity|].
  cbn [Nat.iter nat_rect]. unfold VideoRecorder.recording_loop_step at 1.
  destruct (VideoRecorder.recording_thread _) as [[|]|]; try exact IH.
  destruct (VideoRecorder.frame_queue _); cbn.
  - destruct (VideoRecorder.is_recording _); cbn; exact IH.
  - exact IH.
Qed.

Lemma loop_keeps_is_recording n r :
  VideoRecorder.is_recording (Nat.iter n VideoRecorder.recording_loop_step r)
  = VideoRecorder.is_recording r.
Proof.
  induction n as [|n IH]; [reflexivity|].
  cbn [Nat.iter nat_rect]. unfold VideoRecorder.recording_loop_step at 1.
  destruct (VideoRecorder.recording_thread _) as [[|]|]; try exact IH.
  destruct (VideoRecorder.frame_queue _); cbn.
  - destruct (VideoRecorder.is_recording
                (nat_rect _ r (fun _ => VideoRecorder.recording_loop_step) n))
      eqn:E; cbn; exact IH.
  - exact IH.
Qed.

Lemma sink_stop_active turns r :
  VideoRecorder.is_recording r = true ->
  fst (VideoRecorder.stop_recording turns r)
  = Ok (VideoRecorder.last_video_path r)
  /\ VideoRecorder.is_recording (snd (VideoRecorder.stop_recording turns r))
     = false.
Proof.
  intros H. unfold VideoRecorder.stop_recording. rewrite H.
  cbn [negb fst snd VideoRecorder.recording_thread VideoRecorder.set_is_recording
       VideoRecorder.last_video_path VideoRecorder.set_frame_queue
       VideoRecorder.is_recording].
  destruct (VideoRecorder.recording_thread r); [|split; reflexivity].
  rewrite loop_keeps_path, loop_keeps_is_recording. split; reflexivity.
Qed.

(** C5 (what the code does). When the supervisor stops an active
    recording whose sink returns a handle, the clip is handed to the
    notifier if [send_video] is configured, but no entry reaches the
    recording log: [log_recging] evaluates the name [json], which the
    module never imports, and the [NameError] is swallowed by the handler
    of [stop_recording] and written to the application log.  (Without a
    [send_video] key the handler swallows the [KeyError] of that lookup
    instead, before [log_recging] is reached.) *)
Theorem stop_recording_appends_no_log_entry
    (s : t) (cam : string) (env : Env) (r : VideoRecorder.t)
    (cfg : CameraConfig) (camera_name p : string) :
  recorders s !! cam = Some r ->
  VideoRecorder.is_recording r = true ->
  VideoRecorder.last_video_path r = Some p ->
  cameras (config s) !! cam = Some cfg ->
  name cfg = Some camera_name ->
  let s' := snd (stop_recording cam env s) in
  fst (stop_recording cam env s) = Ok tt
  /\ fst (VideoRecorder.stop_recording (drain env) r) = Ok (Some p)
  /\ recordings_jsonl s' = recordings_jsonl s
  /\ telegram_bot s'
     = telegram_bot s
       ++ (if default false (send_video (config s))
           then [Video p ("Motion detected: " +:+ camera_name)] else [])
  /\ logger s'
     = logger s
       ++ [Info ("Recording saved: " +:+ p);
           Error ("Failed to stop recording for " +:+ cam)
             (match send_video (config s) with
              | Some _ => NameError "json"
              | None => KeyError "send_video"
              end)].
Proof.
  intros Hr Hact Hp Hc Hn s'. subst s'.
  rewrite (stop_recording_run _ _ _ _ _ _ Hr Hc Hn).
  destruct (sink_stop_active (drain env) r Hact) as [Hres _].
  rewrite Hp in Hres. unfold stopped. rewrite Hres.
  repeat split.
Qed.

Lemma stop_recording_appends_no_log_entry_witness :
  let s' := snd (stop_recording "cam1" (Examples.env_at 28)
                   Examples.recording_system) in
  recordings_jsonl s' = recordings_jsonl Examples.recording_system
  /\ telegram_bot s'
     = telegram_bot Examples.recording_system
       ++ [Video "recordings/cam1_20240101_000000.mp4"
             "Motion detected: Front door"].
Proof.
  destruct (stop_recording_appends_no_log_entry
              Examples.recording_system "cam1" (Examples.env_at 28)
              (default Examples.idle_sink
                 (recorders Examples.recording_system !! "cam1"))
              Examples.camera "Front door"
              "recordings/cam1_20240101_000000.mp4")
    as (_ & _ & H3 & H4 & _); try (vm_compute; reflexivity).
  split; [exact H3 | exact H4].
Defined.

Lemma for_each_raise {S A} (x : A) (rest : list A) (body : A -> M S unit)
    e s s' :
  body x s = (Raise e, s') -> for_each (x :: rest) body s = (Raise e, s').
Proof. intros Hb. cbn [for_each]. apply bind_raise, Hb. Qed.

(** C4 (what the code does). With at least one camera initialised,
    [stop] raises [TypeError] at the first [recorder.is_recording()]: the
    attribute is the bool stored by [__init__], not the method.  No
    recorder is stopped, so a recorder that was active is still active,
    and the final log line is not written. *)
Theorem stop_raises_before_stopping_any_recorder (s : t) (env : Env) :
  recorders s <> ∅ ->
  fst (stop env s) = Raise (TypeError "'bool' object is not callable")
  /\ recorders (snd (stop env s)) = recorders s
  /\ running (snd (stop env s)) = false
  /\ logger (snd (stop env s))
     = logger s ++ [Info "Stopping surveillance system..."].
Proof.
  intros Hne.
  destruct (map_to_list (recorders s)) as [|[cam r] rest] eqn:El.
  { apply map_to_list_empty_iff in El. contradiction. }
  assert (Hin : recorders s !! cam = Some r).
  { apply elem_of_map_to_list. rewrite El. left. }
  set (s1 := set_running false
               (set_logger (logger s ++ [Info "Stopping surveillance system..."])
                  s)).
  assert (Hrun : stop env s
                 = (Raise (TypeError "'bool' object is not callable"), s1)).
  { unfold stop. exec. fold s1. rewrite El. cbn [fmap list_fmap fst].
    apply bind_raise, for_each_raise, bind_raise.
    rewrite (on_recorder_run _ _ s1 r) by exact Hin.
    cbn [VideoRecorder.getattr_is_recording VideoRecorder.call raise fst snd].
    rewrite set_recorders_id by exact Hin. reflexivity. }
  rewrite Hrun. repeat split.
Qed.

Lemma stop_raises_before_stopping_any_recorder_witness :
  let s := Examples.recording_system in
  fst (stop Examples.shutdown_env s)
  = Raise (TypeError "'bool' object is not callable")
  /\ VideoRecorder.is_recording
       <$> recorders (snd (stop Examples.shutdown_env s)) !! "cam1"
     = Some true.
Proof.
  destruct (stop_raises_before_stopping_any_recorder
              Examples.recording_system Examples.shutdown_env)
    as (H1 & H2 & _).
  - intros E. apply (f_equal (fun m => m !! "cam1")) in E.
    vm_compute in E. discriminate.
  - split; [exact H1|]. rewrite H2. vm_compute. reflexivity.
Defined.

End Shutdown.

Section Transitions.

Import SurveillanceSystem Effects.

Local Arguments String.append : simpl never.

Variables (s : t) (cam : string) (frame : Frame) (env : Env).
Variables (st : CameraState) (r : VideoRecorder.t) (cfg : CameraConfig).
Hypothesis Hst : camera_states s !! cam = Some st.
Hypothesis Hr : recorders s !! cam = Some r.
Hypothesis Hc : cameras (config s) !! cam = Some cfg.

(** No confirmed motion while idle: nothing changes. *)
Lemma update_idle_quiet :
  recording st = false ->
  update_camera_state cam false frame env s = (Ok tt, s).
Proof.
  intros Hrec. unfold update_camera_state. exec.
  rewrite Hrec. reflexivity.
Qed.

(** Confirmed motion while idle, below the supervisor's own threshold. *)
Lemma update_idle_counting k :
  recording st = false ->
  min_motion_frames cfg = Some k ->
  motion_count st + 1 < k ->
  exists s', update_camera_state cam true frame env s = (Ok tt, s')
             /\ steps_to s s' cam (seen_motion (now env) st) r
             /\ telegram_bot s' = telegram_bot s
             /\ recordings_jsonl s' = recordings_jsonl s.
Proof.
  intros Hrec Hk Hlt. eexists. split.
  - unfold update_camera_state. exec. rewrite Hrec. cbn [negb]. exec.
    rewrite Hk. exec.
    destruct (Z.leb_spec k (motion_count st + 1)); [lia|]. reflexivity.
  - unfold steps_to. project.
    rewrite lookup_alter_eq, Hst, Hr. repeat split.
Qed.

(** Confirmed motion while idle, reaching the supervisor's threshold:
    the recorder is started and the state becomes recording, whatever
    the outcome of the start. *)
Lemma update_idle_starts k camera_name snap :
  recording st = false ->
  min_motion_frames cfg = Some k ->
  k <= motion_count st + 1 ->
  name cfg = Some camera_name ->
  send_snapshot (config s) = Some snap ->
  exists s', update_camera_state cam true frame env s = (Ok tt, s')
             /\ steps_to s s' cam (started (now env) st)
                  (snd (VideoRecorder.start_recording frame (timestamp env)
                          (encoder_opens env) (now env) r))
             /\ recordings_jsonl s' = recordings_jsonl s.
Proof.
  intros Hrec Hk Hle Hn Esnap.
  destruct snap.
  - eexists. split.
    + unfold update_camera_state. exec. rewrite Hrec. cbn [negb]. exec.
      rewrite Hk. exec.
      destruct (Z.leb_spec k (motion_count st + 1)); [|lia].
      erewrite bind_ok
        by (eapply start_recording_run; [lookup | lookup | exact Hn]).
      exec. rewrite Esnap. exec.
      unfold send_motion_alert. eapply try_ok. exec. rewrite Hn. exec.
      reflexivity.
    + unfold steps_to, started, seen_motion. project.
      rewrite !lookup_alter_eq, Hst, lookup_insert_eq. repeat split.
  - eexists. split.
    + unfold update_camera_state. exec. rewrite Hrec. cbn [negb]. exec.
      rewrite Hk. exec.
      destruct (Z.leb_spec k (motion_count st + 1)); [|lia].
      erewrite bind_ok
        by (eapply start_recording_run; [lookup | lookup | exact Hn]).
      exec. rewrite Esnap. exec. reflexivity.
    + unfold steps_to, started, seen_motion. project.
      rewrite !lookup_alter_eq, Hst, lookup_insert_eq. repeat split.
Qed.

(** Confirmed motion while recording: the frame goes to the recorder and
    [last_motion] is refreshed. *)
Lemma update_recording_motion :
  recording st = true ->
  exists s', update_camera_state cam true frame env s = (Ok tt, s')
             /\ steps_to s s' cam (seen_motion (now env) st)
                  (snd (VideoRecorder.add_frame frame r))
             /\ telegram_bot s' = telegram_bot s
             /\ recordings_jsonl s' = recordings_jsonl s
             /\ logger s' = logger s.
Proof.
  intros Hrec. eexists. split.
  - unfold update_camera_state. exec. rewrite Hrec. cbn [negb]. exec.
    eapply on_recorder_add_frame. lookup.
  - unfold steps_to, seen_motion. project.
    rewrite lookup_alter_eq, Hst, lookup_insert_eq. repeat split.
Qed.

(** The time without confirmed motion as the supervisor computes it:
    [now - (state['last_motion'] or now)]. *)
Lemma idle_time_of_last_motion lm :
  lm <> 0 ->
  now env - (if lm =? 0 then now env else lm) = now env - lm.
Proof. intros H. destruct (Z.eqb_spec lm 0); [contradiction | reflexivity]. Qed.

(** No confirmed motion while recording, and the cooldown has not
    elapsed or the minimum duration is not reached: the frame still goes
    to the recorder and the state is untouched. *)
Lemma update_recording_keeps mrt cd lm ms :
  recording st = true ->
  last_motion st = Some lm -> lm <> 0 ->
  motion_start st = Some ms ->
  min_recording_time cfg = Some mrt ->
  cooldown_time cfg = Some cd ->
  ~ (cd < now env - lm /\ mrt <= now env - ms) ->
  exists s', update_camera_state cam false frame env s = (Ok tt, s')
             /\ steps_to s s' cam st (snd (VideoRecorder.add_frame frame r))
             /\ telegram_bot s' = telegram_bot s
             /\ recordings_jsonl s' = recordings_jsonl s
             /\ logger s' = logger s.
Proof.
  intros Hrec Hlm Hnz Hms Hmrt Hcd Hnot. eexists. split.
  - unfold update_camera_state. exec. rewrite Hrec. exec.
    rewrite Hmrt. exec. rewrite Hcd. exec.
    rewrite Hlm, (idle_time_of_last_motion _ Hnz), Hms.
    destruct (Z.ltb_spec cd (now env - lm)).
    + exec. destruct (Z.leb_spec mrt (now env - ms)); [lia|].
      eapply on_recorder_add_frame, Hr.
    + eapply on_recorder_add_frame, Hr.
  - unfold steps_to. project. rewrite lookup_insert_eq. repeat split; auto.
Qed.

(** No confirmed motion while recording, cooldown elapsed and minimum
    duration reached: the recorder is stopped and the state returns to
    idle with a zero motion count. *)
Lemma update_recording_stops mrt cd lm ms camera_name :
  recording st = true ->
  last_motion st = Some lm -> lm <> 0 ->
  motion_start st = Some ms ->
  min_recording_time cfg = Some mrt ->
  cooldown_time cfg = Some cd ->
  name cfg = Some camera_name ->
  cd < now env - lm -> mrt <= now env - ms ->
  exists s', update_camera_state cam false frame env s = (Ok tt, s')
             /\ steps_to s s' cam (closed st)
                  (snd (VideoRecorder.stop_recording (drain env) r))
             /\ recordings_jsonl s' = recordings_jsonl s.
Proof.
  intros Hrec Hlm Hnz Hms Hmrt Hcd Hn Hcool Hmin. eexists. split.
  - unfold update_camera_state. exec. rewrite Hrec. exec.
    rewrite Hmrt. exec. rewrite Hcd. exec.
    rewrite Hlm, (idle_time_of_last_motion _ Hnz), Hms.
    destruct (Z.ltb_spec cd (now env - lm)); [|lia].
    exec. destruct (Z.leb_spec mrt (now env - ms)); [|lia].
    erewrite bind_ok by (eapply stop_recording_run; [lookup | lookup | exact Hn]).
    reflexivity.
  - unfold steps_to, closed, stopped. project.
    destruct (sink_stop_returns (drain env) r) as [[p|] ->]; project;
      rewrite lookup_alter_eq, Hst, lookup_insert_eq; repeat split.
Qed.

End Transitions.

(** ** What a step of the supervisor does to [last_motion] *)

Section LastMotion.

Import SurveillanceSystem Effects.

Variables (cam : string) (v : option Z).

Let P := last_motion_is cam v.

Lemma maintains_ret {A} (a : A) : maintains P (ret a).
Proof. intros s H. exact H. Qed.

Lemma maintains_raise {A} e : maintains P (@raise t A e).
Proof. intros s H. exact H. Qed.

Lemma maintains_get : maintains P get.
Proof. intros s H. exact H. Qed.

Lemma maintains_bind {A B} (m : M t A) (k : A -> M t B) :
  maintains P m -> (forall a, maintains P (k a)) -> maintains P (bind m k).
Proof.
  intros Hm Hk s H. unfold bind. specialize (Hm s H).
  destruct (m s) as [[a|e] s1]; cbn [snd] in *; [apply Hk, Hm | exact Hm].
Qed.

Lemma maintains_try {A} (m : M t A) h :
  maintains P m -> (forall e, maintains P (h e)) -> maintains P (try_except m h).
Proof.
  intros Hm Hh s H. unfold try_except. specialize (Hm s H).
  destruct (m s) as [[a|e] s1]; cbn [snd] in *; [exact Hm | apply Hh, Hm].
Qed.

Lemma maintains_item {A} (o : option A) key : maintains P (item o key).
Proof. destruct o; intros s H; exact H. Qed.

Lemma maintains_modify f :
  (forall s, camera_states (f s) = camera_states s) -> maintains P (modify f).
Proof.
  intros Hf s [st [H1 H2]]. exists st. cbn [modify snd]. rewrite Hf. auto.
Qed.

Lemma maintains_camera_config c : maintains P (camera_config c).
Proof. intros s H. unfold camera_config. apply maintains_item, H. Qed.

Lemma maintains_camera_state c : maintains P (camera_state c).
Proof. intros s H. unfold camera_state. apply maintains_item, H. Qed.

Lemma maintains_on_recorder {A} c (m : M VideoRecorder.t A) :
  maintains P (on_recorder c m).
Proof.
  intros s H. unfold on_recorder.
  destruct (recorders s !! c) as [r|]; [|exact H].
  destruct (m r) as [res r']. exact H.
Qed.

Lemma maintains_log rec : maintains P (log rec).
Proof. apply maintains_modify. reflexivity. Qed.

Lemma maintains_deliver d : maintains P (deliver d).
Proof. apply maintains_modify. reflexivity. Qed.

Lemma maintains_global name : maintains P (global name).
Proof. intros s H. unfold global. destruct (bool_decide _); exact H. Qed.

Lemma maintains_update_state f :
  (forall st, last_motion (f st) = last_motion st) ->
  maintains P (update_state cam f).
Proof.
  intros Hf s [st [H1 H2]]. exists (f st). cbn [update_state modify snd].
  project. rewrite lookup_alter_eq, H1. split; [reflexivity|].
  rewrite Hf. exact H2.
Qed.

Lemma maintains_if {A} (b : bool) (m1 m2 : M t A) :
  maintains P m1 -> maintains P m2 -> maintains P (if b then m1 else m2).
Proof. destruct b; auto. Qed.

Lemma maintains_option {A B} (o : option B) (m1 : B -> M t A) m2 :
  (forall b, maintains P (m1 b)) -> maintains P m2 ->
  maintains P (match o with Some b => m1 b | None => m2 end).
Proof. destruct o; auto. Qed.

Ltac maintained :=
  repeat first
    [ apply maintains_ret | apply maintains_raise | apply maintains_get
    | apply maintains_item | apply maintains_camera_config
    | apply maintains_camera_state | apply maintains_on_recorder
    | apply maintains_log | apply maintains_deliver | apply maintains_global
    | apply maintains_update_state; reflexivity
    | apply maintains_if
    | apply maintains_option; [intros ?|]
    | apply maintains_bind; [|intros ?]
    | apply maintains_try; [|intros ?] ].

Lemma maintains_start_recording frame env :
  maintains P (start_recording cam frame env).
Proof. unfold start_recording. maintained. Qed.

Lemma maintains_send_motion_alert frame env :
  maintains P (send_motion_alert cam frame env).
Proof. unfold send_motion_alert. maintained. Qed.

Lemma maintains_log_recging p env : maintains P (log_recging cam p env).
Proof. unfold log_recging. maintained. Qed.

Lemma maintains_stop_recording env : maintains P (stop_recording cam env).
Proof.
  unfold stop_recording. maintained.
Qed.

End LastMotion.

Section LastMotionUpdate.

Import SurveillanceSystem Effects.

Variables (s : t) (cam : string) (frame : Frame) (env : Env).
Variables (st : CameraState) (r : VideoRecorder.t).
Hypothesis Hst : camera_states s !! cam = Some st.
Hypothesis Hr : recorders s !! cam = Some r.

Ltac maintained' :=
  repeat first
    [ apply maintains_ret | apply maintains_raise | apply maintains_get
    | apply maintains_item | apply maintains_camera_config
    | apply maintains_camera_state | apply maintains_on_recorder
    | apply maintains_start_recording | apply maintains_stop_recording
    | apply maintains_send_motion_alert
    | apply maintains_update_state; reflexivity
    | apply maintains_if
    | apply maintains_option; [intros ?|]
    | apply maintains_bind; [|intros ?] ].

(** A frame with confirmed motion refreshes [last_motion], also when the
    call goes on to raise. *)
Lemma update_motion_refreshes :
  last_motion_is cam (Some (now env))
    (snd (update_camera_state cam true frame env s)).
Proof.
  unfold update_camera_state.
  erewrite bind_ok by run1. erewrite bind_ok by run1.
  erewrite bind_ok by run1.
  match goal with
  | |- last_motion_is _ _ (snd (?m ?s1)) =>
      assert (Hm : maintains (last_motion_is cam (Some (now env))) m);
        [|apply Hm]
  end.
  - maintained'.
  - exists (seen_motion (now env) st). project.
    rewrite lookup_alter_eq, Hst. split; reflexivity.
Qed.

(** A frame without confirmed motion leaves [last_motion] as it was. *)
Lemma update_quiet_keeps_last_motion :
  last_motion_is cam (last_motion st)
    (snd (update_camera_state cam false frame env s)).
Proof.
  unfold update_camera_state.
  erewrite bind_ok by run1. erewrite bind_ok by run1.
  match goal with
  | |- last_motion_is _ _ (snd (?m ?s1)) =>
      assert (Hm : maintains (last_motion_is cam (last_motion st)) m);
        [|apply Hm; exists st; auto]
  end.
  maintained'.
Qed.

End LastMotionUpdate.

(** ** The state machine of the supervisor *)

Section StateMachine.

Import SurveillanceSystem Effects.

Local Arguments String.append : simpl never.

Lemma process_outcome_run cam q frame env s d :
  motion_detectors s !! cam = Some d ->
  process_outcome cam q frame env s
  = update_camera_state cam (snd (MotionDetector.track d q)) frame env
      (set_motion_detectors
         (<[cam := fst (MotionDetector.track d q)]> (motion_detectors s)) s).
Proof.
  intros Hd. unfold process_outcome.
  erewrite bind_ok by (eapply on_detector_run; exact Hd). reflexivity.
Qed.

(** The loop body with the real contour search is the loop body driven
    by the outcome of that search, on the frame as [detect] leaves it
    and on the detector that has absorbed the frame. *)
Lemma process_frame_as_outcome cv cam frame env s d :
  motion_detectors s !! cam = Some d ->
  process_frame cv cam frame env s
  = process_outcome cam (MotionDetector.outcome cv d frame)
      (snd (fst (MotionDetector.detect cv d frame))) env
      (set_motion_detectors
         (<[cam := MotionDetector.absorb d frame]> (motion_detectors s)) s).
Proof.
  intros Hd. unfold process_frame, process_outcome.
  erewrite bind_ok by (eapply on_detector_run; exact Hd).
  erewrite (bind_ok (on_detector cam _))
    by (eapply on_detector_run; project; apply lookup_insert_eq).
  pose proof (detect_track cv d frame) as Ht.
  destruct (MotionDetector.detect cv d frame) as [[d2 frame2] confirmed].
  cbn [fst snd] in *. rewrite <- Ht. cbn [fst snd]. project.
  rewrite insert_insert_eq. reflexivity.
Qed.



End StateMachine.

(** ** Scenario B: confirmation, grace window, cooldown and minimum duration *)

Lemma outcomes_length cv frames : forall d,
  length (MotionDetector.outcomes cv d frames) = length frames.
Proof.
  induction frames as [|f rest IH]; intros d; [reflexivity|].
  cbn [MotionDetector.outcomes length]. rewrite IH. reflexivity.
Qed.

Section ScenarioB.

Import SurveillanceSystem Effects.

Local Arguments String.append : simpl never.

Variables (cv : Vision) (s0 : t) (cam : string) (cfg : CameraConfig).
Variables (r0 : VideoRecorder.t) (mrt cd : Z) (camera_name : string).
Variable snap : bool.
Hypothesis Hc : cameras (config s0) !! cam = Some cfg.
Hypothesis Hk : min_motion_frames cfg = Some 10.
Hypothesis Hmrt : min_recording_time cfg = Some mrt.
Hypothesis Hcd : cooldown_time cfg = Some cd.
Hypothesis Hn : name cfg = Some camera_name.
Hypothesis Hsnap : send_snapshot (config s0) = Some snap.
Hypothesis Hr0 : VideoRecorder.is_recording r0 = false.

Lemma process_frames_app l1 l2 s :
  process_frames cv cam (l1 ++ l2) s
  = bind (process_frames cv cam l1) (fun _ => process_frames cv cam l2) s.
Proof.
  revert s. induction l1 as [|[f e] l1 IH]; intros s.
  - reflexivity.
  - cbn [app process_frames]. rewrite bind_assoc.
    destruct (process_frame cv cam f e s) as [[[]|x] s1] eqn:E.
    + rewrite !(bind_ok _ _ _ _ _ E). apply IH.
    + rewrite !(bind_raise _ _ _ _ _ E). reflexivity.
Qed.

Lemma process_frames_cons f e l s s1 :
  process_frame cv cam f e s = (Ok tt, s1) ->
  process_frames cv cam ((f, e) :: l) s = process_frames cv cam l s1.
Proof.
  intros H. cbn [process_frames]. rewrite (bind_ok _ _ _ _ _ H). reflexivity.
Qed.

Lemma outcomes_app l1 : forall d l2,
  MotionDetector.outcomes cv d (l1 ++ l2)
  = MotionDetector.outcomes cv d l1
    ++ MotionDetector.outcomes cv (MotionDetector.detect_all cv d l1) l2.
Proof.
  induction l1 as [|f l1 IH]; intros d l2; [reflexivity|].
  cbn [app MotionDetector.outcomes MotionDetector.detect_all].
  rewrite IH. reflexivity.
Qed.

Lemma detect_all_app l1 : forall d l2,
  MotionDetector.detect_all cv d (l1 ++ l2)
  = MotionDetector.detect_all cv (MotionDetector.detect_all cv d l1) l2.
Proof.
  induction l1 as [|f l1 IH]; intros d l2; [reflexivity|].
  cbn [app MotionDetector.detect_all]. apply IH.
Qed.

(** The detector's part of a loop turn: [detect] runs on the frame, the
    supervisor is told its answer and sees the frame with the overlays. *)
Lemma detector_turn s f e d st r :
  camera_at s cam d st r ->
  let d1 := fst (fst (MotionDetector.detect cv d f)) in
  let s1 := set_motion_detectors (<[cam := d1]> (motion_detectors s)) s in
  process_frame cv cam f e s
  = update_camera_state cam (snd (MotionDetector.detect cv d f)) (drawn cv d f) e s1
  /\ camera_at s1 cam d1 st r
  /\ config s1 = config s
  /\ (d1, snd (MotionDetector.detect cv d f))
     = MotionDetector.track (MotionDetector.absorb d f)
         (MotionDetector.outcome cv d f).
Proof.
  intros (Hd & Hst & Hr) d1 s1.
  split; [|split; [|split]].
  - unfold process_frame.
    erewrite bind_ok by (eapply on_detector_run; exact Hd).
    subst s1 d1. unfold drawn.
    destruct (MotionDetector.detect cv d f) as [[d2 f2] c]. reflexivity.
  - subst s1. unfold camera_at. project. rewrite lookup_insert_eq. auto.
  - reflexivity.
  - apply detect_track.
Qed.

Lemma steps_keep_detector s1 s' d st r st' r' :
  camera_at s1 cam d st r -> steps_to s1 s' cam st' r' ->
  camera_at s' cam d st' r' /\ config s' = config s1.
Proof.
  intros (Hd & _ & _) (Hcfg & Hdet & Hst' & Hr'). unfold camera_at.
  rewrite Hdet. auto.
Qed.

Lemma same_detector s d d' st r :
  motion_detectors s !! cam = Some d -> camera_at s cam d' st r -> d' = d.
Proof. intros Hd (Hd' & _). congruence. Qed.

(** One more qualifying frame while the supervisor is still counting. *)
Lemma counting_turn j f e s d :
  counting s0 cam r0 j s -> 0 <= j < 18 ->
  motion_detectors s !! cam = Some d ->
  MotionDetector.outcome cv d f = true ->
  exists s', process_frame cv cam f e s = (Ok tt, s')
             /\ counting s0 cam r0 (j + 1) s'
             /\ motion_detectors s' !! cam
                = Some (fst (fst (MotionDetector.detect cv d f))).
Proof.
  intros (Hcfg & d' & st & Hat & Hm & Hg & Hmin & Hrec & Hcount) Hj Hd Hout.
  pose proof (same_detector s d d' st r0 Hd Hat). subst d'.
  destruct (detector_turn s f e d st r0 Hat) as (Hrun & Hat1 & Hcfg1 & Htr).
  set (d1 := fst (fst (MotionDetector.detect cv d f))) in *.
  set (s1 := set_motion_detectors _ s) in *.
  rewrite Hout in Htr.
  assert (Hconf : snd (MotionDetector.detect cv d f) = (10 <=? j + 1)).
  { apply (f_equal snd) in Htr. cbn [snd] in Htr. rewrite Htr.
    unfold MotionDetector.track. cbn. rewrite Hmin, Hm. reflexivity. }
  assert (Hd1 : MotionDetector.motion_frames d1 = j + 1
                /\ MotionDetector.no_motion_frames d1 = 0
                /\ MotionDetector.min_motion_frames d1 = 10).
  { apply (f_equal fst) in Htr. cbn [fst] in Htr. rewrite Htr.
    unfold MotionDetector.track. cbn. rewrite Hm. auto. }
  destruct Hat1 as (Hd' & Hst' & Hr').
  assert (Hc1 : cameras (config s1) !! cam = Some cfg)
    by (rewrite Hcfg1, Hcfg; exact Hc).
  rewrite Hrun, Hconf.
  destruct (Z.leb_spec 10 (j + 1)) as [Hge|Hlt].
  - destruct (update_idle_counting s1 cam (drawn cv d f) e st r0 cfg Hst' Hr' Hc1
                10 Hrec Hk) as (s' & Hrun' & Hsteps & _); [lia|].
    exists s'. split; [exact Hrun'|].
    destruct (steps_keep_detector s1 s' _ st r0 _ _
                (conj Hd' (conj Hst' Hr')) Hsteps) as [Hat' Hcfg'].
    split; [|apply Hat'].
    split; [congruence|].
    eexists _, _. split; [exact Hat'|].
    destruct Hd1 as (? & ? & ?). repeat split; try assumption.
    unfold seen_motion. project. lia.
  - exists s1. split.
    + apply (update_idle_quiet s1 cam (drawn cv d f) e st r0 Hst' Hr' Hrec).
    + split; [|exact Hd'].
      split; [congruence|]. exists d1, st.
      destruct Hd1 as (? & ? & ?). repeat split; try assumption. lia.
Qed.

Lemma counting_run l : forall j s d,
  counting s0 cam r0 j s -> 0 <= j -> j + Z.of_nat (length l) <= 18 ->
  motion_detectors s !! cam = Some d ->
  MotionDetector.outcomes cv d l.*1 = repeat true (length l) ->
  exists s', process_frames cv cam l s = (Ok tt, s')
             /\ counting s0 cam r0 (j + Z.of_nat (length l)) s'
             /\ motion_detectors s' !! cam
                = Some (MotionDetector.detect_all cv d l.*1).
Proof.
  induction l as [|[f e] l IH]; intros j s d Hinv Hj Hlen Hd Hout.
  - exists s. cbn [length]. rewrite Z.add_0_r.
    split; [reflexivity|]. split; [exact Hinv | exact Hd].
  - cbn [length fmap list_fmap fst MotionDetector.outcomes repeat] in *.
    injection Hout as Hout1 Hout.
    destruct (counting_turn j f e s d Hinv) as (s1 & Hrun1 & Hinv1 & Hd1);
      [lia | exact Hd | exact Hout1 |].
    destruct (IH (j + 1) s1 (fst (fst (MotionDetector.detect cv d f))) Hinv1)
      as (s' & Hrun' & Hinv' & Hd');
      [lia | lia | exact Hd1 | exact Hout |].
    exists s'. split; [|split].
    + rewrite (process_frames_cons _ _ _ _ _ Hrun1). exact Hrun'.
    + replace (j + Z.of_nat (S (length l)))
        with (j + 1 + Z.of_nat (length l)) by lia.
      exact Hinv'.
    + exact Hd'.
Qed.

Lemma sink_start_active f stamp opens clock :
  VideoRecorder.is_recording
    (snd (VideoRecorder.start_recording f stamp opens clock r0)) = true.
Proof.
  unfold VideoRecorder.start_recording. rewrite Hr0.
  destruct opens; cbn [negb snd]; [|reflexivity].
  cbn [VideoRecorder.set_start_time VideoRecorder.is_recording].
  rewrite add_frame_is_recording. reflexivity.
Qed.

(** After a successful open the consumer thread runs and the recorder
    has its writer. *)
Lemma sink_start_live f stamp clock :
  let r := snd (VideoRecorder.start_recording f stamp true clock r0) in
  VideoRecorder.recording_thread r = Some VideoRecorder.Running
  /\ is_Some (VideoRecorder.video_writer r).
Proof.
  unfold VideoRecorder.start_recording. rewrite Hr0. cbn [negb snd].
  unfold VideoRecorder.add_frame.
  destruct (_ && _); cbn; split; eauto.
Qed.

Lemma add_frame_keeps_live f r :
  VideoRecorder.recording_thread r = Some VideoRecorder.Running
  /\ is_Some (VideoRecorder.video_writer r) ->
  VideoRecorder.recording_thread (snd (VideoRecorder.add_frame f r))
  = Some VideoRecorder.Running
  /\ is_Some (VideoRecorder.video_writer (snd (VideoRecorder.add_frame f r))).
Proof.
  intros H. unfold VideoRecorder.add_frame. destruct (_ && _); exact H.
Qed.

(** The 19th qualifying frame: the supervisor's own count reaches 10 and
    the recording is opened with the frame as [detect] left it. *)
Lemma counting_start f e s d :
  counting s0 cam r0 18 s ->
  motion_detectors s !! cam = Some d ->
  MotionDetector.outcome cv d f = true ->
  exists s', process_frame cv cam f e s = (Ok tt, s')
             /\ recording_since s0 cam (encoder_opens e) (now e) (now e) 0 s'
             /\ motion_detectors s' !! cam
                = Some (fst (fst (MotionDetector.detect cv d f)))
             /\ recorders s' !! cam
                = Some (snd (VideoRecorder.start_recording (drawn cv d f)
                               (timestamp e) (encoder_opens e) (now e) r0)).
Proof.
  intros (Hcfg & d' & st & Hat & Hm & Hg & Hmin & Hrec & Hcount) Hd Hout.
  pose proof (same_detector s d d' st r0 Hd Hat). subst d'.
  destruct (detector_turn s f e d st r0 Hat) as (Hrun & Hat1 & Hcfg1 & Htr).
  set (d1 := fst (fst (MotionDetector.detect cv d f))) in *.
  set (s1 := set_motion_detectors _ s) in *.
  rewrite Hout in Htr.
  assert (Hconf : snd (MotionDetector.detect cv d f) = true).
  { apply (f_equal snd) in Htr. cbn [snd] in Htr. rewrite Htr.
    unfold MotionDetector.track. cbn. rewrite Hmin, Hm. reflexivity. }
  assert (Hd1 : MotionDetector.motion_frames d1 = 19
                /\ MotionDetector.no_motion_frames d1 = 0
                /\ MotionDetector.min_motion_frames d1 = 10).
  { apply (f_equal fst) in Htr. cbn [fst] in Htr. rewrite Htr.
    unfold MotionDetector.track. cbn. rewrite Hm. auto. }
  destruct Hat1 as (Hd' & Hst' & Hr').
  assert (Hc1 : cameras (config s1) !! cam = Some cfg)
    by (rewrite Hcfg1, Hcfg; exact Hc).
  assert (Hsnap1 : send_snapshot (config s1) = Some snap)
    by (rewrite Hcfg1, Hcfg; exact Hsnap).
  rewrite Hrun, Hconf.
  destruct (update_idle_starts s1 cam (drawn cv d f) e st r0 cfg Hst' Hr' Hc1 10
              camera_name snap Hrec Hk) as (s' & Hrun' & Hsteps & _);
    [lia | exact Hn | exact Hsnap1 |].
  exists s'. split; [exact Hrun'|].
  destruct (steps_keep_detector s1 s' _ st r0 _ _
              (conj Hd' (conj Hst' Hr')) Hsteps) as [Hat' Hcfg'].
  split; [|split; [apply Hat' | apply Hat']].
  split; [congruence|].
  eexists _, _, _. split; [exact Hat'|].
  destruct Hd1 as (E1 & E2 & E3).
  split; [exact E3|]. split; [exact E2|]. split; [intros _; lia|].
  split; [reflexivity|]. split; [reflexivity|]. split; [reflexivity|].
  split; [apply sink_start_active|].
  intros Hopen. rewrite Hopen. apply sink_start_live.
Qed.

(** A non-qualifying frame inside the grace window: the detector still
    confirms, the frame is recorded and [last_motion] moves. *)
Lemma grace_turn opened t0 lm gap f e s d :
  recording_since s0 cam opened t0 lm gap s -> 0 <= gap < 5 ->
  motion_detectors s !! cam = Some d ->
  MotionDetector.outcome cv d f = false ->
  exists s', process_frame cv cam f e s = (Ok tt, s')
             /\ recording_since s0 cam opened t0 (now e) (gap + 1) s'
             /\ motion_detectors s' !! cam
                = Some (fst (fst (MotionDetector.detect cv d f))).
Proof.
  intros (Hcfg & d' & st & r & Hat & Hmin & Hg & Hm & Hrec & Hms & Hlm & Hact
          & Hlive) Hgap Hd Hout.
  pose proof (same_detector s d d' st r Hd Hat). subst d'.
  destruct (detector_turn s f e d st r Hat) as (Hrun & Hat1 & Hcfg1 & Htr).
  set (d1 := fst (fst (MotionDetector.detect cv d f))) in *.
  set (s1 := set_motion_detectors _ s) in *.
  rewrite Hout in Htr.
  assert (Htrack : MotionDetector.track (MotionDetector.absorb d f) false
                   = (MotionDetector.set_counters (MotionDetector.absorb d f)
                        (MotionDetector.motion_frames d) (gap + 1), true)).
  { unfold MotionDetector.track. cbn [MotionDetector.absorb
      MotionDetector.no_motion_frames MotionDetector.motion_frames].
    rewrite Hg.
    destruct (Z.ltb_spec 5 (gap + 1)); [lia|]. cbn. rewrite Hmin.
    f_equal. apply Z.leb_le. lia. }
  rewrite Htrack in Htr. injection Htr as Ed1 Econf.
  destruct Hat1 as (Hd' & Hst' & Hr').
  rewrite Hrun, Econf.
  destruct (update_recording_motion s1 cam (drawn cv d f) e st r Hst' Hr' Hrec)
    as (s' & Hrun' & Hsteps & _).
  exists s'. split; [exact Hrun'|].
  destruct (steps_keep_detector s1 s' _ st r _ _
              (conj Hd' (conj Hst' Hr')) Hsteps) as [Hat' Hcfg'].
  split; [|apply Hat'].
  split; [congruence|].
  eexists _, _, _. split; [exact Hat'|].
  rewrite Ed1. cbn. rewrite add_frame_is_recording.
  repeat split; try assumption; try lia.
  all: match goal with
       | Ho : _ = true |- _ => apply (add_frame_keeps_live _ _ (Hlive Ho))
       end.
Qed.

(** A run of non-qualifying frames that stays inside the grace window:
    [last_motion] ends at the clock reading of the last of them. *)
Lemma grace_run opened l : forall lm gap s d,
  forall t0,
  recording_since s0 cam opened t0 lm gap s ->
  0 <= gap -> gap + Z.of_nat (length l) <= 5 ->
  motion_detectors s !! cam = Some d ->
  MotionDetector.outcomes cv d l.*1 = repeat false (length l) ->
  exists s', process_frames cv cam l s = (Ok tt, s')
             /\ recording_since s0 cam opened t0
                  (fold_left (fun _ u => now (snd u)) l lm)
                  (gap + Z.of_nat (length l)) s'
             /\ motion_detectors s' !! cam
                = Some (MotionDetector.detect_all cv d l.*1).
Proof.
  induction l as [|[f e] l IH]; intros lm gap s d t0 Hinv Hgap Hlen Hd Hout.
  - exists s. cbn [length fold_left]. rewrite Z.add_0_r.
    split; [reflexivity|]. split; [exact Hinv | exact Hd].
  - cbn [length fmap list_fmap fst MotionDetector.outcomes repeat] in *.
    injection Hout as Hout1 Hout.
    destruct (grace_turn opened t0 lm gap f e s d Hinv)
      as (s1 & Hrun1 & Hinv1 & Hd1); [lia | exact Hd | exact Hout1 |].
    destruct (IH (now e) (gap + 1) s1 (fst (fst (MotionDetector.detect cv d f))) t0 Hinv1)
      as (s' & Hrun' & Hinv' & Hd');
      [lia | lia | exact Hd1 | exact Hout |].
    exists s'. split; [|split].
    + rewrite (process_frames_cons _ _ _ _ _ Hrun1). exact Hrun'.
    + replace (gap + Z.of_nat (S (length l)))
        with (gap + 1 + Z.of_nat (length l)) by lia.
      exact Hinv'.
    + exact Hd'.
Qed.

Lemma quiet_track d gap :
  MotionDetector.min_motion_frames d = 10 ->
  MotionDetector.no_motion_frames d = gap -> 5 <= gap ->
  MotionDetector.track d false
  = (MotionDetector.set_counters d 0 (gap + 1), false).
Proof.
  intros Hmin Hg Hgap. unfold MotionDetector.track. rewrite Hg.
  destruct (Z.ltb_spec 5 (gap + 1)); [|lia]. cbn. rewrite Hmin. reflexivity.
Qed.

(** A non-qualifying frame after the grace window, while the cooldown or
    the minimum duration is still running: the recording stays open. *)
Lemma quiet_turn opened t0 lm gap f e s d :
  recording_since s0 cam opened t0 lm gap s -> 5 <= gap -> lm <> 0 ->
  ~ (cd < now e - lm /\ mrt <= now e - t0) ->
  motion_detectors s !! cam = Some d ->
  MotionDetector.outcome cv d f = false ->
  exists s', process_frame cv cam f e s = (Ok tt, s')
             /\ recording_since s0 cam opened t0 lm (gap + 1) s'
             /\ motion_detectors s' !! cam
                = Some (fst (fst (MotionDetector.detect cv d f))).
Proof.
  intros (Hcfg & d' & st & r & Hat & Hmin & Hg & Hm & Hrec & Hms & Hlm & Hact
          & Hlive) Hgap Hnz Hnot Hd Hout.
  pose proof (same_detector s d d' st r Hd Hat). subst d'.
  destruct (detector_turn s f e d st r Hat) as (Hrun & Hat1 & Hcfg1 & Htr).
  set (d1 := fst (fst (MotionDetector.detect cv d f))) in *.
  set (s1 := set_motion_detectors _ s) in *.
  rewrite Hout in Htr.
  rewrite (quiet_track (MotionDetector.absorb d f) gap Hmin Hg Hgap) in Htr.
  injection Htr as Ed1 Econf.
  destruct Hat1 as (Hd' & Hst' & Hr').
  assert (Hc1 : cameras (config s1) !! cam = Some cfg)
    by (rewrite Hcfg1, Hcfg; exact Hc).
  rewrite Hrun, Econf.
  destruct (update_recording_keeps s1 cam (drawn cv d f) e st r cfg Hst' Hr' Hc1
              mrt cd lm t0 Hrec Hlm Hnz Hms Hmrt Hcd Hnot)
    as (s' & Hrun' & Hsteps & _).
  exists s'. split; [exact Hrun'|].
  destruct (steps_keep_detector s1 s' _ st r _ _
              (conj Hd' (conj Hst' Hr')) Hsteps) as [Hat' Hcfg'].
  split; [|apply Hat'].
  split; [congruence|].
  eexists _, _, _. split; [exact Hat'|].
  rewrite Ed1. cbn. rewrite add_frame_is_recording.
  repeat split; try assumption; try lia.
  all: match goal with
       | Ho : _ = true |- _ => apply (add_frame_keeps_live _ _ (Hlive Ho))
       end.
Qed.

Lemma quiet_run opened t0 lm l : forall gap s d,
  recording_since s0 cam opened t0 lm gap s -> 5 <= gap -> lm <> 0 ->
  Forall (fun u => ~ (cd < now (snd u) - lm /\ mrt <= now (snd u) - t0)) l ->
  motion_detectors s !! cam = Some d ->
  MotionDetector.outcomes cv d l.*1 = repeat false (length l) ->
  exists s', process_frames cv cam l s = (Ok tt, s')
             /\ recording_since s0 cam opened t0 lm
                  (gap + Z.of_nat (length l)) s'
             /\ motion_detectors s' !! cam
                = Some (MotionDetector.detect_all cv d l.*1).
Proof.
  induction l as [|[f e] l IH]; intros gap s d Hinv Hgap Hnz Hall Hd Hout.
  - exists s. cbn [length]. rewrite Z.add_0_r.
    split; [reflexivity|]. split; [exact Hinv | exact Hd].
  - cbn [length fmap list_fmap fst MotionDetector.outcomes repeat] in *.
    injection Hout as Hout1 Hout.
    apply Forall_cons in Hall. destruct Hall as [Hu Hall].
    destruct (quiet_turn opened t0 lm gap f e s d Hinv Hgap Hnz Hu Hd Hout1)
      as (s1 & Hrun1 & Hinv1 & Hd1).
    destruct (IH (gap + 1) s1 (fst (fst (MotionDetector.detect cv d f))) Hinv1)
      as (s' & Hrun' & Hinv' & Hd');
      [lia | exact Hnz | exact Hall | exact Hd1 | exact Hout |].
    exists s'. split; [|split].
    + rewrite (process_frames_cons _ _ _ _ _ Hrun1). exact Hrun'.
    + replace (gap + Z.of_nat (S (length l)))
        with (gap + 1 + Z.of_nat (length l)) by lia.
      exact Hinv'.
    + exact Hd'.
Qed.

(** The first non-qualifying frame at which the cooldown has elapsed and
    the minimum duration is reached closes the recording. *)
Lemma quiet_stop opened t0 lm gap f e s d :
  recording_since s0 cam opened t0 lm gap s -> 5 <= gap -> lm <> 0 ->
  cd < now e - lm -> mrt <= now e - t0 ->
  motion_detectors s !! cam = Some d ->
  MotionDetector.outcome cv d f = false ->
  exists s', process_frame cv cam f e s = (Ok tt, s')
             /\ idle_again s0 cam s'.
Proof.
  intros (Hcfg & d' & st & r & Hat & Hmin & Hg & Hm & Hrec & Hms & Hlm & Hact
          & Hlive) Hgap Hnz Hcool Hlong Hd Hout.
  pose proof (same_detector s d d' st r Hd Hat). subst d'.
  destruct (detector_turn s f e d st r Hat) as (Hrun & Hat1 & Hcfg1 & Htr).
  set (d1 := fst (fst (MotionDetector.detect cv d f))) in *.
  set (s1 := set_motion_detectors _ s) in *.
  rewrite Hout in Htr.
  rewrite (quiet_track (MotionDetector.absorb d f) gap Hmin Hg Hgap) in Htr.
  injection Htr as Ed1 Econf.
  destruct Hat1 as (Hd' & Hst' & Hr').
  assert (Hc1 : cameras (config s1) !! cam = Some cfg)
    by (rewrite Hcfg1, Hcfg; exact Hc).
  rewrite Hrun, Econf.
  destruct (update_recording_stops s1 cam (drawn cv d f) e st r cfg Hst' Hr' Hc1
              mrt cd lm t0 camera_name Hrec Hlm Hnz Hms Hmrt Hcd Hn
              Hcool Hlong)
    as (s' & Hrun' & Hsteps & _).
  exists s'. split; [exact Hrun'|].
  destruct (steps_keep_detector s1 s' _ st r _ _
              (conj Hd' (conj Hst' Hr')) Hsteps) as [Hat' Hcfg'].
  split; [congruence|].
  eexists _, _, _. split; [exact Hat'|].
  repeat split. apply sink_stop_active, Hact.
Qed.

Lemma observe_counting j s :
  counting s0 cam r0 j s -> observe cam s = Some (false, false).
Proof.
  intros (_ & d & st & (_ & Hst & Hr) & _ & _ & _ & Hrec & _).
  unfold observe. rewrite Hst, Hr, Hrec, Hr0. reflexivity.
Qed.

Lemma observe_recording opened t0 lm gap s :
  recording_since s0 cam opened t0 lm gap s ->
  observe cam s = Some (true, true).
Proof.
  intros (_ & d & st & r & (_ & Hst & Hr) & _ & _ & _ & Hrec & _ & _ & Hact & _).
  unfold observe. rewrite Hst, Hr, Hrec, Hact. reflexivity.
Qed.

Lemma observe_idle_again s :
  idle_again s0 cam s -> observe cam s = Some (false, false).
Proof.
  intros (_ & d & st & r & (_ & Hst & Hr) & Hrec & _ & Hact).
  unfold observe. rewrite Hst, Hr, Hrec, Hact. reflexivity.
Qed.

(** With an encoder that opened, the recorder of a recording camera has
    a running consumer thread and its writer. *)
Lemma recording_live t0 lm gap s :
  recording_since s0 cam true t0 lm gap s ->
  exists r, recorders s !! cam = Some r
            /\ VideoRecorder.is_recording r = true
            /\ VideoRecorder.recording_thread r = Some VideoRecorder.Running
            /\ is_Some (VideoRecorder.video_writer r).
Proof.
  intros (_ & d & st & r & (_ & _ & Hr) & _ & _ & _ & _ & _ & _ & Hact & Hlive).
  exists r. destruct (Hlive eq_refl) as [H1 H2]. auto.
Qed.

Lemma fold_last_clock (l : list (Frame * Env)) f e lm :
  fold_left (fun _ u => now (snd u)) (l ++ [(f, e)]) lm = now e.
Proof. rewrite fold_left_app. reflexivity. Qed.

Lemma repeat_app_inv {A} (x : A) n (l1 l2 : list A) :
  l1 ++ l2 = repeat x n ->
  l1 = repeat x (length l1) /\ l2 = repeat x (length l2).
Proof.
  revert n. induction l1 as [|a l1 IH]; intros n H.
  - cbn in *. split; [reflexivity|]. subst l2. rewrite repeat_length.
    reflexivity.
  - destruct n as [|n]; [discriminate|]. cbn in H. injection H as -> H.
    destruct (IH n H) as [H1 H2]. split; [|exact H2].
    cbn. f_equal. exact H1.
Qed.

(** C1 (as the code has it). From the idle state with zero counters and
    [min_motion_frames = 10], frames are fed to the capture loop, first
    19 in which the contour search finds a qualifying contour, then only
    frames in which it finds none.  No recording is open after any
    number of frames up to 18; the 19th opens it (10 frames confirm
    motion inside the detector, and the supervisor then counts 10
    confirmed frames itself): the recorder is started on that frame as
    [detect] has drawn on it, and where the encoder opens, its consumer
    thread runs.  The first five frames without a contour still count as
    confirmed motion, and the recording stays open on every later frame
    at which the cooldown since the fifth has not elapsed or the minimum
    duration since the opening is not reached; the first frame at which
    both hold closes it. *)
Theorem recording_opens_on_19th_frame_and_closes_on_both_conditions
    (d0 : MotionDetector.t) (st0 : CameraState)
    (opening : list (Frame * Env)) (f19 : Frame) (e19 : Env)
    (grace : list (Frame * Env)) (f5 : Frame) (e5 : Env)
    (quiet : list (Frame * Env)) (fz : Frame) (ez : Env) :
  camera_at s0 cam d0 st0 r0 ->
  MotionDetector.motion_frames d0 = 0 ->
  MotionDetector.no_motion_frames d0 = 0 ->
  MotionDetector.min_motion_frames d0 = 10 ->
  recording st0 = false ->
  motion_count st0 = 0 ->
  length opening = 18%nat ->
  length grace = 4%nat ->
  now e5 <> 0 ->
  Forall (fun u => ~ (cd < now (snd u) - now e5
                      /\ mrt <= now (snd u) - now e19)) quiet ->
  cd < now ez - now e5 ->
  mrt <= now ez - now e19 ->
  let confirm := opening ++ [(f19, e19)] in
  let lapse := (grace ++ [(f5, e5)]) ++ quiet in
  MotionDetector.outcomes cv d0 (confirm ++ lapse ++ [(fz, ez)]).*1
  = repeat true 19 ++ repeat false (length lapse + 1) ->
  (forall n, (n <= 18)%nat ->
     exists s, process_frames cv cam (take n opening) s0 = (Ok tt, s)
               /\ observe cam s = Some (false, false))
  /\ (exists s, process_frames cv cam confirm s0 = (Ok tt, s)
                /\ observe cam s = Some (true, true)
                /\ recorders s !! cam
                   = Some (snd (VideoRecorder.start_recording
                                  (drawn cv (MotionDetector.detect_all cv d0
                                            opening.*1) f19)
                                  (timestamp e19) (encoder_opens e19)
                                  (now e19) r0))
                /\ recording_since s0 cam (encoder_opens e19)
                     (now e19) (now e19) 0 s)
  /\ (exists s, process_frames cv cam (confirm ++ lapse) s0 = (Ok tt, s)
                /\ observe cam s = Some (true, true)
                /\ (encoder_opens e19 = true ->
                    exists r, recorders s !! cam = Some r
                              /\ VideoRecorder.is_recording r = true
                              /\ VideoRecorder.recording_thread r
                                 = Some VideoRecorder.Running
                              /\ is_Some (VideoRecorder.video_writer r)))
  /\ (exists s, process_frames cv cam (confirm ++ lapse ++ [(fz, ez)]) s0
                = (Ok tt, s)
                /\ observe cam s = Some (false, false)
                /\ idle_again s0 cam s).
Proof.
  intros Hat Hm0 Hg0 Hmin0 Hrec0 Hcount0 Hlen Hlen' Hnz Hall Hcool Hlong
    confirm lapse Hout.
  assert (Hd0 : motion_detectors s0 !! cam = Some d0) by apply Hat.
  (* the outcomes, phase by phase *)
  rewrite fmap_app, outcomes_app in Hout.
  assert (Hlc : length (MotionDetector.outcomes cv d0 confirm.*1) = 19%nat).
  { rewrite outcomes_length, length_fmap. subst confirm.
    rewrite length_app, Hlen. reflexivity. }
  apply app_inj_1 in Hout as [Hoc Hol];
    [|rewrite Hlc, repeat_length; reflexivity].
  set (d19 := MotionDetector.detect_all cv d0 confirm.*1) in *.
  subst confirm. rewrite fmap_app, outcomes_app in Hoc.
  change (repeat true 19) with (repeat true 18 ++ [true]) in Hoc.
  apply app_inj_1 in Hoc as [Ho18 Ho19];
    [|rewrite outcomes_length, length_fmap, Hlen; reflexivity].
  set (d18 := MotionDetector.detect_all cv d0 opening.*1) in *.
  cbn [fmap list_fmap fst MotionDetector.outcomes] in Ho19.
  injection Ho19 as Ho19.
  assert (Ed19 : d19 = fst (fst (MotionDetector.detect cv d18 f19))).
  { subst d19 d18. rewrite fmap_app, detect_all_app. reflexivity. }
  rewrite fmap_app, outcomes_app in Hol.
  set (dq := MotionDetector.detect_all cv d19 lapse.*1) in *.
  assert (Hll : length (MotionDetector.outcomes cv d19 lapse.*1)
                = length lapse)
    by (rewrite outcomes_length, length_fmap; reflexivity).
  replace (length lapse + 1)%nat with (length lapse + 1)%nat in Hol
    by reflexivity.
  rewrite repeat_app in Hol.
  apply app_inj_1 in Hol as [Holapse Hoz];
    [|rewrite Hll, repeat_length; reflexivity].
  cbn [fmap list_fmap fst MotionDetector.outcomes repeat] in Hoz.
  injection Hoz as Hoz.
  subst lapse. rewrite fmap_app, outcomes_app in Holapse.
  set (d24 := MotionDetector.detect_all cv d19 (grace ++ [(f5, e5)]).*1) in *.
  rewrite length_app, repeat_app in Holapse.
  apply app_inj_1 in Holapse as [Hograce Hoquiet];
    [|rewrite outcomes_length, length_fmap, repeat_length; reflexivity].
  assert (Edq : dq = MotionDetector.detect_all cv d24 quiet.*1).
  { subst dq d24. rewrite fmap_app, detect_all_app. reflexivity. }
  (* the run, phase by phase *)
  assert (Hinit : counting s0 cam r0 0 s0).
  { split; [reflexivity|]. exists d0, st0.
    split; [exact Hat|]. rewrite Hcount0. repeat split; assumption. }
  assert (Hpre : forall n, (n <= 18)%nat ->
            exists s, process_frames cv cam (take n opening) s0 = (Ok tt, s)
                      /\ counting s0 cam r0 (Z.of_nat n) s
                      /\ motion_detectors s !! cam
                         = Some (MotionDetector.detect_all cv d0
                                   (take n opening).*1)).
  { intros n Hn6.
    destruct (counting_run (take n opening) 0 s0 d0 Hinit)
      as (s & Hrun & Hinv & Hd); [lia | rewrite length_take; lia | exact Hd0 | |].
    - rewrite <- (take_drop n opening), fmap_app, outcomes_app in Ho18.
      change (repeat true 18) with (repeat true 18) in Ho18.
      apply repeat_app_inv in Ho18 as [H1 _].
      rewrite outcomes_length, length_fmap in H1. exact H1.
    - exists s. split; [exact Hrun|].
      rewrite length_take, Hlen, Nat.min_l in Hinv by lia.
      split; [exact Hinv | exact Hd]. }
  destruct (Hpre 18%nat) as (s18 & Hrun18 & Hinv18 & Hd18); [lia|].
  rewrite firstn_all2 in Hrun18, Hd18 by lia. fold d18 in Hd18.
  destruct (counting_start f19 e19 s18 d18 Hinv18 Hd18 Ho19)
    as (s19 & Hrun19 & Hinv19 & Hd19 & Hr19).
  rewrite <- Ed19 in Hd19.
  assert (Hconfirm : process_frames cv cam (opening ++ [(f19, e19)]) s0
                     = (Ok tt, s19)).
  { rewrite process_frames_app, (bind_ok _ _ _ _ _ Hrun18).
    rewrite (process_frames_cons _ _ _ _ _ Hrun19). reflexivity. }
  destruct (grace_run (encoder_opens e19) (grace ++ [(f5, e5)]) (now e19) 0
              s19 d19 (now e19) Hinv19)
    as (s24 & Hrun24 & Hinv24 & Hd24);
    [lia | rewrite length_app, Hlen'; cbn; lia | exact Hd19 | exact Hograce |].
  fold d24 in Hd24.
  rewrite fold_last_clock, length_app, Hlen' in Hinv24.
  cbn [length Nat.add Z.of_nat] in Hinv24.
  destruct (quiet_run (encoder_opens e19) (now e19) (now e5) quiet _ s24 d24
              Hinv24)
    as (sq & Hrunq & Hinvq & Hdq);
    [cbn; lia | exact Hnz | exact Hall | exact Hd24 | exact Hoquiet |].
  rewrite <- Edq in Hdq.
  assert (Hlapse : process_frames cv cam ((grace ++ [(f5, e5)]) ++ quiet) s19
                   = (Ok tt, sq)).
  { rewrite process_frames_app, (bind_ok _ _ _ _ _ Hrun24). exact Hrunq. }
  destruct (quiet_stop (encoder_opens e19) (now e19) (now e5) _ fz ez sq dq
              Hinvq)
    as (sz & Hrunz & Hinvz);
    [cbn; lia | exact Hnz | exact Hcool | exact Hlong | exact Hdq | exact Hoz |].
  split; [|split; [|split]].
  - intros n Hn6. destruct (Hpre n Hn6) as (s & Hrun & Hinv & _).
    exists s. split; [exact Hrun | eapply observe_counting, Hinv].
  - exists s19. split; [exact Hconfirm|].
    split; [eapply observe_recording, Hinv19|].
    split; [exact Hr19 | exact Hinv19].
  - exists sq. split; [|split; [eapply observe_recording, Hinvq|]].
    + rewrite process_frames_app, (bind_ok _ _ _ _ _ Hconfirm). exact Hlapse.
    + intros Hopen. rewrite Hopen in Hinvq. eapply recording_live, Hinvq.
  - exists sz. split; [|split; [apply observe_idle_again, Hinvz | exact Hinvz]].
    rewrite process_frames_app, (bind_ok _ _ _ _ _ Hconfirm).
    rewrite process_frames_app, (bind_ok _ _ _ _ _ Hlapse).
    rewrite (process_frames_cons _ _ _ _ _ Hrunz). reflexivity.
Qed.

End ScenarioB.

Section ScenarioBInstances.

Import SurveillanceSystem Effects.

Lemma recording_opens_on_19th_frame_and_closes_on_both_conditions_witness :
  (exists s, process_frames (Examples.moving_for 19) "cam1"
               (Examples.frames_at (seqZ 1 19))
               Examples.patient_system = (Ok tt, s)
             /\ observe "cam1" s = Some (true, true))
  /\ (exists s, process_frames (Examples.moving_for 19) "cam1"
                  (Examples.frames_at (seqZ 1 19)
                   ++ Examples.frames_at (seqZ 20 11))
                  Examples.patient_system = (Ok tt, s)
                /\ observe "cam1" s = Some (true, true))
  /\ (exists s, process_frames (Examples.moving_for 19) "cam1"
                  (Examples.frames_at (seqZ 1 19)
                   ++ Examples.frames_at (seqZ 20 11)
                   ++ Examples.frames_at [31])
                  Examples.patient_system = (Ok tt, s)
                /\ observe "cam1" s = Some (false, false)).
Proof.
  assert (Hc : cameras (config Examples.patient_system) !! "cam1"
               = Some Examples.patient_camera) by (vm_compute; reflexivity).
  assert (Hat : camera_at Examples.patient_system "cam1"
                  (MotionDetector.init MotionDetector.whole 500 10)
                  {| recording := false; motion_start := None;
                     last_motion := None; motion_count := 0;
                     cooldown_until := None |}
                  Examples.idle_sink)
    by (repeat split; vm_compute; reflexivity).
  assert (Hquiet : Forall (fun u => ~ (3 < now (snd u) - now (Examples.env_at 24)
                                       /\ 12 <= now (snd u)
                                                - now (Examples.env_at 19)))
                     (Examples.frames_at (seqZ 25 6)))
    by (repeat constructor; cbn; lia).
  destruct (recording_opens_on_19th_frame_and_closes_on_both_conditions
              (Examples.moving_for 19)
              Examples.patient_system "cam1" Examples.patient_camera
              Examples.idle_sink 12 3 "Front door" true
              Hc eq_refl eq_refl eq_refl eq_refl eq_refl eq_refl
              _ _
              (Examples.frames_at (seqZ 1 18))
              Examples.blank_frame (Examples.env_at 19)
              (Examples.frames_at (seqZ 20 4))
              Examples.blank_frame (Examples.env_at 24)
              (Examples.frames_at (seqZ 25 6))
              Examples.blank_frame (Examples.env_at 31)
              Hat eq_refl eq_refl eq_refl eq_refl eq_refl eq_refl eq_refl)
    as (_ & (s19 & H19 & O19 & _) & (sq & Hq & Oq & _) & (sz & Hz & Oz & _));
    [cbn; lia | exact Hquiet | cbn; lia | cbn; lia | vm_compute; reflexivity |].
  split; [exists s19; split; [exact H19 | exact O19]|].
  split; [exists sq; split; [exact Hq | exact Oq]|].
  exists sz. split; [exact Hz | exact Oz].
Defined.

(** C1 as stated fails: on the idle camera of [Examples.idle_system]
    ([min_motion_frames = 10], zero counters), ten consecutive frames in
    which the contour search finds a qualifying contour make [detect]
    report confirmed motion on the tenth, but no recording is open
    afterwards: the state is not recording and the recorder is
    inactive. *)
Lemma ten_qualifying_frames_open_no_recording :
  observe "cam1" Examples.idle_system = Some (false, false)
  /\ MotionDetector.outcomes Examples.one_contour
       (MotionDetector.init MotionDetector.whole 500 10)
       (repeat Examples.blank_frame 10) = repeat true 10
  /\ snd (MotionDetector.detect Examples.one_contour
            (MotionDetector.detect_all Examples.one_contour
               (MotionDetector.init MotionDetector.whole 500 10)
               (repeat Examples.blank_frame 9))
            Examples.blank_frame) = true
  /\ fst (process_frames Examples.one_contour "cam1"
            (Examples.frames_at (seqZ 1 10)) Examples.idle_system) = Ok tt
  /\ observe "cam1"
       (snd (process_frames Examples.one_contour "cam1"
               (Examples.frames_at (seqZ 1 10)) Examples.idle_system))
     = Some (false, false).
Proof. repeat split; vm_compute; reflexivity. Qed.

End ScenarioBInstances.

(** ** The grace window of the detector, as the supervisor sees it *)

Section GraceWindow.

Import SurveillanceSystem Effects.

(** C10. Once the motion counter of the detector has reached
    [min_motion_frames] on a qualifying frame, [detect] still returns
    [True] on each of the next five consecutive frames in which the
    contour search finds no qualifying contour, and the capture loop,
    which passes that answer to [update_camera_state], refreshes
    [last_motion]; from the sixth such frame on [detect] returns
    [min_motion_frames <= 0], that is [False] for a positive threshold,
    and [last_motion] is left as it was. *)
Theorem grace_window_reported_as_motion
    (cv : Vision) (s : t) (cam : string) (frame : Frame) (env : Env)
    (d0 : MotionDetector.t) (st : CameraState) (r : VideoRecorder.t)
    (frames : list Frame) :
  MotionDetector.min_motion_frames d0 <= MotionDetector.motion_frames d0 ->
  MotionDetector.no_motion_frames d0 = 0 ->
  MotionDetector.outcomes cv d0 (frames ++ [frame])
  = repeat false (S (length frames)) ->
  motion_detectors s !! cam = Some (MotionDetector.detect_all cv d0 frames) ->
  camera_states s !! cam = Some st ->
  recorders s !! cam = Some r ->
  let n := length frames in
  let confirmed :=
    snd (MotionDetector.detect cv (MotionDetector.detect_all cv d0 frames)
           frame) in
  ((n < 5)%nat ->
   confirmed = true
   /\ last_motion_is cam (Some (now env))
        (snd (process_frame cv cam frame env s)))
  /\ ((5 <= n)%nat -> confirmed = (MotionDetector.min_motion_frames d0 <=? 0))
  /\ ((5 <= n)%nat -> 0 < MotionDetector.min_motion_frames d0 ->
      confirmed = false
      /\ last_motion_is cam (last_motion st)
           (snd (process_frame cv cam frame env s))).
Proof.
  intros Hreach Hgap Hout Hd Hst Hr n confirmed.
  rewrite detect_all_snoc, repeat_snoc in Hout.
  apply app_inj_tail in Hout as [Hquiet Hlast].
  set (d := MotionDetector.detect_all cv d0 frames) in *.
  assert (Hcnt : MotionDetector.counters (MotionDetector.absorb d frame)
                 = MotionDetector.counters
                     (MotionDetector.feed d0 (repeat false n))).
  { rewrite counters_absorb. subst d n. rewrite <- Hquiet.
    apply detect_all_counters. reflexivity. }
  assert (Hconf : confirmed
                  = (MotionDetector.min_motion_frames d0
                     <=? (if (S n <=? 5)%nat
                          then MotionDetector.motion_frames d0 else 0))).
  { subst confirmed.
    pose proof (detect_track cv d frame) as Ht. rewrite Hlast in Ht.
    apply (f_equal snd) in Ht. cbn [snd] in Ht. rewrite Ht.
    rewrite (proj2 (track_counters _ _ false Hcnt)).
    rewrite track_confirmed, feed_min_motion_frames, <- feed_snoc,
      <- repeat_snoc, feed_gap_motion by exact Hgap.
    reflexivity. }
  destruct (detector_turn cv cam s frame env d st r
              (conj Hd (conj Hst Hr))) as (Hrun & (_ & Hst1 & Hr1) & _).
  rewrite Hrun. fold confirmed.
  split; [|split].
  - intros Hn. assert (Hc : confirmed = true).
    { rewrite Hconf. destruct (Nat.leb_spec (S n) 5); [|lia].
      apply Z.leb_le, Hreach. }
    split; [exact Hc|]. rewrite Hc.
    eapply update_motion_refreshes; [exact Hst1 | exact Hr1].
  - intros Hn. rewrite Hconf.
    destruct (Nat.leb_spec (S n) 5); [lia | reflexivity].
  - intros Hn Hpos. assert (Hc : confirmed = false).
    { rewrite Hconf. destruct (Nat.leb_spec (S n) 5); [lia|].
      apply Z.leb_gt, Hpos. }
    split; [exact Hc|]. rewrite Hc.
    eapply update_quiet_keeps_last_motion; [exact Hst1 | exact Hr1].
Qed.

Lemma grace_window_reported_as_motion_witness :
  last_motion_is "cam1" (Some 22)
    (snd (process_frame (Examples.moving_for 19) "cam1" Examples.blank_frame
            (Examples.env_at 22) (Examples.lapsed_system [20; 21])))
  /\ snd (MotionDetector.detect (Examples.moving_for 19)
            (MotionDetector.detect_all (Examples.moving_for 19)
               Examples.moved_detector (repeat Examples.blank_frame 5))
            Examples.blank_frame) = false.
Proof.
  assert (Hreach : MotionDetector.min_motion_frames Examples.moved_detector
                   <= MotionDetector.motion_frames Examples.moved_detector)
    by (vm_compute; discriminate).
  assert (Hd2 : motion_detectors (Examples.lapsed_system [20; 21]) !! "cam1"
                = Some (MotionDetector.detect_all (Examples.moving_for 19)
                          Examples.moved_detector
                          (repeat Examples.blank_frame 2)))
    by (vm_compute; reflexivity).
  assert (Hs2 : camera_states (Examples.lapsed_system [20; 21]) !! "cam1"
                = Some {| recording := true; motion_start := Some 19;
                          last_motion := Some 21; motion_count := 12;
                          cooldown_until := None |})
    by (vm_compute; reflexivity).
  assert (Hr2 : recorders (Examples.lapsed_system [20; 21]) !! "cam1"
                = Some (default Examples.idle_sink
                          (recorders (Examples.lapsed_system [20; 21])
                           !! "cam1")))
    by (vm_compute; reflexivity).
  assert (Hd5 : motion_detectors (Examples.lapsed_system [20; 21; 22; 23; 24])
                !! "cam1"
                = Some (MotionDetector.detect_all (Examples.moving_for 19)
                          Examples.moved_detector
                          (repeat Examples.blank_frame 5)))
    by (vm_compute; reflexivity).
  assert (Hs5 : camera_states (Examples.lapsed_system [20; 21; 22; 23; 24])
                !! "cam1"
                = Some {| recording := true; motion_start := Some 19;
                          last_motion := Some 24; motion_count := 15;
                          cooldown_until := None |})
    by (vm_compute; reflexivity).
  assert (Hr5 : recorders (Examples.lapsed_system [20; 21; 22; 23; 24])
                !! "cam1"
                = Some (default Examples.idle_sink
                          (recorders
                             (Examples.lapsed_system [20; 21; 22; 23; 24])
                           !! "cam1")))
    by (vm_compute; reflexivity).
  split.
  - apply (grace_window_reported_as_motion (Examples.moving_for 19) _ "cam1"
             Examples.blank_frame (Examples.env_at 22) _ _ _
             (repeat Examples.blank_frame 2) Hreach eq_refl eq_refl
             Hd2 Hs2 Hr2).
    cbn. lia.
  - apply (grace_window_reported_as_motion (Examples.moving_for 19) _ "cam1"
             Examples.blank_frame (Examples.env_at 25) _ _ _
             (repeat Examples.blank_frame 5) Hreach eq_refl eq_refl
             Hd5 Hs5 Hr5);
      [cbn; lia | vm_compute; reflexivity].
Defined.

End GraceWindow.

(** * Further properties of the sources *)

(** ** The detector: counters, reset and the ROI *)

Section DetectorMore.

Import MotionDetector RoiMask.

Lemma feed_counters_eq stream : forall d1 d2,
  counters d1 = counters d2 ->
  counters (feed d1 stream) = counters (feed d2 stream).
Proof.
  induction stream as [|b stream IH]; intros d1 d2 Hc; [exact Hc|].
  unfold feed. cbn [fold_left]. apply IH, track_counters, Hc.
Qed.

Lemma detect_absorbs cv d frame :
  bg_subtractor (fst (fst (detect cv d frame))) = bg_subtractor d ++ [frame]
  /\ roi_percentage (fst (fst (detect cv d frame))) = roi_percentage d
  /\ threshold (fst (fst (detect cv d frame))) = threshold d.
Proof.
  pose proof (detect_track cv d frame) as H.
  apply (f_equal fst) in H. cbn [fst] in H. rewrite H. unfold track.
  destruct (outcome cv d frame); [|destruct (5 <? _)]; repeat split.
Qed.

Lemma detect_all_absorbs cv frames : forall d,
  bg_subtractor (detect_all cv d frames) = bg_subtractor d ++ frames
  /\ roi_percentage (detect_all cv d frames) = roi_percentage d
  /\ threshold (detect_all cv d frames) = threshold d.
Proof.
  induction frames as [|f rest IH]; intros d.
  - cbn. rewrite app_nil_r. auto.
  - cbn [detect_all]. destruct (IH (fst (fst (detect cv d f)))) as (H1 & H2 & H3).
    destruct (detect_absorbs cv d f) as (E1 & E2 & E3).
    rewrite H1, H2, H3, E1, E2, E3, <- app_assoc. auto.
Qed.

(** The counters along any boolean stream, from counters that satisfy
    the same bounds. *)
Lemma feed_bounds stream : forall d (n : Z),
  0 <= motion_frames d -> 0 <= no_motion_frames d ->
  (5 < no_motion_frames d -> motion_frames d = 0) ->
  motion_frames d + no_motion_frames d <= n ->
  let d' := feed d stream in
  0 <= motion_frames d' /\ 0 <= no_motion_frames d'
  /\ (5 < no_motion_frames d' -> motion_frames d' = 0)
  /\ motion_frames d' + no_motion_frames d' <= n + Z.of_nat (length stream).
Proof.
  induction stream as [|b stream IH]; intros d n Hm Hg Hz Hn.
  - cbn. rewrite Z.add_0_r. auto.
  - unfold feed. cbn [fold_left length].
    replace (n + Z.of_nat (S (length stream)))
      with (n + 1 + Z.of_nat (length stream)) by lia.
    apply IH; unfold track; destruct b; cbn; try lia;
      destruct (Z.ltb_spec 5 (no_motion_frames d + 1)); cbn; lia.
Qed.

(** X1. Whatever the contour search finds, the counters of a detector
    that has processed a sequence of frames since its creation are not
    negative, the motion counter is zero whenever more than five
    non-qualifying frames have been seen in a row, the two counters
    together never exceed the number of frames processed, the
    configuration is as at creation and the background model has
    absorbed exactly the frames processed, in order. *)
Theorem detect_keeps_counter_bounds
    (cv : Vision) (roi : Fraction * Fraction * Fraction * Fraction)
    (thr k : Z) (frames : list Frame) :
  let d := detect_all cv (init roi thr k) frames in
  0 <= motion_frames d
  /\ 0 <= no_motion_frames d
  /\ (5 < no_motion_frames d -> motion_frames d = 0)
  /\ motion_frames d + no_motion_frames d <= Z.of_nat (length frames)
  /\ min_motion_frames d = k
  /\ threshold d = thr
  /\ roi_percentage d = roi
  /\ bg_subtractor d = frames.
Proof.
  intros d. subst d.
  pose proof (detect_all_counters cv frames (init roi thr k) (init roi thr k)
                eq_refl) as Hc.
  unfold counters in Hc. injection Hc as Hm Hg Hk.
  rewrite Hm, Hg, Hk, feed_min_motion_frames.
  destruct (feed_bounds (outcomes cv (init roi thr k) frames) (init roi thr k) 0)
    as (H1 & H2 & H3 & H4); cbn; try lia.
  rewrite outcomes_length in H4.
  destruct (detect_all_absorbs cv frames (init roi thr k)) as (B1 & B2 & B3).
  repeat split; try assumption; try lia.
Qed.

(** X2. [reset] keeps the background model and the configuration, and
    the detector then debounces like a fresh one: on any later sequence
    of frames [detect] reports confirmed motion exactly when the streak
    of the contour outcomes since the reset has reached
    [min_motion_frames]. *)
Theorem reset_restarts_debounce
    (cv : Vision) (d : t) (frames : list Frame) (frame : Frame) :
  bg_subtractor (reset d) = bg_subtractor d
  /\ roi_percentage (reset d) = roi_percentage d
  /\ threshold (reset d) = threshold d
  /\ min_motion_frames (reset d) = min_motion_frames d
  /\ (snd (detect cv (detect_all cv (reset d) frames) frame) = true
      <-> min_motion_frames d
          <= spec_streak (outcomes cv (reset d) (frames ++ [frame]))).
Proof.
  repeat split; try reflexivity.
  - rewrite detect_all_snoc,
      <- (confirmed_iff_streak (roi_percentage d) (threshold d)).
    intros H. rewrite <- H. symmetry.
    pose proof (detect_track cv (detect_all cv (reset d) frames) frame) as Hd.
    apply (f_equal snd) in Hd. cbn [snd] in Hd. rewrite Hd.
    apply track_counters. rewrite counters_absorb.
    apply detect_all_counters. reflexivity.
  - rewrite detect_all_snoc,
      <- (confirmed_iff_streak (roi_percentage d) (threshold d)).
    intros H. rewrite <- H.
    pose proof (detect_track cv (detect_all cv (reset d) frames) frame) as Hd.
    apply (f_equal snd) in Hd. cbn [snd] in Hd. rewrite Hd.
    apply track_counters. rewrite counters_absorb.
    apply detect_all_counters. reflexivity.
Qed.











End DetectorMore.

(** ** The recorder: buffer, consumer thread and durations *)

Section SinkMore.

Import VideoRecorder SinkOps.

Lemma set_frame_queue_id r : set_frame_queue (frame_queue r) r = r.
Proof. destruct r; reflexivity. Qed.

(** X4. While the recorder is active and the consumer thread takes
    nothing, a burst of [add_frame] calls keeps the frames that fit into
    the 100 places of the buffer, oldest first, and drops every later
    one; nothing else of the recorder changes. *)
Theorem add_all_keeps_the_first_hundred (frames : list Frame) (r : t) :
  is_recording r = true ->
  (length (frame_queue r) <= maxsize)%nat ->
  add_all frames r
  = set_frame_queue (take maxsize (frame_queue r ++ frames)) r
  /\ length (frame_queue (add_all frames r))
     = Nat.min maxsize (length (frame_queue r) + length frames).
Proof.
  intros Hact Hlen.
  assert (H : add_all frames r
              = set_frame_queue (take maxsize (frame_queue r ++ frames)) r).
  { revert r Hact Hlen. induction frames as [|f frames IH]; intros r Hact Hlen.
    - cbn. rewrite app_nil_r, take_ge by exact Hlen.
      symmetry. apply set_frame_queue_id.
    - unfold add_all. cbn [fold_left]. fold (add_all frames (snd (add_frame f r))).
      destruct (full r) eqn:Hfull.
      + rewrite add_frame_full by exact Hfull. cbn [snd].
        rewrite IH by assumption.
        unfold full in Hfull. apply Nat.leb_le in Hfull.
        rewrite !take_app_length' by lia. reflexivity.
      + rewrite add_frame_enqueue by assumption.
        unfold full in Hfull. apply Nat.leb_gt in Hfull.
        rewrite IH.
        * cbn [frame_queue set_frame_queue]. rewrite <- app_assoc.
          destruct r; reflexivity.
        * exact Hact.
        * cbn [frame_queue set_frame_queue]. rewrite length_app. cbn. lia. }
  split; [exact H|].
  rewrite H. cbn [frame_queue set_frame_queue].
  rewrite length_take, length_app. reflexivity.
Qed.

Lemma add_all_keeps_the_first_hundred_witness :
  length (frame_queue (add_all (repeat Examples.blank_frame 149)
                         (snd (start_recording Examples.blank_frame
                                 "20240101_000000" true 1700000000
                                 Examples.idle_sink)))) = 100%nat.
Proof.
  destruct (add_all_keeps_the_first_hundred
              (repeat Examples.blank_frame 149)
              (snd (start_recording Examples.blank_frame "20240101_000000"
                      true 1700000000 Examples.idle_sink)))
    as [_ H]; [reflexivity | cbn; unfold maxsize; lia |].
  rewrite H. reflexivity.
Defined.

Lemma live_add frame r : live r -> live (snd (add_frame frame r)).
Proof.
  intros (H1 & H2 & H3). unfold add_frame.
  destruct (is_recording r && negb (full r)); repeat split; assumption.
Qed.

Lemma live_consume r : live r -> live (recording_loop_step r).
Proof.
  intros (H1 & H2 & [w H3]). unfold recording_loop_step. rewrite H2, H1, H3.
  destruct (frame_queue r); repeat split; cbn; auto; eexists; reflexivity.
Qed.

Lemma consume_keeps_frames r :
  live r ->
  written_frames (recording_loop_step r) ++ frame_queue (recording_loop_step r)
  = written_frames r ++ frame_queue r.
Proof.
  intros (H1 & H2 & [w H3]). unfold recording_loop_step, written_frames.
  rewrite H2, H1, H3.
  destruct (frame_queue r) as [|f q] eqn:E; cbn; rewrite ?H3, ?E.
  - reflexivity.
  - rewrite <- app_assoc. reflexivity.
Qed.

Lemma add_frame_written frame r :
  written_frames (snd (add_frame frame r)) = written_frames r.
Proof.
  unfold add_frame. destruct (is_recording r && negb (full r)); reflexivity.
Qed.

Lemma consume_queue_length r :
  (length (frame_queue (recording_loop_step r)) <= length (frame_queue r))%nat.
Proof.
  destruct (recording_loop_step_queue r) as [-> | ->]; [lia|].
  destruct (frame_queue r); cbn; lia.
Qed.

(** X5. While the recorder is active, under every interleaving of
    [add_frame] calls with turns of the consumer thread, the frames
    written so far followed by the frames still buffered are the earlier
    ones followed by the accepted frames in the order they were handed
    in: nothing is reordered or duplicated, and when the buffer cannot
    overflow nothing is dropped. *)
Theorem frames_reach_the_writer_in_arrival_order (ops : list Op) (r : t) :
  live r ->
  streaming ops ->
  let r' := run ops r in
  live r'
  /\ exists kept,
       kept `sublist_of` added ops
       /\ written_frames r' ++ frame_queue r'
          = (written_frames r ++ frame_queue r) ++ kept
       /\ ((length (frame_queue r) + length (added ops) <= maxsize)%nat ->
           kept = added ops).
Proof.
  intros Hlive Hops r'. subst r'. revert r Hlive.
  induction Hops as [|op ops Hop Hops IH]; intros r Hlive.
  - split; [exact Hlive|]. exists []. cbn. rewrite app_nil_r.
    repeat split; auto.
  - unfold run. cbn [fold_left]. fold (run ops (apply r op)).
    destruct op as [| frame | |]; try contradiction.
    + destruct (IH (snd (add_frame frame r)) (live_add frame r Hlive))
        as (Hl & kept & Hsub & Heq & Hall).
      split; [exact Hl|]. cbn [apply added omap].
      fold (added ops). rewrite Heq, add_frame_written.
      destruct Hlive as (Hact & _ & _).
      destruct (full r) eqn:Hfull.
      * rewrite add_frame_full in * by exact Hfull. cbn [snd] in *.
        exists kept. split; [apply sublist_cons, Hsub|]. split; [reflexivity|].
        intros Hfit. unfold full in Hfull. apply Nat.leb_le in Hfull.
        change (added (Add frame :: ops)) with (frame :: added ops) in Hfit.
        cbn [length] in Hfit. unfold maxsize in *. lia.
      * rewrite add_frame_enqueue in * by assumption.
        cbn [frame_queue set_frame_queue] in *.
        exists (frame :: kept). split; [apply sublist_skip, Hsub|].
        split; [rewrite <- !app_assoc; reflexivity|].
        intros Hfit.
        change (added (Add frame :: ops)) with (frame :: added ops) in *.
        f_equal. apply Hall.
        rewrite length_app. cbn [length] in *. unfold maxsize in *. lia.
    + destruct (IH (recording_loop_step r) (live_consume r Hlive))
        as (Hl & kept & Hsub & Heq & Hall).
      split; [exact Hl|]. cbn [apply added omap]. fold (added ops).
      exists kept. split; [exact Hsub|].
      split; [rewrite Heq, consume_keeps_frames by exact Hlive; reflexivity|].
      intros Hfit. change (added (Consume :: ops)) with (added ops) in Hfit.
      apply Hall.
      pose proof (consume_queue_length r). unfold maxsize in *. lia.
Qed.

Lemma frames_reach_the_writer_in_arrival_order_witness :
  let r := snd (start_recording Examples.blank_frame "20240101_000000" true
                  1700000000 Examples.idle_sink) in
  exists kept,
    written_frames (run [Add Examples.blank_frame; Consume;
                         Add Examples.blank_frame] r)
    ++ frame_queue (run [Add Examples.blank_frame; Consume;
                         Add Examples.blank_frame] r)
    = (written_frames r ++ frame_queue r) ++ kept
    /\ kept = [Examples.blank_frame; Examples.blank_frame].
Proof.
  intros r.
  destruct (frames_reach_the_writer_in_arrival_order
              [Add Examples.blank_frame; Consume; Add Examples.blank_frame] r)
    as (_ & kept & _ & Heq & Hall).
  - repeat split. eexists; reflexivity.
  - repeat constructor.
  - exists kept. split; [exact Heq|]. apply Hall. cbn. unfold maxsize. lia.
Defined.

(** Turns of the consumer thread of a stopped recorder: it writes the
    buffered frames in order, then releases the writer and ends. *)
Lemma drain_steps q : forall r w n,
  is_recording r = false ->
  recording_thread r = Some Running ->
  video_writer r = Some w ->
  frame_queue r = q ->
  (length q < n)%nat ->
  let r' := Nat.iter n recording_loop_step r in
  frame_queue r' = []
  /\ recording_thread r' = Some Finished
  /\ video_writer r'
     = Some {| target := target w; frame_size := frame_size w;
               isOpened := isOpened w; written := written w ++ q;
               released := true |}
  /\ is_recording r' = false
  /\ last_video_path r' = last_video_path r
  /\ start_time r' = start_time r.
Proof.
  assert (Hswap : forall n r,
            Nat.iter (S n) recording_loop_step r
            = Nat.iter n recording_loop_step (recording_loop_step r)).
  { induction n as [|n IH]; intros r; [reflexivity|].
    change (Nat.iter (S (S n)) recording_loop_step r)
      with (recording_loop_step (Nat.iter (S n) recording_loop_step r)).
    rewrite IH. reflexivity. }
  assert (Hdone : forall n r,
            recording_thread r = Some Finished ->
            Nat.iter n recording_loop_step r = r).
  { induction n as [|n IH]; intros r Hf; [reflexivity|].
    rewrite Hswap. unfold recording_loop_step at 2. rewrite Hf. apply IH, Hf. }
  induction q as [|f q IH]; intros r w n Hact Hth Hw Hq Hn.
  - destruct n as [|n]; [cbn in Hn; lia|].
    assert (E : recording_loop_step r
                = set_recording_thread (Some Finished)
                    (set_video_writer (Some (release w)) r)).
    { unfold recording_loop_step. rewrite Hth, Hq, Hact, Hw. reflexivity. }
    cbn zeta. rewrite Hswap, E, Hdone by reflexivity.
    cbn [frame_queue recording_thread video_writer is_recording
         last_video_path start_time set_recording_thread set_video_writer].
    rewrite Hq, app_nil_r. repeat split; assumption.
  - destruct n as [|n]; [cbn in Hn; lia|].
    assert (E : recording_loop_step r
                = set_frame_queue q
                    (set_video_writer (Some (write f w)) r)).
    { unfold recording_loop_step. rewrite Hth, Hq, Hw. reflexivity. }
    cbn zeta. rewrite Hswap, E.
    destruct (IH (set_frame_queue q (set_video_writer (Some (write f w)) r))
                (write f w) n)
      as (H1 & H2 & H3 & H4 & H5 & H6); try assumption; try reflexivity.
    { cbn in Hn. lia. }
    rewrite H1, H2, H3, H4, H5, H6. cbn. rewrite <- app_assoc.
    repeat split; reflexivity.
Qed.

(** X6. When the consumer thread gets through the buffer before [join]
    times out, [stop_recording] on an active recorder returns the path
    of the clip, every frame that was still buffered has been written
    behind the earlier ones in order, the writer is released, the thread
    has ended, the buffer is empty and the recorder is inactive. *)
Theorem stop_recording_drains_the_buffer (r : t) (w : VideoWriter) (n : nat) :
  is_recording r = true ->
  recording_thread r = Some Running ->
  video_writer r = Some w ->
  (length (frame_queue r) < n)%nat ->
  let r' := snd (stop_recording n r) in
  fst (stop_recording n r) = Ok (last_video_path r)
  /\ is_recording r' = false
  /\ frame_queue r' = []
  /\ recording_thread r' = Some Finished
  /\ written_frames r' = written w ++ frame_queue r
  /\ (released <$> video_writer r') = Some true
  /\ (target <$> video_writer r') = Some (target w).
Proof.
  intros Hact Hth Hw Hn r'. subst r'.
  unfold stop_recording. rewrite Hact.
  cbn [negb recording_thread set_is_recording]. rewrite Hth.
  destruct (drain_steps (frame_queue r) (set_is_recording false r) w n)
    as (H1 & H2 & H3 & H4 & H5 & H6); auto.
  cbn [fst snd last_video_path set_frame_queue is_recording frame_queue
       recording_thread video_writer].
  unfold written_frames.
  cbn [video_writer set_frame_queue].
  rewrite H2, H3, H4, H5. cbn. repeat split.
Qed.

Lemma stop_recording_drains_the_buffer_witness :
  written_frames (snd (stop_recording 101 Examples.full_sink))
  = repeat Examples.blank_frame 100
  /\ (released <$> video_writer (snd (stop_recording 101 Examples.full_sink)))
     = Some true.
Proof.
  assert (Hw : is_Some (video_writer Examples.full_sink))
    by (vm_compute; eexists; reflexivity).
  destruct Hw as [w Hw].
  destruct (stop_recording_drains_the_buffer Examples.full_sink w 101)
    as (_ & _ & _ & _ & H5 & H6 & _).
  - vm_compute. reflexivity.
  - vm_compute. reflexivity.
  - exact Hw.
  - apply Nat.ltb_lt. vm_compute. reflexivity.
  - split; [|exact H6]. rewrite H5.
    assert (E : written_frames Examples.full_sink ++
                frame_queue Examples.full_sink
                = repeat Examples.blank_frame 100)
      by (vm_compute; reflexivity).
    unfold written_frames in E. rewrite Hw in E. exact E.
Defined.

Lemma well_formed_apply r op : well_formed r -> well_formed (apply r op).
Proof.
  intros Hwf. pose proof Hwf as (Hlen & Hidle & Hact).
  destruct op as [f stamp opens clock|f|n|]; cbn [apply].
  - unfold start_recording. destruct (is_recording r) eqn:E.
    + exact Hwf.
    + specialize (Hidle eq_refl). destruct opens; cbn [negb snd].
      * unfold add_frame, full.
        cbn [is_recording frame_queue set_is_recording set_last_video_path
             set_video_writer set_recording_thread].
        rewrite Hidle.
        cbn [length Nat.leb maxsize negb andb snd app is_recording
             frame_queue last_video_path video_writer set_start_time
             set_frame_queue set_is_recording set_last_video_path
             set_video_writer set_recording_thread].
        split; [cbn; unfold maxsize; lia|]. split; [discriminate|].
        intros _. split; eexists; reflexivity.
      * cbn [is_recording frame_queue last_video_path video_writer
             set_is_recording set_last_video_path set_video_writer].
        split; [cbn; rewrite Hidle; cbn; lia|]. split; [discriminate|].
        intros _. split; eexists; reflexivity.
  - split; [apply add_frame_bounded, Hlen|].
    unfold add_frame.
    destruct (is_recording r && negb (full r)) eqn:Ec; cbn [snd];
      [|apply Hwf].
    apply andb_true_iff in Ec. destruct Ec as [E _].
    cbn [is_recording frame_queue last_video_path video_writer
         set_frame_queue].
    split; [rewrite E; discriminate | exact Hact].
  - unfold stop_recording. destruct (is_recording r) eqn:E; cbn [negb snd].
    + cbn [is_recording frame_queue set_frame_queue].
      split; [cbn; lia|]. split; [reflexivity|].
      intros Habs. exfalso. revert Habs.
      cbn [recording_thread set_is_recording].
      destruct (recording_thread r).
      * change (is_recording (set_frame_queue [] ?x)) with (is_recording x).
        rewrite loop_keeps_is_recording. discriminate.
      * discriminate.
    + apply Hwf.
  - split; [apply recording_loop_step_bounded, Hlen|].
    unfold recording_loop_step.
    destruct (recording_thread r) as [[|]|]; try apply Hwf.
    destruct (frame_queue r) as [|f q] eqn:Eq.
    + destruct (is_recording r) eqn:E.
      * rewrite Eq, E. split; [discriminate | exact Hact].
      * cbn [is_recording frame_queue set_recording_thread set_video_writer].
        rewrite Eq, E. split; [reflexivity | discriminate].
    + cbn [is_recording frame_queue last_video_path video_writer
           set_frame_queue set_video_writer].
      destruct (is_recording r) eqn:E.
      * split; [discriminate|]. intros _.
        destruct (Hact eq_refl) as [Hp [w Hw]].
        split; [exact Hp|]. rewrite Hw. eexists; reflexivity.
      * specialize (Hidle eq_refl). discriminate.
Qed.

Lemma well_formed_run ops : forall r, well_formed r -> well_formed (run ops r).
Proof.
  induction ops as [|op ops IH]; intros r H; [exact H|].
  unfold run. cbn [fold_left]. apply IH, well_formed_apply, H.
Qed.

(** X7. Whatever sequence of starts, frames, stops and turns of the
    consumer thread a recorder has gone through since its creation, its
    buffer holds at most 100 frames and is empty while the recorder is
    inactive, an active recorder has a path and a writer, and stopping
    an active recorder always returns a path. *)
Theorem recorder_stays_well_formed
    (dir cam : string) (rate : Z) (cc : string) (ops : list Op) (n : nat) :
  let r := run ops (init dir cam rate cc) in
  (length (frame_queue r) <= maxsize)%nat
  /\ (is_recording r = false -> frame_queue r = [])
  /\ (is_recording r = true ->
      is_Some (last_video_path r) /\ is_Some (video_writer r))
  /\ (is_recording r = true ->
      exists p, fst (stop_recording n r) = Ok (Some p)).
Proof.
  intros r.
  assert (H : well_formed r).
  { apply well_formed_run. repeat split; try discriminate. cbn. lia. }
  destruct H as (H1 & H2 & H3).
  split; [exact H1|]. split; [exact H2|]. split; [exact H3|].
  intros Hact. destruct (H3 Hact) as [[p Hp] _]. exists p.
  destruct (sink_stop_active n r Hact) as [-> _]. rewrite Hp. reflexivity.
Qed.

Lemma recorder_stays_well_formed_witness :
  exists p,
    fst (stop_recording 3
           (run [Start Examples.blank_frame "20240101_000000" false 5;
                 Add Examples.blank_frame]
              (init "recordings" "cam1" 15 "mp4v"))) = Ok (Some p).
Proof.
  destruct (recorder_stays_well_formed "recordings" "cam1" 15 "mp4v"
              [Start Examples.blank_frame "20240101_000000" false 5;
               Add Examples.blank_frame] 3)
    as (_ & _ & _ & H).
  apply H. reflexivity.
Defined.

Lemma step_start_time r : start_time (recording_loop_step r) = start_time r.
Proof.
  unfold recording_loop_step.
  destruct (recording_thread r) as [[|]|]; try reflexivity.
  destruct (frame_queue r); [|reflexivity].
  destruct (is_recording r); reflexivity.
Qed.

Lemma loop_keeps_start_time n r :
  start_time (Nat.iter n recording_loop_step r) = start_time r.
Proof.
  induction n as [|n IH]; [reflexivity|].
  change (Nat.iter (S n) recording_loop_step r)
    with (recording_loop_step (Nat.iter n recording_loop_step r)).
  rewrite step_start_time. exact IH.
Qed.

Lemma apply_start_time r op :
  match op with Start _ _ true _ => False | _ => True end ->
  start_time (apply r op) = start_time r.
Proof.
  destruct op as [f stamp opens clock|f|n|]; cbn [apply]; intros Hop.
  - destruct opens; [contradiction|]. unfold start_recording.
    destruct (is_recording r); reflexivity.
  - unfold add_frame. destruct (is_recording r && negb (full r)); reflexivity.
  - unfold stop_recording. destruct (is_recording r) eqn:E; cbn [negb snd];
      [|reflexivity].
    cbn [start_time set_frame_queue recording_thread set_is_recording].
    destruct (recording_thread r); [|reflexivity].
    rewrite loop_keeps_start_time. reflexivity.
  - apply step_start_time.
Qed.

Lemma run_start_time ops : forall r,
  no_new_clip ops -> start_time (run ops r) = start_time r.
Proof.
  induction ops as [|op ops IH]; intros r H; [reflexivity|].
  apply Forall_cons in H. destruct H as [Hop Hops].
  unfold run. cbn [fold_left]. fold (run ops (apply r op)).
  rewrite IH by exact Hops. apply apply_start_time, Hop.
Qed.

(** X8. [get_last_duration] measures from the last successful start to
    the moment of the call, also after the recording has been stopped:
    frames, stops, turns of the consumer and failed starts in between do
    not change it; for a recorder that never started successfully it is
    0.  The call leaves the recorder as it is. *)
Theorem last_duration_runs_from_start_to_call
    (r : t) (frame : Frame) (stamp : string) (t0 clock : Z) (ops : list Op)
    (dir cam : string) (rate : Z) (cc : string) :
  is_recording r = false ->
  t0 <> 0 ->
  no_new_clip ops ->
  get_last_duration clock
    (run ops (snd (start_recording frame stamp true t0 r)))
  = (Ok (clock - t0), run ops (snd (start_recording frame stamp true t0 r)))
  /\ get_last_duration clock (run ops (init dir cam rate cc))
     = (Ok 0, run ops (init dir cam rate cc)).
Proof.
  intros Hidle Ht0 Hops. unfold get_last_duration.
  rewrite !run_start_time by exact Hops. split.
  - unfold start_recording. rewrite Hidle. cbn.
    destruct (Z.eqb_spec t0 0); [contradiction | reflexivity].
  - reflexivity.
Qed.

Lemma last_duration_runs_from_start_to_call_witness :
  fst (get_last_duration 1700000090
         (run [Add Examples.blank_frame; Stop 5]
            (snd (start_recording Examples.blank_frame "20240101_000000" true
                    1700000000 Examples.idle_sink)))) = Ok 90.
Proof.
  destruct (last_duration_runs_from_start_to_call
              Examples.idle_sink Examples.blank_frame "20240101_000000"
              1700000000 1700000090 [Add Examples.blank_frame; Stop 5]
              "recordings" "cam1" 15 "mp4v")
    as [H _]; [reflexivity | lia | repeat constructor |].
  rewrite H. reflexivity.
Defined.

End SinkMore.

(** ** The supervisor: what a loop turn keeps *)

Section Keeps.

Import SurveillanceSystem Effects Hoare.

Variables (cam : string) (P : t -> Prop).
Variable good : (CameraState -> CameraState) -> Prop.
Hypothesis P_logger : forall s l, P s -> P (set_logger l s).
Hypothesis P_telegram : forall s l, P s -> P (set_telegram_bot l s).
Hypothesis P_jsonl : forall s l, P s -> P (set_recordings_jsonl l s).
Hypothesis P_recorders :
  forall s r, P s -> P (set_recorders (<[cam := r]> (recorders s)) s).
Hypothesis P_detectors :
  forall s d, P s ->
    P (set_motion_detectors (<[cam := d]> (motion_detectors s)) s).
Hypothesis P_states :
  forall s f, good f -> P s ->
    P (set_camera_states (alter f cam (camera_states s)) s).
Hypothesis good_seen : forall clock,
  good (fun st => with_last_motion (Some clock)
                    (with_motion_count (motion_count st + 1) st)).
Hypothesis good_started : forall clock,
  good (fun st => with_cooldown_until None
                    (with_motion_start (Some clock) (with_recording true st))).
Hypothesis good_closed :
  good (fun st => with_motion_count 0 (with_recording false st)).

Lemma keeps_ret {A} (a : A) : maintains P (ret a).
Proof. intros s H. exact H. Qed.

Lemma keeps_raise {A} e : maintains P (@raise t A e).
Proof. intros s H. exact H. Qed.

Lemma keeps_get : maintains P get.
Proof. intros s H. exact H. Qed.

Lemma keeps_bind {A B} (m : M t A) (k : A -> M t B) :
  maintains P m -> (forall a, maintains P (k a)) -> maintains P (bind m k).
Proof.
  intros Hm Hk s H. unfold bind. specialize (Hm s H).
  destruct (m s) as [[a|e] s1]; cbn [snd] in *; [apply Hk, Hm | exact Hm].
Qed.

Lemma keeps_try {A} (m : M t A) h :
  maintains P m -> (forall e, maintains P (h e)) -> maintains P (try_except m h).
Proof.
  intros Hm Hh s H. unfold try_except. specialize (Hm s H).
  destruct (m s) as [[a|e] s1]; cbn [snd] in *; [exact Hm | apply Hh, Hm].
Qed.

Lemma keeps_item {A} (o : option A) key : maintains P (item o key).
Proof. destruct o; intros s H; exact H. Qed.

Lemma keeps_if {A} (b : bool) (m1 m2 : M t A) :
  maintains P m1 -> maintains P m2 -> maintains P (if b then m1 else m2).
Proof. destruct b; auto. Qed.

Lemma keeps_option {A B} (o : option B) (m1 : B -> M t A) m2 :
  (forall b, maintains P (m1 b)) -> maintains P m2 ->
  maintains P (match o with Some b => m1 b | None => m2 end).
Proof. destruct o; auto. Qed.

Lemma keeps_camera_config c : maintains P (camera_config c).
Proof. intros s H. unfold camera_config. apply keeps_item, H. Qed.

Lemma keeps_camera_state c : maintains P (camera_state c).
Proof. intros s H. unfold camera_state. apply keeps_item, H. Qed.

Lemma keeps_on_recorder {A} (m : M VideoRecorder.t A) :
  maintains P (on_recorder cam m).
Proof.
  intros s H. unfold on_recorder.
  destruct (recorders s !! cam) as [r|]; [|exact H].
  destruct (m r) as [res r']. apply P_recorders, H.
Qed.

Lemma keeps_on_detector {A} (m : MotionDetector.t -> MotionDetector.t * A) :
  maintains P (on_detector cam m).
Proof.
  intros s H. unfold on_detector.
  destruct (motion_detectors s !! cam) as [d|]; [|exact H].
  destruct (m d) as [d' a]. apply P_detectors, H.
Qed.

Lemma keeps_log rec : maintains P (log rec).
Proof. intros s H. apply P_logger, H. Qed.

Lemma keeps_deliver d : maintains P (deliver d).
Proof. intros s H. apply P_telegram, H. Qed.

Lemma keeps_global name : maintains P (global name).
Proof. intros s H. unfold global. destruct (bool_decide _); exact H. Qed.

Lemma keeps_update_state f : good f -> maintains P (update_state cam f).
Proof. intros Hf s H. apply P_states; assumption. Qed.

Ltac keeps :=
  repeat first
    [ apply keeps_ret | apply keeps_raise | apply keeps_get
    | apply keeps_item | apply keeps_camera_config
    | apply keeps_camera_state | apply keeps_on_recorder
    | apply keeps_on_detector
    | apply keeps_log | apply keeps_deliver | apply keeps_global
    | apply keeps_update_state;
        first [apply good_seen | apply good_started | apply good_closed]
    | apply P_jsonl
    | apply keeps_if
    | apply keeps_option; [intros ?|]
    | apply keeps_bind; [|intros ?]
    | apply keeps_try; [|intros ?] ].

Lemma keeps_start_recording frame env :
  maintains P (start_recording cam frame env).
Proof. unfold start_recording. keeps. Qed.

Lemma keeps_send_motion_alert frame env :
  maintains P (send_motion_alert cam frame env).
Proof. unfold send_motion_alert. keeps. Qed.

Lemma keeps_log_recging p env : maintains P (log_recging cam p env).
Proof.
  unfold log_recging. keeps.
Qed.

Lemma keeps_stop_recording env : maintains P (stop_recording cam env).
Proof. unfold stop_recording. keeps. Qed.

Lemma keeps_update_camera_state motion_detected frame env :
  maintains P (update_camera_state cam motion_detected frame env).
Proof.
  unfold update_camera_state.
  apply keeps_bind; [apply keeps_camera_state|intros _].
  apply keeps_bind; [apply keeps_on_recorder|intros _].
  destruct motion_detected.
  - apply keeps_bind; [apply keeps_update_state, good_seen|intros _].
    apply keeps_bind; [apply keeps_camera_state|intros state].
    apply keeps_bind; [keeps|intros start].
    destruct start.
    + apply keeps_bind; [apply keeps_start_recording|intros _].
      apply keeps_bind; [apply keeps_update_state, good_started|intros _].
      apply keeps_bind; [apply keeps_get|intros s1].
      apply keeps_bind; [apply keeps_item|intros wanted].
      apply keeps_if; [apply keeps_send_motion_alert | apply keeps_ret].
    + keeps.
  - apply keeps_bind; [apply keeps_camera_state|intros state].
    apply keeps_if; [|apply keeps_ret].
    apply keeps_bind; [apply keeps_camera_config|intros c].
    apply keeps_bind; [apply keeps_item|intros mrt].
    apply keeps_bind; [apply keeps_item|intros cd].
    apply keeps_if; [|apply keeps_on_recorder].
    apply keeps_bind; [keeps|intros ms].
    apply keeps_if; [|apply keeps_on_recorder].
    apply keeps_bind; [apply keeps_stop_recording|intros _].
    apply keeps_update_state, good_closed.
Qed.

Lemma keeps_process_frame cv frame env :
  maintains P (process_frame cv cam frame env).
Proof.
  unfold process_frame.
  apply keeps_bind; [apply keeps_on_detector|intros r].
  apply keeps_update_camera_state.
Qed.

Lemma keeps_process_frames cv turns : maintains P (process_frames cv cam turns).
Proof.
  induction turns as [|[frame env] rest IH]; [apply keeps_ret|].
  cbn [process_frames].
  apply keeps_bind; [apply keeps_process_frame|intros _; exact IH].
Qed.

End Keeps.

(** ** The supervisor: cameras do not interfere *)

Section Isolation.

Import SurveillanceSystem Effects Hoare.

Lemma untouched_keeps cv cam other d st r c b turns :
  other <> cam ->
  maintains (untouched other d st r c b) (process_frames cv cam turns).
Proof.
  intros Hne.
  apply (keeps_process_frames cam (untouched other d st r c b)
           (fun _ => True)); try (intros; exact I).
  - intros s l H. exact H.
  - intros s l H. exact H.
  - intros s r' (H1 & H2 & H3 & H4 & H5).
    split; [exact H1|]. split; [exact H2|]. split; [|split; assumption].
    cbn. rewrite lookup_insert_ne by congruence. exact H3.
  - intros s d' (H1 & H2 & H3 & H4 & H5).
    split; [|split; [exact H2|split; [exact H3|split; assumption]]].
    cbn. rewrite lookup_insert_ne by congruence. exact H1.
  - intros s f _ (H1 & H2 & H3 & H4 & H5).
    split; [exact H1|]. split; [|split; [exact H3|split; assumption]].
    cbn. rewrite lookup_alter_ne by congruence. exact H2.
Qed.

(** X9. Whatever frames the capture loop of camera [cam] processes, and
    whether or not it ends with an exception, the detector, the state
    dictionary and the recorder of every other camera, the configuration
    and the running flag are left as they were. *)
Theorem process_frames_leaves_other_cameras_alone cv cam other turns s :
  other <> cam ->
  let s' := snd (process_frames cv cam turns s) in
  motion_detectors s' !! other = motion_detectors s !! other
  /\ camera_states s' !! other = camera_states s !! other
  /\ recorders s' !! other = recorders s !! other
  /\ config s' = config s
  /\ running s' = running s.
Proof.
  intros Hne s'.
  apply (untouched_keeps cv cam other _ _ _ _ _ turns Hne s).
  repeat split.
Qed.

Lemma process_frames_leaves_other_cameras_alone_witness :
  recorders (snd (process_frames Examples.one_contour "cam1"
                    (Examples.frames_at (seqZ 1 20))
                    MoreExamples.two_cameras)) !! "cam2"
  = recorders MoreExamples.two_cameras !! "cam2".
Proof.
  destruct (process_frames_leaves_other_cameras_alone Examples.one_contour
              "cam1" "cam2" (Examples.frames_at (seqZ 1 20))
              MoreExamples.two_cameras) as (_ & _ & H & _);
    [discriminate | exact H].
Defined.

End Isolation.

(** ** The supervisor: the capture loop of a set-up camera *)

Section Safety.

Import SurveillanceSystem Effects Hoare.

Variables (c : Config) (cam : string) (cfg : CameraConfig) (k mrt cd : Z).
Variable snap : bool.
Hypothesis Hcfg : cameras c !! cam = Some cfg.
Hypothesis Hk : min_motion_frames cfg = Some k.
Hypothesis Hmrt : min_recording_time cfg = Some mrt.
Hypothesis Hcd : cooldown_time cfg = Some cd.
Hypothesis Hsnap : send_snapshot c = Some snap.
Variables (size : Z * Z) (stamped : bool).
Hypothesis Hsize : resolution c = Some size.
Hypothesis Hstamped : timestamp_enabled c = Some stamped.

Lemma ready_logger s l : ready c cam s -> ready c cam (set_logger l s).
Proof. intros H. exact H. Qed.

Lemma ready_telegram s l : ready c cam s -> ready c cam (set_telegram_bot l s).
Proof. intros H. exact H. Qed.

Lemma ready_recorders s r :
  ready c cam s -> ready c cam (set_recorders (<[cam := r]> (recorders s)) s).
Proof.
  intros (H1 & H2 & H3 & H4).
  split; [exact H1|]. split; [exact H2|]. split; [|exact H4].
  cbn. rewrite lookup_insert_eq. eexists. reflexivity.
Qed.

Lemma ready_detectors s d :
  ready c cam s ->
  ready c cam (set_motion_detectors (<[cam := d]> (motion_detectors s)) s).
Proof.
  intros (H1 & H2 & H3 & H4).
  split; [exact H1|]. split; [exact H2|]. split; [exact H3|].
  cbn. rewrite lookup_insert_eq. eexists. reflexivity.
Qed.

Lemma ready_states s f :
  keeps_state_ok f -> ready c cam s ->
  ready c cam (set_camera_states (alter f cam (camera_states s)) s).
Proof.
  intros Hf (H1 & (st & H2 & Hok) & H3 & H4).
  split; [exact H1|]. split; [|split; assumption].
  exists (f st). split; [|apply Hf, Hok].
  cbn. rewrite lookup_alter_eq, H2. reflexivity.
Qed.

Lemma ok_seen clock :
  keeps_state_ok (fun st => with_last_motion (Some clock)
                              (with_motion_count (motion_count st + 1) st)).
Proof. intros st H. exact H. Qed.

Lemma ok_started clock :
  keeps_state_ok (fun st => with_cooldown_until None
                              (with_motion_start (Some clock)
                                 (with_recording true st))).
Proof. intros st _ _. eexists. reflexivity. Qed.

Lemma ok_closed :
  keeps_state_ok (fun st => with_motion_count 0 (with_recording false st)).
Proof. intros st _ H. discriminate H. Qed.

Lemma returns_intro {A} (m : M t A) (Q : A -> Prop) :
  maintains (ready c cam) m ->
  (forall s, ready c cam s -> exists a, fst (m s) = Ok a /\ Q a) ->
  returns (ready c cam) m Q.
Proof.
  intros Hm Hr s H. destruct (Hr s H) as (a & Ha & Hq).
  exists a. split; [exact Ha|]. split; [exact Hq|]. apply Hm, H.
Qed.

Lemma returns_ret {A} (a : A) (Q : A -> Prop) :
  Q a -> returns (ready c cam) (ret a) Q.
Proof. intros Hq s H. exists a. split; [reflexivity|]. split; assumption. Qed.

Lemma returns_bind {A B} (m : M t A) (k' : A -> M t B) Q1 Q2 :
  returns (ready c cam) m Q1 ->
  (forall a, Q1 a -> returns (ready c cam) (k' a) Q2) ->
  returns (ready c cam) (bind m k') Q2.
Proof.
  intros Hm Hk' s H. destruct (Hm s H) as (a & Ha & Hq & Hp).
  unfold bind. destruct (m s) as [res s1]. cbn [fst snd] in *. subst res.
  apply (Hk' a Hq s1 Hp).
Qed.

Lemma returns_try (m : M t unit) h :
  maintains (ready c cam) m ->
  (forall e, returns (ready c cam) (h e) (fun _ => True)) ->
  returns (ready c cam) (try_except m h) (fun _ => True).
Proof.
  intros Hm Hh s H. specialize (Hm s H). unfold try_except.
  destruct (m s) as [[a|e] s1]; cbn [snd] in *.
  - exists a. split; [reflexivity|]. split; [exact I|exact Hm].
  - apply Hh, Hm.
Qed.

Lemma returns_log rec : returns (ready c cam) (log rec) (fun _ => True).
Proof.
  intros s H. exists tt. split; [reflexivity|].
  split; [exact I|apply ready_logger, H].
Qed.

Lemma returns_get : returns (ready c cam) get (fun _ => True).
Proof.
  intros s H. exists s. split; [reflexivity|]. split; [exact I|exact H].
Qed.

Lemma returns_config : returns (ready c cam) get (fun s => config s = c).
Proof.
  intros s H. exists s. split; [reflexivity|]. split; [apply H | exact H].
Qed.

Lemma returns_camera_state : returns (ready c cam) (camera_state cam) state_ok.
Proof.
  intros s H. pose proof H as (_ & (st & Hst & Hok) & _).
  exists st. unfold camera_state. rewrite Hst.
  split; [reflexivity|]. split; assumption.
Qed.

Lemma returns_camera_config :
  returns (ready c cam) (camera_config cam) (fun a => a = cfg).
Proof.
  intros s H. pose proof H as (Hc & _).
  exists cfg. unfold camera_config. rewrite Hc, Hcfg.
  split; [reflexivity|]. split; [reflexivity|exact H].
Qed.

Lemma returns_on_recorder {A} (m : M VideoRecorder.t A) :
  (forall r, exists a, fst (m r) = Ok a) ->
  returns (ready c cam) (on_recorder cam m) (fun _ => True).
Proof.
  intros Hm s H. pose proof H as (_ & _ & (r & Hr) & _).
  unfold on_recorder. rewrite Hr. destruct (Hm r) as (a & Ha).
  destruct (m r) as [res r']. cbn [fst snd] in *. subst res.
  exists a. split; [reflexivity|]. split; [exact I|apply ready_recorders, H].
Qed.

Lemma returns_add_frame frame :
  returns (ready c cam) (on_recorder cam (VideoRecorder.add_frame frame))
    (fun _ => True).
Proof.
  apply returns_on_recorder. intros r. exists tt.
  unfold VideoRecorder.add_frame. destruct (_ && _); reflexivity.
Qed.

Lemma returns_update_state f :
  keeps_state_ok f ->
  returns (ready c cam) (update_state cam f) (fun _ => True).
Proof.
  intros Hf s H. exists tt. split; [reflexivity|].
  split; [exact I|apply ready_states; assumption].
Qed.

Lemma returns_on_detector {A} (m : MotionDetector.t -> MotionDetector.t * A) :
  returns (ready c cam) (on_detector cam m) (fun _ => True).
Proof.
  intros s H. pose proof H as (_ & _ & _ & (d & Hd)).
  unfold on_detector. rewrite Hd. destruct (m d) as [d' a].
  exists a. split; [reflexivity|]. split; [exact I|apply ready_detectors, H].
Qed.

Lemma returns_start_recording frame env :
  returns (ready c cam) (start_recording cam frame env) (fun _ => True).
Proof.
  apply returns_try; [|intros e; apply returns_log].
  apply (keeps_bind (ready c cam)); [apply keeps_camera_config|intros a].
  apply keeps_bind; [apply keeps_item|intros n].
  apply keeps_bind;
    [apply keeps_on_recorder, ready_recorders
    |intros _; apply keeps_log, ready_logger].
Qed.

Lemma returns_send_motion_alert frame env :
  returns (ready c cam) (send_motion_alert cam frame env) (fun _ => True).
Proof.
  apply returns_try; [|intros e; apply returns_log].
  apply (keeps_bind (ready c cam)); [apply keeps_camera_config|intros a].
  apply keeps_bind; [apply keeps_item|intros n].
  apply keeps_deliver, ready_telegram.
Qed.

Lemma returns_stop_recording env :
  returns (ready c cam) (stop_recording cam env) (fun _ => True).
Proof.
  pose proof (keeps_stop_recording cam (ready c cam) ready_logger
                ready_telegram ready_recorders env) as Hm.
  intros s H. specialize (Hm s H). revert Hm.
  unfold stop_recording, try_except.
  match goal with |- context [?m s] =>
    match m with bind _ _ => destruct (m s) as [[a|e] s1] end end;
    cbn [fst snd]; intros Hm.
  - exists a. split; [reflexivity|]. split; [exact I|exact Hm].
  - exists tt. split; [reflexivity|]. split; [exact I|exact Hm].
Qed.

Lemma returns_update_camera_state motion_detected frame env :
  returns (ready c cam) (update_camera_state cam motion_detected frame env)
    (fun _ => True).
Proof.
  unfold update_camera_state.
  eapply returns_bind; [apply returns_camera_state|intros _ _].
  eapply returns_bind;
    [apply returns_on_recorder; intros r; eexists; reflexivity|intros _ _].
  destruct motion_detected.
  - eapply returns_bind; [apply returns_update_state, ok_seen|intros _ _].
    eapply returns_bind; [apply returns_camera_state|intros state Hst].
    eapply returns_bind with (Q1 := fun _ => True).
    { destruct (recording state); cbn [negb]; [apply returns_ret; exact I|].
      eapply returns_bind; [apply returns_camera_config|intros a ->].
      rewrite Hk. apply returns_ret. exact I. }
    intros start _. destruct start.
    + eapply returns_bind; [apply returns_start_recording|intros _ _].
      eapply returns_bind; [apply returns_update_state, ok_started|intros _ _].
      eapply returns_bind; [apply returns_config|intros s1 ->].
      rewrite Hsnap. cbn [item].
      eapply returns_bind; [apply returns_ret with (Q := fun _ => True); exact I
                           |intros wanted _].
      destruct wanted;
        [apply returns_send_motion_alert | apply returns_ret; exact I].
    + destruct (recording state);
        [apply returns_add_frame | apply returns_ret; exact I].
  - eapply returns_bind; [apply returns_camera_state|intros state Hst].
    destruct (recording state) eqn:Hrec; [|apply returns_ret; exact I].
    eapply returns_bind; [apply returns_camera_config|intros a ->].
    rewrite Hmrt, Hcd. cbn [item].
    eapply returns_bind; [apply returns_ret with (Q := fun _ => True); exact I
                         |intros mrt' _].
    eapply returns_bind; [apply returns_ret with (Q := fun _ => True); exact I
                         |intros cd' _].
    destruct (cd' <? _); [|apply returns_add_frame].
    destruct (Hst Hrec) as [t0 Ht0]. rewrite Ht0.
    eapply returns_bind; [apply returns_ret with (Q := fun _ => True); exact I
                         |intros t0' _].
    destruct (mrt' <=? _); [|apply returns_add_frame].
    eapply returns_bind; [apply returns_stop_recording|intros _ _].
    apply returns_update_state, ok_closed.
Qed.

Lemma returns_process_frame cv frame env :
  returns (ready c cam) (process_frame cv cam frame env) (fun _ => True).
Proof.
  unfold process_frame.
  eapply returns_bind; [apply returns_on_detector|intros r _].
  apply returns_update_camera_state.
Qed.

Lemma returns_process_frames cv turns :
  returns (ready c cam) (process_frames cv cam turns) (fun _ => True).
Proof.
  induction turns as [|[frame env] rest IH]; [apply returns_ret; exact I|].
  cbn [process_frames].
  eapply returns_bind; [apply returns_process_frame|intros _ _; exact IH].
Qed.



End Safety.

(** ** The supervisor: the two confirmation counters *)

Section WarmUp.

Import SurveillanceSystem Effects Hoare.

Local Arguments String.append : simpl never.

Lemma track_frames d q n :
  0 <= n -> MotionDetector.motion_frames d <= n ->
  let d' := fst (MotionDetector.track d q) in
  MotionDetector.motion_frames d' <= n + 1
  /\ MotionDetector.min_motion_frames d' = MotionDetector.min_motion_frames d
  /\ (snd (MotionDetector.track d q) = true ->
      MotionDetector.min_motion_frames d <= MotionDetector.motion_frames d').
Proof.
  intros Hn Hd. unfold MotionDetector.track.
  destruct q; cbn [fst snd MotionDetector.set_counters
                   MotionDetector.motion_frames
                   MotionDetector.min_motion_frames].
  - split; [lia|]. split; [reflexivity|]. intros H. apply Z.leb_le, H.
  - destruct (5 <? MotionDetector.no_motion_frames d + 1);
      cbn [fst snd MotionDetector.set_counters MotionDetector.motion_frames
           MotionDetector.min_motion_frames];
      (split; [lia|]; split; [reflexivity|]; intros H; apply Z.leb_le, H).
Qed.

Variables (cv : Vision) (cam : string) (cfg : CameraConfig) (c : Config).
Variables (r : VideoRecorder.t) (tb : list Delivery) (kd ks : Z).
Hypothesis Hc : cameras c !! cam = Some cfg.
Hypothesis Hks : min_motion_frames cfg = Some ks.

Lemma warm_up turns : forall s n d st,
  config s = c -> telegram_bot s = tb ->
  camera_at s cam d st r ->
  MotionDetector.min_motion_frames d = kd ->
  0 <= n -> MotionDetector.motion_frames d <= n ->
  recording st = false ->
  motion_count st <= Z.max 0 (n - kd + 1) ->
  n + Z.of_nat (length turns) < kd + ks - 1 ->
  let res := process_frames cv cam turns s in
  fst res = Ok tt
  /\ recorders (snd res) !! cam = Some r
  /\ telegram_bot (snd res) = tb
  /\ exists st', camera_states (snd res) !! cam = Some st'
                 /\ recording st' = false.
Proof.
  induction turns as [|[frame env] rest IH];
    intros s n d st Hcfg Htb (Hd & Hst & Hr) Hmin Hn Hmf Hrec Hcount Hlen.
  - cbn. split; [reflexivity|]. split; [exact Hr|]. split; [exact Htb|].
    exists st. split; assumption.
  - cbn [process_frames length] in *.
    set (d1 := fst (MotionDetector.track (MotionDetector.absorb d frame)
                      (MotionDetector.outcome cv d frame))).
    set (frame1 := snd (fst (MotionDetector.detect cv d frame))).
    set (s1 := set_motion_detectors (<[cam := d1]> (motion_detectors s)) s).
    destruct (track_frames (MotionDetector.absorb d frame)
                (MotionDetector.outcome cv d frame) n Hn Hmf)
      as (Hmf1 & Hmin1 & Hconf).
    fold d1 in Hmf1, Hmin1, Hconf.
    cbn [MotionDetector.absorb MotionDetector.min_motion_frames] in Hmin1, Hconf.
    assert (Hst1 : camera_states s1 !! cam = Some st) by exact Hst.
    assert (Hr1 : recorders s1 !! cam = Some r) by exact Hr.
    assert (Hc1 : cameras (config s1) !! cam = Some cfg).
    { change (config s1) with (config s). rewrite Hcfg. exact Hc. }
    assert (Hd1 : motion_detectors s1 !! cam = Some d1).
    { unfold s1. cbn. apply lookup_insert_eq. }
    assert (E : process_frame cv cam frame env s
                = update_camera_state cam
                    (snd (MotionDetector.track (MotionDetector.absorb d frame)
                            (MotionDetector.outcome cv d frame)))
                    frame1 env s1).
    { rewrite (process_frame_as_outcome cv cam frame env s d Hd).
      erewrite process_outcome_run by (cbn; apply lookup_insert_eq).
      cbn. rewrite insert_insert_eq. reflexivity. }
    destruct (snd (MotionDetector.track (MotionDetector.absorb d frame)
                     (MotionDetector.outcome cv d frame))) eqn:Hq.
    + assert (Hlt : motion_count st + 1 < ks) by lia.
      destruct (update_idle_counting s1 cam frame1 env st r cfg Hst1 Hr1 Hc1
                  ks Hrec Hks Hlt)
        as (s2 & E2 & (Hcfg2 & Hdet2 & Hst2 & Hr2) & Htb2 & _).
      unfold bind. rewrite E, E2.
      apply (IH s2 (n + 1) d1 (seen_motion (now env) st)).
      * rewrite Hcfg2. exact Hcfg.
      * rewrite Htb2. exact Htb.
      * split; [rewrite Hdet2; exact Hd1|]. split; assumption.
      * rewrite Hmin1. exact Hmin.
      * lia.
      * exact Hmf1.
      * exact Hrec.
      * cbn. specialize (Hconf eq_refl). lia.
      * lia.
    + unfold bind. rewrite E.
      rewrite (update_idle_quiet s1 cam frame1 env st r Hst1 Hr1 Hrec).
      apply (IH s1 (n + 1) d1 st).
      * exact Hcfg.
      * exact Htb.
      * split; [exact Hd1|]. split; assumption.
      * rewrite Hmin1. exact Hmin.
      * lia.
      * exact Hmf1.
      * exact Hrec.
      * lia.
      * lia.
Qed.

End WarmUp.

(** ** The supervisor: properties of the capture loop *)

Section SupervisorMore.

Import SurveillanceSystem Effects Hoare.

Local Arguments String.append : simpl never.










(** X12. The detector and the supervisor each count to a threshold of
    their own, one after the other: from a camera that is idle with both
    counters at zero, fewer than [kd + ks - 1] frames open no recording,
    whatever they show ([kd] the detector's [min_motion_frames], [ks] the
    one of the camera entry).  The loop body returns normally, the
    recorder is untouched, nothing is sent and the state dictionary still
    says idle. *)
Theorem no_recording_before_both_counters_fill
    cv cam cfg d st r ks turns s :
  cameras (config s) !! cam = Some cfg ->
  min_motion_frames cfg = Some ks ->
  camera_at s cam d st r ->
  MotionDetector.motion_frames d = 0 ->
  recording st = false ->
  motion_count st = 0 ->
  Z.of_nat (length turns) < MotionDetector.min_motion_frames d + ks - 1 ->
  let res := process_frames cv cam turns s in
  fst res = Ok tt
  /\ recorders (snd res) !! cam = Some r
  /\ telegram_bot (snd res) = telegram_bot s
  /\ exists st', camera_states (snd res) !! cam = Some st'
                 /\ recording st' = false.
Proof.
  intros Hc Hks Hat Hmf Hrec Hcount Hlen.
  apply (warm_up cv cam cfg (config s) r (telegram_bot s)
           (MotionDetector.min_motion_frames d) ks Hc Hks turns s 0 d st);
    try reflexivity; try assumption; lia.
Qed.

Lemma no_recording_before_both_counters_fill_witness :
  recorders (snd (process_frames Examples.one_contour "cam1"
                    (Examples.frames_at (seqZ 1 18)) Examples.idle_system))
    !! "cam1" = Some Examples.idle_sink.
Proof.
  refine (proj1 (proj2
    (no_recording_before_both_counters_fill Examples.one_contour "cam1"
       Examples.camera (MotionDetector.init MotionDetector.whole 500 10)
       {| recording := false; motion_start := None; last_motion := None;
          motion_count := 0; cooldown_until := None |}
       Examples.idle_sink 10 (Examples.frames_at (seqZ 1 18))
       Examples.idle_system _ _ _ _ _ _ _)));
    first [reflexivity | split; [reflexivity | split; reflexivity]].
Defined.

End SupervisorMore.

(** ** The recorder: stopping after a failed open *)

Section SinkFailedOpen.

Import VideoRecorder SinkOps.

Local Arguments String.append : simpl never.

Lemma add_all_queue_only frames : forall r,
  add_all frames r = set_frame_queue (frame_queue (add_all frames r)) r.
Proof.
  induction frames as [|frame rest IH]; intros r.
  - cbn. symmetry. apply set_frame_queue_id.
  - cbn [add_all fold_left]. fold (add_all rest (snd (add_frame frame r))).
    rewrite IH at 1. generalize (frame_queue (add_all rest (snd (add_frame frame r)))).
    intros q. unfold add_frame. destruct (_ && _); reflexivity.
Qed.

Lemma loop_idle n r :
  recording_thread r <> Some Running ->
  Nat.iter n recording_loop_step r = r.
Proof.
  intros H. induction n as [|n IH]; [reflexivity|].
  change (recording_loop_step (Nat.iter n recording_loop_step r) = r).
  rewrite IH. unfold recording_loop_step.
  destruct (recording_thread r) as [[|]|]; [contradiction|reflexivity..].
Qed.

(** X13. When the encoder cannot be opened, [start_recording] has
    already marked the recorder active and stored the path.  A later
    [stop_recording] therefore returns that path as if a clip had been
    saved, although no consumer thread was started and the writer has
    received no frame; the frames handed over in between are
    discarded. *)
Theorem stop_after_failed_open_returns_the_path
    first_frame timestamp clock frames drain r :
  is_recording r = false ->
  recording_thread r <> Some Running ->
  let r1 := snd (start_recording first_frame timestamp false clock r) in
  let res := stop_recording drain (add_all frames r1) in
  fst res = Ok (Some (output_dir r +:+ "/" +:+ camera_name r +:+ "_"
                      +:+ timestamp +:+ ".mp4"))
  /\ written_frames (snd res) = []
  /\ frame_queue (snd res) = []
  /\ is_recording (snd res) = false
  /\ recording_thread (snd res) = recording_thread r.
Proof.
  intros Hrec Hth r1 res.
  assert (E1 : r1 = set_video_writer
                      (Some {| target := output_dir r +:+ "/" +:+ camera_name r
                                         +:+ "_" +:+ timestamp +:+ ".mp4";
                               frame_size := (snd (shape first_frame),
                                              fst (shape first_frame));
                               isOpened := false; written := [];
                               released := false |})
                      (set_last_video_path
                         (Some (output_dir r +:+ "/" +:+ camera_name r
                                +:+ "_" +:+ timestamp +:+ ".mp4"))
                         (set_is_recording true r))).
  { unfold r1, start_recording. rewrite Hrec. reflexivity. }
  unfold res. rewrite (add_all_queue_only frames r1).
  generalize (frame_queue (add_all frames r1)). intros q.
  rewrite E1. unfold stop_recording. cbn [is_recording set_frame_queue
    set_video_writer set_last_video_path set_is_recording negb].
  cbn [recording_thread set_is_recording].
  destruct (recording_thread r) as [th|] eqn:Eth.
  - rewrite loop_idle by (cbn; congruence). cbn. rewrite Eth.
    repeat (split; [reflexivity|]). exact Eth.
  - cbn. rewrite Eth. repeat (split; [reflexivity|]). exact Eth.
Qed.

Lemma stop_after_failed_open_returns_the_path_witness :
  fst (stop_recording 100
         (add_all (repeat Examples.blank_frame 5)
            (snd (start_recording Examples.blank_frame "20240101_000000"
                    false 1700000000 Examples.idle_sink))))
  = Ok (Some "recordings/cam1_20240101_000000.mp4").
Proof.
  refine (proj1 (stop_after_failed_open_returns_the_path
                   Examples.blank_frame "20240101_000000" 1700000000
                   (repeat Examples.blank_frame 5) 100 Examples.idle_sink
                   _ _)); [reflexivity | discriminate].
Defined.

End SinkFailedOpen.

Section Agreement.

Import SurveillanceSystem Effects Hoare.

Local Arguments String.append : simpl never.

Lemma sink_stop_inactive n r :
  VideoRecorder.is_recording (snd (VideoRecorder.stop_recording n r)) = false.
Proof.
  unfold VideoRecorder.stop_recording.
  destruct (VideoRecorder.is_recording r) eqn:H; cbn [negb snd]; [|exact H].
  change (VideoRecorder.is_recording
            (match VideoRecorder.recording_thread
                     (VideoRecorder.set_is_recording false r) with
             | Some _ => Nat.iter n VideoRecorder.recording_loop_step
                           (VideoRecorder.set_is_recording false r)
             | None => VideoRecorder.set_is_recording false r
             end) = false).
  destruct (VideoRecorder.recording_thread _);
    [rewrite loop_keeps_is_recording|]; reflexivity.
Qed.

Lemma stopped_recorder cam env nm r s :
  recorders (stopped cam env nm r s) !! cam
  = Some (snd (VideoRecorder.stop_recording (drain env) r))
  /\ camera_states (stopped cam env nm r s) = camera_states s
  /\ config (stopped cam env nm r s) = config s.
Proof.
  unfold stopped.
  destruct (fst (VideoRecorder.stop_recording (drain env) r)) as [[p|]|e];
    cbn; rewrite lookup_insert_eq; repeat split.
Qed.

Variables (c : Config) (cam : string) (cfg : CameraConfig) (nm : string).
Hypothesis Hcfg : cameras c !! cam = Some cfg.
Hypothesis Hname : name cfg = Some nm.

Ltac agreed :=
  cbn [ret raise fst snd]; split; [project; assumption
         | eexists; eexists; split; [lookup | split; [lookup|]]].

Lemma agree_update motion_detected frame env :
  maintains (agree c cam) (update_camera_state cam motion_detected frame env).
Proof.
  intros s (Hc & st & r & Hst & Hr & Hag).
  assert (Hcam : cameras (config s) !! cam = Some cfg) by (rewrite Hc; exact Hcfg).
  unfold update_camera_state. exec.
  destruct motion_detected.
  - exec. destruct (recording st) eqn:Hrec; cbn [negb].
    + exec. erewrite on_recorder_add_frame by lookup. agreed.
      project. rewrite add_frame_is_recording, Hrec. exact Hag.
    + exec. destruct (min_motion_frames cfg) as [k|]; cbn [item].
      * exec. destruct (k <=? motion_count st + 1).
        -- erewrite bind_ok
             by (eapply start_recording_run;
                 [lookup | project; exact Hcam | exact Hname]).
           exec.
           match goal with
           | |- agree c cam (snd (bind (item ?o _) _ ?s1)) =>
               assert (H1 : agree c cam s1);
                 [|destruct o as [[|]|]; [|exact H1|exact H1]]
           end.
           ++ agreed. project.
              symmetry. apply sink_start_active. symmetry. exact Hag.
           ++ revert H1. apply keeps_send_motion_alert; intros ? ? H; exact H.
        -- agreed. project. rewrite Hrec. exact Hag.
      * erewrite bind_raise by reflexivity.
        agreed. project. rewrite Hrec. exact Hag.
  - assert (Hadd : agree c cam
             (snd (on_recorder cam (VideoRecorder.add_frame frame) s))).
    { erewrite on_recorder_add_frame by lookup. agreed.
      rewrite add_frame_is_recording. exact Hag. }
    exec. destruct (recording st) eqn:Hrec.
    + exec.
      destruct (min_recording_time cfg) as [mrt|]; cbn [item];
        [|erewrite bind_raise by reflexivity; agreed; rewrite Hrec; exact Hag].
      exec.
      destruct (cooldown_time cfg) as [cd|]; cbn [item];
        [|erewrite bind_raise by reflexivity; agreed; rewrite Hrec; exact Hag].
      exec.
      destruct (cd <? _); [|exact Hadd].
      destruct (motion_start st) as [ms|];
        [|erewrite bind_raise by reflexivity; agreed; rewrite Hrec; exact Hag].
      exec.
      destruct (mrt <=? _); [|exact Hadd].
      erewrite bind_ok
        by (eapply stop_recording_run; [exact Hr | exact Hcam | exact Hname]).
      destruct (stopped_recorder cam env nm r s) as (Hr' & Hst' & Hc').
      cbn [update_state modify snd]. split; [project; congruence|].
      eexists; eexists. split; [|split; [project; exact Hr'|]].
      * project. rewrite lookup_alter_eq, Hst', Hst. reflexivity.
      * project. symmetry. apply sink_stop_inactive.
    + agreed. rewrite Hrec. exact Hag.
Qed.

Lemma agree_process_frames cv turns :
  maintains (agree c cam) (process_frames cv cam turns).
Proof.
  induction turns as [|[frame env] rest IH]; [intros s H; exact H|].
  cbn [process_frames].
  apply keeps_bind; [|intros _; exact IH].
  unfold process_frame. apply keeps_bind; [|intros a; apply agree_update].
  intros s (Hc & st & r & Hst & Hr & Hag). unfold on_detector.
  destruct (motion_detectors s !! cam) as [d|];
    [|split; [exact Hc|]; exists st, r; repeat split; assumption].
  destruct (let '(d', frame', confirmed) := MotionDetector.detect cv d frame in
            (d', (frame', confirmed))) as [d' a].
  split; [exact Hc|]. exists st, r. split; [exact Hst|]. split; assumption.
Qed.

(** X14. For a camera whose configuration entry has a [name], if the
    state dictionary and the recorder agree on whether a recording is
    going on (as they do after [initialize_camera]), they agree again
    after every run of the capture-loop body: whatever frames it is
    given, whether or not encoders open, and also when the run ends with
    an exception. *)
Theorem state_and_recorder_agree_on_recording cv turns s st r :
  config s = c ->
  camera_states s !! cam = Some st ->
  recorders s !! cam = Some r ->
  recording st = VideoRecorder.is_recording r ->
  exists st' r',
    camera_states (snd (process_frames cv cam turns s)) !! cam = Some st'
    /\ recorders (snd (process_frames cv cam turns s)) !! cam = Some r'
    /\ recording st' = VideoRecorder.is_recording r'.
Proof.
  intros Hc Hst Hr Hag.
  destruct (agree_process_frames cv turns s) as (_ & st' & r' & H).
  - split; [exact Hc|]. exists st, r. split; [exact Hst|]. split; assumption.
  - exists st', r'. exact H.
Qed.

End Agreement.

Lemma state_and_recorder_agree_on_recording_witness :
  exists st' r',
    SurveillanceSystem.camera_states
      (snd (SurveillanceSystem.process_frames Examples.one_contour "cam1"
              (Examples.frames_at (seqZ 1 30)) Examples.idle_system))
      !! "cam1" = Some st'
    /\ SurveillanceSystem.recorders
         (snd (SurveillanceSystem.process_frames Examples.one_contour "cam1"
                 (Examples.frames_at (seqZ 1 30)) Examples.idle_system))
         !! "cam1" = Some r'
    /\ SurveillanceSystem.recording st' = VideoRecorder.is_recording r'.
Proof.
  eapply (state_and_recorder_agree_on_recording Examples.config "cam1"
            Examples.camera "Front door");
    reflexivity.
Defined.

(** ** The supervisor: start-up *)

Section StartUp.

Import SurveillanceSystem Effects Hoare Startup.

Local Arguments String.append : simpl never.





End StartUp.

(** ** The dashboard: which camera a recording is listed under *)

Section DashboardNames.

Import Stdlib.Strings.Ascii Dashboard.

Local Arguments String.append : simpl never.

Lemma append_cons ch a b : String ch a +:+ b = String ch (a +:+ b).
Proof. reflexivity. Qed.

Lemma append_assoc_string a b c : (a +:+ b) +:+ c = a +:+ (b +:+ c).
Proof.
  induction a as [|ch a IH]; [reflexivity|].
  rewrite !append_cons, IH. reflexivity.
Qed.

Lemma contains_append sep a b :
  contains sep (a +:+ String sep b) = true.
Proof.
  induction a as [|ch a IH].
  - change (contains sep (String sep b) = true). cbn [contains].
    rewrite Ascii.eqb_refl. reflexivity.
  - rewrite append_cons. cbn [contains]. rewrite IH. apply orb_true_r.
Qed.

Lemma first_field_append sep a b :
  first_field sep (a +:+ String sep b) = first_field sep a.
Proof.
  induction a as [|ch a IH].
  - change (first_field sep (String sep b) = EmptyString). cbn [first_field].
    rewrite Ascii.eqb_refl. reflexivity.
  - rewrite append_cons. cbn [first_field]. rewrite IH. reflexivity.
Qed.

Lemma first_field_whole sep a :
  first_field sep a = a <-> contains sep a = false.
Proof.
  induction a as [|ch a IH]; [split; reflexivity|].
  cbn [first_field contains]. destruct (Ascii.eqb ch sep); cbn [orb].
  - split; discriminate.
  - rewrite <- IH. split; [intros [= H]; exact H | intros ->; reflexivity].
Qed.

(** X16. The recorder names a clip [<camera>_<timestamp>.mp4] in its
    output directory, and the dashboard lists a clip under the part of
    the stem before the first underscore.  So a clip is listed under the
    camera identifier cut at its first underscore, which is the
    identifier itself exactly when the identifier has no underscore. *)
Theorem dashboard_lists_clip_under_first_field_of_camera
    first_frame timestamp opens clock r :
  VideoRecorder.is_recording r = false ->
  VideoRecorder.last_video_path
    (snd (VideoRecorder.start_recording first_frame timestamp opens clock r))
  = Some (VideoRecorder.output_dir r +:+ "/"
          +:+ recording_stem r timestamp +:+ ".mp4")
  /\ camera_name (recording_stem r timestamp)
     = first_field "_"%char (VideoRecorder.camera_name r)
  /\ (camera_name (recording_stem r timestamp) = VideoRecorder.camera_name r
      <-> contains "_"%char (VideoRecorder.camera_name r) = false).
Proof.
  intros Hidle.
  assert (Hname : camera_name (recording_stem r timestamp)
                  = first_field "_"%char (VideoRecorder.camera_name r)).
  { unfold camera_name, recording_stem.
    change ("_" +:+ timestamp) with (String "_"%char timestamp).
    rewrite contains_append, first_field_append. reflexivity. }
  split; [|split; [exact Hname|rewrite Hname; apply first_field_whole]].
  unfold VideoRecorder.start_recording, recording_stem. rewrite Hidle.
  rewrite !append_assoc_string.
  destruct opens; cbn [negb snd]; [|reflexivity].
  cbn [VideoRecorder.set_start_time VideoRecorder.last_video_path].
  unfold VideoRecorder.add_frame. destruct (_ && _); reflexivity.
Qed.

Lemma dashboard_lists_clip_under_first_field_of_camera_witness :
  camera_name (recording_stem MoreExamples.garden_sink "20240101_000000")
  = "back".
Proof.
  refine (proj1 (proj2
    (dashboard_lists_clip_under_first_field_of_camera Examples.blank_frame
       "20240101_000000" true 1700000000 MoreExamples.garden_sink _))).
  reflexivity.
Defined.

End DashboardNames.

(** ** The notifier: the size limit of [send_video] *)

Section Notifier.

Import TelegramBot.

Local Arguments String.append : simpl never.

Ltac unfold_bot :=
  unfold send_video, compress_video, send_document, stat, open_rb, transmit,
    run_ffmpeg, log, try_except, bind, modify, get, ret, raise;
  cbn [fst snd max_video_size outbox logger].

(** X17. [send_video] never raises, whatever the file system, FFmpeg
    and the network do, and leaves the size limit alone.  It returns
    [True] exactly when one message has reached the chat, and that
    message is within the size policy: the file itself as a video only
    if it is not over the limit, otherwise its compressed copy as a
    video only if that is under the limit, otherwise the file itself as
    a document.  When it returns [False] nothing has been sent. *)
Theorem send_video_returns_and_keeps_the_size_limit
    (w : World) (video_path caption : string) (self : t) :
  exists b,
    fst (send_video w video_path caption self) = Ok b
    /\ max_video_size (snd (send_video w video_path caption self))
       = max_video_size self
    /\ if b then
         exists msg,
           outbox (snd (send_video w video_path caption self))
           = outbox self ++ [msg]
           /\ within_policy w (max_video_size self) video_path msg
       else outbox (snd (send_video w video_path caption self)) = outbox self.
Proof.
  unfold_bot.
  destruct (st_size w video_path) as [size|] eqn:Hsize;
    cbn [fst snd max_video_size outbox logger];
    [|exists false; repeat split].
  destruct (Z.ltb_spec (max_video_size self) size) as [Hbig|Hfits].
  - destruct (ffmpeg w video_path);
      cbn [fst snd max_video_size outbox logger].
    + destruct (st_size w (compressed_path w video_path)) as [n|] eqn:Hn;
        cbn [fst snd max_video_size outbox logger].
      * destruct (Z.ltb_spec n (max_video_size self)) as [Hsmall|Hlarge];
          cbn [fst snd max_video_size outbox logger].
        -- destruct (readable w (compressed_path w video_path));
             cbn [fst snd max_video_size outbox logger];
             [|exists false; repeat split].
           destruct (accepted w _);
             cbn [fst snd max_video_size outbox logger];
             [|exists false; repeat split].
           exists true. split; [reflexivity|]. split; [reflexivity|].
           eexists. split; [reflexivity|]. exists size. split; [exact Hsize|].
           right. split; [reflexivity|]. split; [exact Hbig|].
           exists n. split; assumption.
        -- destruct (readable w video_path);
             cbn [fst snd max_video_size outbox logger];
             [|exists false; repeat split].
           destruct (accepted w _);
             cbn [fst snd max_video_size outbox logger];
             [|exists false; repeat split].
           exists true. split; [reflexivity|]. split; [reflexivity|].
           eexists. split; [reflexivity|]. exists size. split; [exact Hsize|].
           split; [reflexivity|exact Hbig].
      * destruct (readable w video_path);
          cbn [fst snd max_video_size outbox logger];
          [|exists false; repeat split].
        destruct (accepted w _);
          cbn [fst snd max_video_size outbox logger];
          [|exists false; repeat split].
        exists true. split; [reflexivity|]. split; [reflexivity|].
        eexists. split; [reflexivity|]. exists size. split; [exact Hsize|].
        split; [reflexivity|exact Hbig].
    + destruct (readable w video_path);
        cbn [fst snd max_video_size outbox logger];
        [|exists false; repeat split].
      destruct (accepted w _);
        cbn [fst snd max_video_size outbox logger];
        [|exists false; repeat split].
      exists true. split; [reflexivity|]. split; [reflexivity|].
      eexists. split; [reflexivity|]. exists size. split; [exact Hsize|].
      split; [reflexivity|exact Hbig].
  - destruct (readable w video_path);
      cbn [fst snd max_video_size outbox logger];
      [|exists false; repeat split].
    destruct (accepted w _);
      cbn [fst snd max_video_size outbox logger];
      [|exists false; repeat split].
    exists true. split; [reflexivity|]. split; [reflexivity|].
    eexists. split; [reflexivity|]. exists size. split; [exact Hsize|].
    left. split; [reflexivity|exact Hfits].
Qed.

End Notifier.

(** ** The supervisor: a camera entry without a name *)

Section Nameless.

Import SurveillanceSystem Effects Hoare.

Local Arguments String.append : simpl never.

Variables (c : Config) (cam : string) (cfg : CameraConfig).
Variables (r : VideoRecorder.t) (tb : list Delivery).
Hypothesis Hcfg : cameras c !! cam = Some cfg.
Hypothesis Hname : name cfg = None.
Hypothesis Hidle : VideoRecorder.is_recording r = false.

Lemma dormant_on_recorder {A} (m : M VideoRecorder.t A) :
  snd (m r) = r -> maintains (dormant c cam r tb) (on_recorder cam m).
Proof.
  intros Hm s (Hc & Hr & Htb). rewrite (on_recorder_run _ _ _ _ Hr).
  split; [exact Hc|]. split; [|exact Htb].
  cbn. rewrite lookup_insert_eq, Hm. reflexivity.
Qed.

Lemma dormant_add_frame frame :
  maintains (dormant c cam r tb)
    (on_recorder cam (VideoRecorder.add_frame frame)).
Proof.
  apply dormant_on_recorder. unfold VideoRecorder.add_frame.
  rewrite Hidle. reflexivity.
Qed.

Lemma dormant_update_state f :
  maintains (dormant c cam r tb) (update_state cam f).
Proof. intros s H. exact H. Qed.

Lemma dormant_start_recording frame env :
  maintains (dormant c cam r tb) (start_recording cam frame env).
Proof.
  intros s (Hc & Hr & Htb).
  unfold start_recording, try_except, bind, camera_config.
  rewrite Hc, Hcfg. cbn [item ret fst snd]. rewrite Hname.
  cbn. split; [exact Hc|]. split; assumption.
Qed.

Lemma dormant_send_motion_alert frame env :
  maintains (dormant c cam r tb) (send_motion_alert cam frame env).
Proof.
  intros s (Hc & Hr & Htb).
  unfold send_motion_alert, try_except, bind, camera_config.
  rewrite Hc, Hcfg. cbn [item ret fst snd]. rewrite Hname.
  cbn. split; [exact Hc|]. split; assumption.
Qed.

Lemma dormant_stop_recording env :
  maintains (dormant c cam r tb) (stop_recording cam env).
Proof.
  intros s (Hc & Hr & Htb).
  unfold stop_recording, try_except, bind.
  rewrite (on_recorder_run _ _ _ _ Hr).
  unfold VideoRecorder.stop_recording. rewrite Hidle. cbn [negb fst snd ret].
  split; [exact Hc|]. split; [|exact Htb].
  project. apply lookup_insert_eq.
Qed.

Lemma dormant_update motion_detected frame env :
  maintains (dormant c cam r tb)
    (update_camera_state cam motion_detected frame env).
Proof.
  unfold update_camera_state.
  apply keeps_bind; [apply keeps_camera_state|intros _].
  apply keeps_bind; [apply dormant_on_recorder; reflexivity|intros _].
  destruct motion_detected.
  - apply keeps_bind; [apply dormant_update_state|intros _].
    apply keeps_bind; [apply keeps_camera_state|intros state].
    apply keeps_bind.
    { apply keeps_if; [|apply keeps_ret].
      apply keeps_bind; [apply keeps_camera_config|intros a].
      apply keeps_bind; [apply keeps_item|intros k; apply keeps_ret]. }
    intros start. destruct start.
    + apply keeps_bind; [apply dormant_start_recording|intros _].
      apply keeps_bind; [apply dormant_update_state|intros _].
      apply keeps_bind; [apply keeps_get|intros s1].
      apply keeps_bind; [apply keeps_item|intros wanted].
      apply keeps_if; [apply dormant_send_motion_alert | apply keeps_ret].
    + apply keeps_if; [apply dormant_add_frame | apply keeps_ret].
  - apply keeps_bind; [apply keeps_camera_state|intros state].
    apply keeps_if; [|apply keeps_ret].
    apply keeps_bind; [apply keeps_camera_config|intros a].
    apply keeps_bind; [apply keeps_item|intros mrt].
    apply keeps_bind; [apply keeps_item|intros cd].
    apply keeps_if; [|apply dormant_add_frame].
    apply keeps_bind; [apply keeps_option; [intros ?|]|intros ms].
    { apply keeps_ret. }
    { apply keeps_raise. }
    apply keeps_if; [|apply dormant_add_frame].
    apply keeps_bind; [apply dormant_stop_recording|intros _].
    apply dormant_update_state.
Qed.

Lemma dormant_process_frames cv turns :
  maintains (dormant c cam r tb) (process_frames cv cam turns).
Proof.
  induction turns as [|[frame env] rest IH]; [apply keeps_ret|].
  cbn [process_frames].
  apply keeps_bind; [|intros _; exact IH].
  unfold process_frame.
  apply keeps_bind; [|intros a; apply dormant_update].
  apply keeps_on_detector. intros s d H. exact H.
Qed.

(** X18. [process_camera_stream] falls back to the camera identifier
    when the entry has no [name], but [start_recording] and
    [send_motion_alert] read the key without a default and swallow the
    [KeyError].  For such a camera, starting with its recorder
    inactive, the capture loop never changes the recorder, which stays
    inactive, and sends nothing to the chat, whatever frames it sees: no
    clip is ever recorded. *)
Theorem camera_without_a_name_never_records cv turns s :
  config s = c ->
  recorders s !! cam = Some r ->
  telegram_bot s = tb ->
  let s' := snd (process_frames cv cam turns s) in
  recorders s' !! cam = Some r /\ telegram_bot s' = tb.
Proof.
  intros Hc Hr Htb s'.
  destruct (dormant_process_frames cv turns s) as (_ & Hr' & Htb').
  - split; [exact Hc|]. split; assumption.
  - split; assumption.
Qed.

End Nameless.

Lemma camera_without_a_name_never_records_witness :
  SurveillanceSystem.recorders
    (snd (SurveillanceSystem.process_frames Examples.one_contour "cam1"
            (Examples.frames_at (seqZ 1 30)) MoreExamples.nameless_system))
    !! "cam1" = Some Examples.idle_sink.
Proof.
  refine (proj1 (camera_without_a_name_never_records
                   (SurveillanceSystem.config MoreExamples.nameless_system)
                   "cam1" MoreExamples.nameless_camera Examples.idle_sink []
                   _ _ _ Examples.one_contour
                   (Examples.frames_at (seqZ 1 30))
                   MoreExamples.nameless_system _ _ _));
    reflexivity.
Defined.
